(** * WasteWise backend: the response reconciler, the point score, the level
      table, the upload validators, the scan records and the educational
      content

    A shallow embedding of

    - [backend/app/core/config.py]              (module [Config]),
    - [backend/app/services/gemini_service.py]  (modules [GeminiService] and
                                                 [GeminiFlow]),
    - [backend/app/utils/image_processor.py]    (modules [ImageProcessor],
                                                 [ImageCodec] and
                                                 [ImageResize]),
    - [backend/app/api/routes/waste.py]         (modules [Waste] and
                                                 [Records]),

    over a small model of the Python values these functions manipulate
    (modules [Py] and [PyOps]).  Library calls whose code is not part of the
    repository ([json.loads], [float] on a string, [magic.from_buffer],
    [Image.open], [base64.b64decode], [base64.b64encode], the reply of the
    generative model, [datetime.utcnow]) are fields of the classes
    [PyRuntime], [ImagingLib], [Base64Encoder], [EducationModel] and
    [Clock]: every general theorem holds for all their behaviours.  The
    Firestore collections are finite maps from document ids to documents.
    Modules [Ref] and [RefCodec] give executable reference instances, used
    where a statement is evaluated on a concrete input. *)

From Stdlib Require Import ZArith Floats String Ascii List Lia Bool DecimalString.
From stdpp Require Import gmap strings list fin_maps sorting.

Set Warnings "-register-all,-inexact-float".
Local Open Scope string_scope.
Local Open Scope Z_scope.

(* ===================================================================== *)
(** * Python values, exceptions and the string methods the code calls     *)
(* ===================================================================== *)

Module Py.

(** What [json.loads] can return, and what the dictionaries of the service
    hold.  A [float] is an IEEE binary64, as in CPython; an [int] is
    unbounded; a [dict] with string keys is a finite map (dictionary equality
    in Python does not look at insertion order). *)
Inductive pyval : Type :=
| PNone
| PBool (b : bool)
| PInt (z : Z)
| PFloat (f : float)
| PStr (s : string)
| PList (l : list pyval)
| PDict (d : gmap string pyval).

(** The exception classes that reach an [except] clause of the modelled
    code.  [JSONDecodeError] is listed apart from [ValueError] because the
    reconciler has a handler of its own for it. *)
Inductive pyexn : Type :=
| JSONDecodeError
| ValueError (msg : string)
| TypeError
| KeyError (key : string)
| AttributeError
| OverflowError
| ZeroDivisionError.

(** A computation that returns or raises. *)
Inductive result (A : Type) : Type :=
| Ok (a : A)
| Raise (e : pyexn).
Arguments Ok {A} a.
Arguments Raise {A} e.

#[global] Instance result_ret : MRet result := fun _ a => Ok a.
#[global] Instance result_bind : MBind result := fun _ _ k m =>
  match m with
  | Ok a => k a
  | Raise e => Raise e
  end.

Definition is_Ok {A} (m : result A) : Prop := exists a, m = Ok a.

(** ** Truth value and equality with a string *)

(** [bool(v)]: [None], [False], zero, and the empty string, list and dict are
    false; everything else (a NaN too) is true. *)
Definition truthy (v : pyval) : bool :=
  match v with
  | PNone => false
  | PBool b => b
  | PInt z => negb (z =? 0)
  | PFloat f => negb (PrimFloat.eqb f 0%float)
  | PStr s => negb (String.eqb s "")
  | PList l => match l with [] => false | _ :: _ => true end
  | PDict d => negb (bool_decide (dom d = ∅))
  end.

(** [v == s] for a string [s]: only a string is equal to a string. *)
Definition eq_str (v : pyval) (s : string) : bool :=
  match v with
  | PStr s' => String.eqb s' s
  | _ => false
  end.

(** [v in l] for a list of strings [l] (list membership compares with [==]). *)
Definition in_str_list (v : pyval) (l : list string) : bool :=
  existsb (eq_str v) l.

(** ** [str] methods *)

Definition len (s : string) : Z := Z.of_nat (String.length s).

Fixpoint str_drop (n : nat) (s : string) : string :=
  match n, s with
  | O, _ => s
  | S _, EmptyString => EmptyString
  | S n', String _ s' => str_drop n' s'
  end.

Fixpoint str_take (n : nat) (s : string) : string :=
  match n, s with
  | O, _ => EmptyString
  | S _, EmptyString => EmptyString
  | S n', String c s' => String c (str_take n' s')
  end.

(** First index [>= i] at which [sub] starts, where [s] is the part of the
    text from index [i] on; [-1] when there is none. *)
Fixpoint find_from (sub s : string) (i : Z) : Z :=
  if String.prefix sub s then i
  else match s with
       | EmptyString => -1
       | String _ s' => find_from sub s' (i + 1)
       end.

(** [s.find(sub, start)].  A negative [start] counts from the end; a [start]
    beyond the end finds nothing. *)
Definition find (s sub : string) (start : Z) : Z :=
  let start := if start <? 0 then Z.max 0 (len s + start) else start in
  if len s <? start then -1
  else find_from sub (str_drop (Z.to_nat start) s) start.

(** [sub in s]. *)
Definition contains (sub s : string) : bool := 0 <=? find s sub 0.

(** A slice bound brought into [0 .. len]. *)
Definition slice_index (n i : Z) : Z :=
  if i <? 0 then Z.max 0 (n + i) else Z.min i n.

(** [s[a:b]]. *)
Definition slice (s : string) (a b : Z) : string :=
  let a' := slice_index (len s) a in
  let b' := slice_index (len s) b in
  str_take (Z.to_nat (b' - a')) (str_drop (Z.to_nat a') s).

(** [c.isspace()] for a character below U+0100: the ASCII white space, the
    four separators U+001C..U+001F, U+0085 and U+00A0.  (A character of a
    [string] stands for one code point; the texts of the examples are
    ASCII.) *)
Definition isspace (c : ascii) : bool :=
  let n := N_of_ascii c in
  ((9 <=? n) && (n <=? 13) || (28 <=? n) && (n <=? 32)
   || (n =? 133) || (n =? 160))%N.

Fixpoint lstrip (s : string) : string :=
  match s with
  | EmptyString => EmptyString
  | String c s' => if isspace c then lstrip s' else s
  end.

Fixpoint rstrip (s : string) : string :=
  match s with
  | EmptyString => EmptyString
  | String c s' =>
      match rstrip s' with
      | EmptyString => if isspace c then EmptyString else String c EmptyString
      | r => String c r
      end
  end.

(** [s.strip()]. *)
Definition strip (s : string) : string := rstrip (lstrip s).

(** ** Container operations on a value of unknown type *)

(** [key in container]: key membership for a dict, element membership for a
    list, substring test for a string; [TypeError] otherwise. *)
Definition py_contains (container : pyval) (key : string) : result bool :=
  match container with
  | PDict d => Ok (bool_decide (is_Some (d !! key)))
  | PList l => Ok (existsb (fun v => eq_str v key) l)
  | PStr s => Ok (contains key s)
  | _ => Raise TypeError
  end.

(** [container[key]] with a string key: only a dict can be subscripted so. *)
Definition py_getitem (container : pyval) (key : string) : result pyval :=
  match container with
  | PDict d =>
      match d !! key with
      | Some v => Ok v
      | None => Raise (KeyError key)
      end
  | _ => Raise TypeError
  end.

(** ** Numbers *)

(** [float(z)] for an [int]: the nearest binary64, ties to even;
    [OverflowError] when that is not finite. *)
Definition float_of_int (z : Z) : result float :=
  match binary_normalize prec emax z 0 false with
  | S754_infinity _ => Raise OverflowError
  | sf => Ok (SF2Prim sf)
  end.

(** [min(a, b)] and [max(a, b)] on floats, as the builtins compute them: the
    first argument is kept unless the second is strictly smaller (larger). *)
Definition min2 (a b : float) : float := if PrimFloat.ltb b a then b else a.
Definition max2 (a b : float) : float := if PrimFloat.ltb a b then b else a.

(** [v >= 0.9], the one ordering test of the service.  An [int] (or a
    [bool], which is an [int]) is compared exactly, so it passes from 1 on;
    [None], strings and containers do not order against a float. *)
Definition ge_0_9 (v : pyval) : result bool :=
  match v with
  | PFloat f => Ok (PrimFloat.leb 0.9%float f)
  | PInt z => Ok (1 <=? z)
  | PBool b => Ok b
  | _ => Raise TypeError
  end.

(** [v >= t] for an [int] [t].  Python compares an [int] and a [float] by
    their exact values. *)
Definition float_ge_int (f : float) (t : Z) : bool :=
  match Prim2SF f with
  | S754_nan => false
  | S754_infinity s => negb s
  | S754_zero _ => t <=? 0
  | S754_finite s m e =>
      let m := if s then Z.neg m else Z.pos m in
      if 0 <=? e then t <=? m * 2 ^ e else t * 2 ^ (- e) <=? m
  end.

Definition ge_int (v : pyval) (t : Z) : result bool :=
  match v with
  | PInt z => Ok (t <=? z)
  | PBool b => Ok (t <=? Z.b2z b)
  | PFloat f => Ok (float_ge_int f t)
  | _ => Raise TypeError
  end.

(** [t - v] for an [int] [t]: an [int] when [v] is one, else the [float]
    difference after [t] has been converted. *)
Definition int_sub (t : Z) (v : pyval) : result pyval :=
  match v with
  | PInt z => Ok (PInt (t - z))
  | PBool b => Ok (PInt (t - Z.b2z b))
  | PFloat f => x ← float_of_int t; Ok (PFloat (x - f)%float)
  | _ => Raise TypeError
  end.

End Py.

(** The library functions the service calls; [None] stands for the
    function raising ([json.JSONDecodeError], resp. [ValueError]). *)
Class PyRuntime := {
  json_loads : string -> option Py.pyval;
  float_of_str : string -> option float
}.

(* ===================================================================== *)
(** * [core/config.py]                                                    *)
(* ===================================================================== *)

Module Config.
Import Py.

(** The fields of [Settings] the modelled code reads. *)
Record Settings := {
  MAX_UPLOAD_SIZE : Z;
  ALLOWED_IMAGE_TYPES : list string;
  WASTE_CATEGORIES : list string;
  POINTS_CORRECT_DISPOSAL : Z;
  LEVEL_THRESHOLDS : gmap Z Z
}.

(** [settings = get_settings()], with the defaults of the class. *)
Definition settings : Settings := {|
  MAX_UPLOAD_SIZE := 10 * 1024 * 1024;
  ALLOWED_IMAGE_TYPES := ["image/jpeg"; "image/png"; "image/jpg"; "image/webp"];
  WASTE_CATEGORIES :=
    ["Recyclable Plastic"; "Paper & Cardboard"; "Organic/Compost";
     "Hazardous Waste"; "Non-Recyclable"; "Metal & Glass"; "E-Waste";
     "Unknown"];
  POINTS_CORRECT_DISPOSAL := 50;
  LEVEL_THRESHOLDS :=
    list_to_map [(1, 0); (2, 200); (3, 500); (4, 1000); (5, 2000);
                 (6, 5000); (7, 10000)]
|}.

(** One entry of [WASTE_DISPOSAL_GUIDES]; every entry of the table has these
    five keys. *)
Record DisposalGuide := {
  bin_color : string;
  instructions : list string;
  examples : list string;
  co2_saved_per_kg : float;
  decomposition_time : string
}.

Definition WASTE_DISPOSAL_GUIDES : gmap string DisposalGuide :=
  list_to_map [
    ("Recyclable Plastic",
     {| bin_color := "BLUE";
        instructions := ["Remove caps and labels if possible";
                         "Rinse clean of food residue";
                         "Flatten bottles to save space";
                         "Place in blue recycling bin"];
        examples := ["Plastic bottles"; "Food containers"; "Plastic bags"];
        co2_saved_per_kg := 1.5;
        decomposition_time := "450 years" |});
    ("Paper & Cardboard",
     {| bin_color := "BLUE";
        instructions := ["Keep dry and clean";
                         "Flatten cardboard boxes";
                         "Remove any plastic tape or stickers";
                         "Place in blue recycling bin"];
        examples := ["Newspapers"; "Cardboard boxes"; "Office paper"];
        co2_saved_per_kg := 0.9;
        decomposition_time := "2-6 weeks" |});
    ("Organic/Compost",
     {| bin_color := "GREEN";
        instructions := ["Remove any plastic or packaging";
                         "Can mix with yard waste";
                         "Keep in green compost bin";
                         "Avoid meat and dairy (for home composting)"];
        examples := ["Food scraps"; "Fruit peels"; "Coffee grounds"];
        co2_saved_per_kg := 0.3;
        decomposition_time := "2-4 weeks" |});
    ("Hazardous Waste",
     {| bin_color := "RED";
        instructions := ["DO NOT mix with regular trash";
                         "Store safely until drop-off";
                         "Take to hazardous waste facility";
                         "Follow local regulations"];
        examples := ["Batteries"; "Paint"; "Chemicals"; "Fluorescent bulbs"];
        co2_saved_per_kg := 0.0;
        decomposition_time := "Never decomposes safely" |});
    ("Metal & Glass",
     {| bin_color := "BLUE";
        instructions := ["Rinse containers clean";
                         "Remove lids and caps";
                         "Can mix metals and glass";
                         "Place in blue recycling bin"];
        examples := ["Aluminum cans"; "Steel cans"; "Glass bottles"];
        co2_saved_per_kg := 2.1;
        decomposition_time := "Glass: 1M years, Metal: 50-200 years" |});
    ("E-Waste",
     {| bin_color := "SPECIAL";
        instructions := ["Remove batteries if possible";
                         "Wipe personal data from devices";
                         "Take to e-waste collection center";
                         "Check for manufacturer take-back programs"];
        examples := ["Old phones"; "Computers"; "Cables"; "Appliances"];
        co2_saved_per_kg := 1.8;
        decomposition_time := "Never decomposes, toxic materials" |});
    ("Non-Recyclable",
     {| bin_color := "BLACK/GREY";
        instructions := ["Place in general waste bin";
                         "Seal in bag if contaminated";
                         "Consider reducing usage of these items";
                         "Check if alternative disposal exists"];
        examples := ["Styrofoam"; "Dirty plastics"; "Mixed materials"];
        co2_saved_per_kg := 0.0;
        decomposition_time := "Varies, often hundreds of years" |})
  ].

(** A list of strings as the Python list it is in the table. *)
Definition str_list (l : list string) : pyval := PList (PStr <$> l).

End Config.

(* ===================================================================== *)
(** * [services/gemini_service.py]                                        *)
(* ===================================================================== *)

Module GeminiService.
Import Py Config.

(** [_create_fallback_response(raw_response)]. *)
Definition _create_fallback_response (raw_response : string)
  : gmap string pyval :=
  list_to_map [
    ("item_name", PStr "Unknown Item");
    ("category", PStr "Unknown");
    ("confidence", PFloat 0.3);
    ("subcategory", PStr "Unidentified");
    ("recyclable", PBool false);
    ("disposal_steps",
     str_list ["Unable to identify waste type clearly";
               "Please retake photo with better lighting";
               "Ensure the item is clearly visible";
               "Consult local waste management guidelines"]);
    ("bin_color", PStr "GREY");
    ("environmental_impact",
     PDict (list_to_map [("co2_saved_kg", PFloat 0.0);
                         ("decomposition_time", PStr "Unknown");
                         ("recycling_potential", PStr "Unknown")]));
    ("additional_tips",
     str_list ["Try taking a clearer photo";
               "Ensure good lighting";
               "Focus on one item at a time"]);
    ("warnings",
     str_list ["Could not identify waste type with high confidence"]);
    ("alternatives", PStr "Please try scanning again");
    ("raw_ai_response", PStr (slice raw_response 0 500))
  ].

(** The first statement of the [try] block of [_parse_gemini_response]: the
    text between a fence marker and the next one, stripped; the text itself
    when it has no marker.  None of these calls can raise, and the result is
    bound to the parameter [response_text] again. *)
Definition extract_json_text (response_text : string) : string :=
  if contains "```json" response_text then
    let json_start := find response_text "```json" 0 + 7 in
    let json_end := find response_text "```" json_start in
    strip (slice response_text json_start json_end)
  else if contains "```" response_text then
    let json_start := find response_text "```" 0 + 3 in
    let json_end := find response_text "```" json_start in
    strip (slice response_text json_start json_end)
  else response_text.

Definition required_fields : list string :=
  ["item_name"; "category"; "confidence"].

(** [for field in required_fields: if field not in data: raise ValueError]. *)
Fixpoint check_required (data : pyval) (fields : list string) : result unit :=
  match fields with
  | [] => Ok tt
  | field :: fields' =>
      present ← py_contains data field;
      if present : bool then check_required data fields'
      else Raise (ValueError ("Missing required field: " +:+ field))
  end.

(** [d.setdefault(key, value)] on a dict. *)
Definition setdefault (key : string) (value : pyval) (d : gmap string pyval)
  : gmap string pyval :=
  match d !! key with
  | Some _ => d
  | None => <[key := value]> d
  end.

(** [value in WASTE_DISPOSAL_GUIDES], with the entry when there is one: a
    list or a dict cannot be hashed, any other value that is not a string
    is no key of the table. *)
Definition guide_for (value : pyval) : result (option DisposalGuide) :=
  match value with
  | PStr s => Ok (WASTE_DISPOSAL_GUIDES !! s)
  | PList _ | PDict _ => Raise TypeError
  | _ => Ok None
  end.

(** The block under [if data["category"] in WASTE_DISPOSAL_GUIDES:]. *)
Definition merge_guide (guide : DisposalGuide) (data : gmap string pyval)
  : result (gmap string pyval) :=
  let data :=
    match data !! "disposal_steps" with
    | Some steps =>
        if truthy steps then data
        else <["disposal_steps" := str_list (instructions guide)]> data
    | None => <["disposal_steps" := str_list (instructions guide)]> data
    end in
  let data :=
    match data !! "bin_color" with
    | Some _ => data
    | None => <["bin_color" := PStr (bin_color guide)]> data
    end in
  let data :=
    match data !! "environmental_impact" with
    | Some _ => data
    | None => <["environmental_impact" := PDict ∅]> data
    end in
  match data !! "environmental_impact" with
  | Some (PDict impact) =>
      let impact :=
        setdefault "co2_saved_kg" (PFloat (co2_saved_per_kg guide)) impact in
      let impact :=
        setdefault "decomposition_time" (PStr (decomposition_time guide))
          impact in
      let data := <["environmental_impact" := PDict impact]> data in
      Ok (<["examples" := str_list (examples guide)]> data)
  | Some _ => Raise AttributeError
  | None => Raise (KeyError "environmental_impact")
  end.

Section Service.
Context {rt : PyRuntime}.

(** [float(v)]. *)
Definition py_float (v : pyval) : result float :=
  match v with
  | PFloat f => Ok f
  | PInt z => float_of_int z
  | PBool b => Ok (if b then 1.0 else 0.0)%float
  | PStr s =>
      match float_of_str s with
      | Some f => Ok f
      | None => Raise (ValueError "could not convert string to float")
      end
  | _ => Raise TypeError
  end.

(** The rest of the [try] block, from [json.loads] to [return data]. *)
Definition parse_and_validate (response_text : string)
  : result (gmap string pyval) :=
  data ← match json_loads response_text with
         | Some v => Ok v
         | None => Raise JSONDecodeError
         end;
  _ ← check_required data required_fields;
  category ← py_getitem data "category";
  match data with
  | PDict data =>
      let data :=
        if negb (in_str_list category (WASTE_CATEGORIES settings))
        then <["category" := PStr "Unknown"]> data
        else data in
      confidence ← py_float (default (PFloat 0.5) (data !! "confidence"));
      let data :=
        <["confidence" := PFloat (max2 0.0 (min2 1.0 confidence))]> data in
      category ← py_getitem (PDict data) "category";
      guide ← guide_for category;
      match guide with
      | Some guide => merge_guide guide data
      | None => Ok data
      end
  | _ => Raise TypeError
  end.

(** [_parse_gemini_response(response_text)]: both handlers return the
    fallback built from [response_text] as the [try] block left it. *)
Definition _parse_gemini_response (response_text : string)
  : gmap string pyval :=
  let response_text := extract_json_text response_text in
  match parse_and_validate response_text with
  | Ok data => data
  | Raise JSONDecodeError => _create_fallback_response response_text
  | Raise _ => _create_fallback_response response_text
  end.

End Service.

(** [_calculate_points(waste_data)]. *)
Definition _calculate_points (waste_data : gmap string pyval) : result Z :=
  let base_points := POINTS_CORRECT_DISPOSAL settings in
  high ← ge_0_9 (default (PInt 0) (waste_data !! "confidence"));
  let base_points := if high : bool then base_points + 10 else base_points in
  let base_points :=
    if truthy (default (PBool false) (waste_data !! "recyclable"))
    then base_points + 20 else base_points in
  let base_points :=
    if in_str_list (default PNone (waste_data !! "category"))
         ["Hazardous Waste"; "E-Waste"]
    then base_points + 30 else base_points in
  Ok base_points.

End GeminiService.

(* ===================================================================== *)
(** * Vocabulary of the statements                                        *)
(* ===================================================================== *)

Module Terms.
Import Py Config GeminiService.

(** The parsed object has the three required fields. *)
Definition has_required_fields (d : gmap string pyval) : Prop :=
  is_Some (d !! "item_name") /\ is_Some (d !! "category")
  /\ is_Some (d !! "confidence").

(** The reply is parsed successfully: the [try] block of the reconciler
    returns, no step of it raises. *)
Definition parsed_successfully {rt : PyRuntime} (response_text : string)
  : Prop :=
  is_Ok (parse_and_validate (extract_json_text response_text)).

(** The category after the validation step: the value itself when it is one
    of the configured categories, ["Unknown"] otherwise. *)
Definition coerced_category (category : pyval) : string :=
  match category with
  | PStr s =>
      if in_str_list category (WASTE_CATEGORIES settings) then s else "Unknown"
  | _ => "Unknown"
  end.

(** [max(0.0, min(1.0, f))]. *)
Definition clamp01 (f : float) : float := max2 0 (min2 1 f).

(** The object after the category and the confidence have been validated. *)
Definition validated (d : gmap string pyval) (category : pyval) (f : float)
  : gmap string pyval :=
  <["confidence" := PFloat (clamp01 f)]>
    (<["category" := PStr (coerced_category category)]> d).

(** The entry [environmental_impact] is absent or an object. *)
Definition impact_absent_or_object (d : gmap string pyval) : Prop :=
  match d !! "environmental_impact" with
  | None | Some (PDict _) => True
  | Some _ => False
  end.

(** The object under [environmental_impact], empty when there is none. *)
Definition impact_of (d : gmap string pyval) : gmap string pyval :=
  match d !! "environmental_impact" with
  | Some (PDict impact) => impact
  | _ => ∅
  end.

(** The keys the merge with the disposal guide may write. *)
Definition merged_keys : list string :=
  ["disposal_steps"; "bin_color"; "environmental_impact"; "examples"].

(** ** Fenced texts *)

Fixpoint all_space (s : string) : bool :=
  match s with
  | EmptyString => true
  | String c s' => isspace c && all_space s'
  end.

(** A text in braces: what a JSON object looks like from outside. *)
Definition object_text (body : string) : string := "{" +:+ body +:+ "}".

(** [j] with white space [pre] before and [post] after it. *)
Definition padded (pre j post : string) : string := pre +:+ j +:+ post.

(** [j] in a fenced code block, with and without the language tag. *)
Definition fence_json (pre j post : string) : string :=
  "```json" +:+ padded pre j post +:+ "```".

Definition fence_plain (pre j post : string) : string :=
  "```" +:+ padded pre j post +:+ "```".

(** ** Levels, in the words of the specification *)

(** The levels whose threshold is at most [total_points]. *)
Definition levels_reached (total_points : Z) : list Z :=
  (filter (fun p => p.2 <= total_points)
     (map_to_list (LEVEL_THRESHOLDS settings))).*1.

(** The highest of them. *)
Definition highest_level_reached (total_points : Z) : Z :=
  foldr Z.max 0 (levels_reached total_points).

(** The gap from [total_points] to the threshold of the level after [level];
    [None] ([null] in the response) when there is no such level. *)
Definition gap_to_next_level (level total_points : Z) : pyval :=
  match LEVEL_THRESHOLDS settings !! (level + 1) with
  | Some threshold => PInt (threshold - total_points)
  | None => PNone
  end.

End Terms.

(* ===================================================================== *)
(** * Numbers as text, and the imaging and encoding libraries             *)
(* ===================================================================== *)

Module Fmt.
Import Py.

(** The binary64 nearest to [n / d] (ties to even) for [0 <= n], [0 < d],
    with sign [sx]: the quotient is taken with 66 extra bits and the
    remainder decides the rounding direction. *)
Definition round_ratio (sx : bool) (n d : Z) : spec_float :=
  if n =? 0 then S754_zero sx
  else
    let s := Z.max 0 (Z.log2 d + 66 - Z.log2 n) in
    let q := (n * 2 ^ s) / d in
    let r := (n * 2 ^ s) mod d in
    let l := if r =? 0 then loc_Exact
             else loc_Inexact (Z.compare (2 * r) d) in
    binary_round_aux prec emax sx q (- s) l.

(** [a / b] on two [int]s: the correctly rounded quotient. *)
Definition true_div (a b : Z) : result float :=
  if b =? 0 then Raise ZeroDivisionError
  else
    match round_ratio (xorb (a <? 0) (b <? 0)) (Z.abs a) (Z.abs b) with
    | S754_infinity _ => Raise OverflowError
    | sf => Ok (SF2Prim sf)
    end.

(** [n / d] rounded to an integer, ties to even ([0 <= n], [0 < d]). *)
Definition round_half_even (n d : Z) : Z :=
  let q := n / d in
  let r := n mod d in
  match Z.compare (2 * r) d with
  | Lt => q
  | Gt => q + 1
  | Eq => if Z.even q then q else q + 1
  end.

(** [str(z)] for an [int]. *)
Definition string_of_int (z : Z) : string :=
  DecimalString.NilZero.string_of_int (Z.to_int z).

(** [f"{x:.1f}"]: the exact value of [x], rounded to one decimal (ties to
    even), with at least one digit before the point. *)
Definition format_1f (x : float) : string :=
  match Prim2SF x with
  | S754_nan => "nan"
  | S754_infinity s => if s then "-inf" else "inf"
  | S754_zero s => if s then "-0.0" else "0.0"
  | S754_finite s m e =>
      let tenths :=
        if 0 <=? e then Z.pos m * 2 ^ e * 10
        else round_half_even (Z.pos m * 10) (2 ^ (- e)) in
      (if s then "-" else "") +:+
      string_of_int (tenths / 10) +:+ "." +:+ string_of_int (tenths mod 10)
  end.

End Fmt.

(** The libraries behind the image validator and the base64 endpoint. *)
Class ImagingLib := {
  (** [magic.from_buffer(data, mime=True)]; [None] when it raises. *)
  magic_from_buffer : list Byte.byte -> option string;
  (** [Image.open(io.BytesIO(data))], [verify()] and [size]: the width and
      height, or the text of the exception. *)
  image_open_verify : list Byte.byte -> string + (Z * Z);
  (** [Path(filename).suffix.lower()]. *)
  path_suffix_lower : string -> string;
  (** [base64.b64decode(s)]: the bytes, or the text of the exception. *)
  b64decode : string -> string + list Byte.byte
}.

(* ===================================================================== *)
(** * [utils/image_processor.py]                                          *)
(* ===================================================================== *)

Module ImageProcessor.
Import Py Config Fmt.

(** The attributes [__init__] sets. *)
Record t := {
  max_size : Z;
  allowed_types : list string;
  max_dimension : Z;
  optimal_dimension : Z;
  thumbnail_size : Z * Z
}.

(** [ImageProcessor()], reading the given settings. *)
Definition init (cfg : Settings) : t := {|
  max_size := MAX_UPLOAD_SIZE cfg;
  allowed_types := ALLOWED_IMAGE_TYPES cfg;
  max_dimension := 4096;
  optimal_dimension := 1024;
  thumbnail_size := (300, 300)
|}.

Definition bytes_len (data : list Byte.byte) : Z := Z.of_nat (length data).

(** [c.upper()] on an ASCII letter (the configured types are ASCII). *)
Definition upper_char (c : ascii) : ascii :=
  let n := N_of_ascii c in
  if ((97 <=? n) && (n <=? 122))%N then ascii_of_N (n - 32) else c.

Fixpoint upper (s : string) : string :=
  match s with
  | EmptyString => EmptyString
  | String c s' => String (upper_char c) (upper s')
  end.

(** [t.split('/')[1]]: the text between the first and the second slash;
    [None] ([IndexError]) when [t] has no slash. *)
Definition split_slash_1 (t : string) : option string :=
  let i := find t "/" 0 in
  if i <? 0 then None
  else
    let rest := slice t (i + 1) (len t) in
    let j := find rest "/" 0 in
    Some (if j <? 0 then rest else slice rest 0 j).

Fixpoint join (sep : string) (l : list string) : string :=
  match l with
  | [] => ""
  | [x] => x
  | x :: l' => x +:+ sep +:+ join sep l'
  end.

(** [", ".join([t.split('/')[1].upper() for t in self.allowed_types])]. *)
Definition allowed_names (types : list string) : option string :=
  names ← mapM (fun t => upper <$> split_slash_1 t) types;
  Some (join ", " names).

Section Validation.
Context {lib : ImagingLib}.

(** The [except] branch of the type check: the extension decides. *)
Definition extension_check (filename : string) : option (bool * option string) :=
  let ext := path_suffix_lower filename in
  if negb (existsb (String.eqb ext) [".jpg"; ".jpeg"; ".png"; ".webp"])
  then Some (false, Some "Invalid file type")
  else None.

(** The type check of [validate_image]: [Some r] when the function returns
    [r] there, [None] when it goes on to open the image. *)
Definition mime_check (self : t) (file_data : list Byte.byte) (filename : string)
  : option (bool * option string) :=
  match magic_from_buffer file_data with
  | Some mime =>
      if negb (existsb (String.eqb mime) (allowed_types self)) then
        match allowed_names (allowed_types self) with
        | Some allowed =>
            Some (false, Some ("Invalid file type. Allowed types: " +:+ allowed))
        | None => extension_check filename
        end
      else None
  | None => extension_check filename
  end.

(** [validate_image(self, file_data, filename)]. *)
Definition validate_image (self : t) (file_data : list Byte.byte) (filename : string)
  : result (bool * option string) :=
  if max_size self <? bytes_len file_data then
    max_mb ← true_div (max_size self) (1024 * 1024);
    Ok (false, Some ("File too large. Maximum size is " +:+ format_1f max_mb
                     +:+ "MB"))
  else if bytes_len file_data =? 0 then Ok (false, Some "File is empty")
  else
    match mime_check self file_data filename with
    | Some r => Ok r
    | None =>
        match image_open_verify file_data with
        | inr (width, height) =>
            if (width <? 50) || (height <? 50) then
              Ok (false, Some "Image too small (minimum 50x50 pixels)")
            else if (max_dimension self <? width)
                    || (max_dimension self <? height) then
              Ok (false,
                  Some ("Image too large (maximum "
                        +:+ string_of_int (max_dimension self) +:+ "x"
                        +:+ string_of_int (max_dimension self)
                        +:+ " pixels)"))
            else Ok (true, None)
        | inl msg =>
            Ok (false, Some ("Invalid or corrupted image file: " +:+ msg))
        end
    end.

(** [from_base64(self, base64_string)]: a data-URL prefix is cut at the
    first comma; any failure is raised again as a [ValueError]. *)
Definition from_base64 (base64_string : string) : result (list Byte.byte) :=
  let base64_string :=
    if contains "," base64_string
    then slice base64_string (find base64_string "," 0 + 1)
           (len base64_string)
    else base64_string in
  match b64decode base64_string with
  | inr data => Ok data
  | inl msg => Raise (ValueError ("Invalid base64 string: " +:+ msg))
  end.

End Validation.

(** [get_image_processor()] with the default settings, and the helper
    [validate_uploaded_file]. *)
Definition get_image_processor : t := init settings.

Definition validate_uploaded_file {lib : ImagingLib}
  (file_data : list Byte.byte) (filename : string) : result (bool * option string) :=
  validate_image get_image_processor file_data filename.

End ImageProcessor.

(* ===================================================================== *)
(** * [api/routes/waste.py]                                               *)
(* ===================================================================== *)

Module Waste.
Import Py Config.

(** The [detail] of an [HTTPException]: a text, or [str(e)] of the exception
    a handler caught. *)
Inductive detail : Type :=
| Text (s : string)
| NoDetail
| StrOf (e : pyexn).

(** What a route does: it returns a value or raises an [HTTPException].  A
    request the body model refuses never reaches the route; what the
    application answers to it is not modelled. *)
Inductive response (A : Type) : Type :=
| Return (a : A)
| HTTPException (status_code : Z) (d : detail).
Arguments Return {A} a.
Arguments HTTPException {A} status_code d.

(** ** [WasteScanRequest] *)

(** The validator of the field [image_base64]. *)
Definition validate_base64 (v : string) : result string :=
  if negb (truthy (PStr v)) || (len v <? 100)
  then Raise (ValueError "Invalid base64 image data")
  else Ok v.

Record WasteScanRequest := {
  image_base64 : string;
  user_id : option string;
  location : option (gmap string float)
}.

(** Building the request model from the fields of the body runs the
    validator. *)
Definition WasteScanRequest_new (image_base64 : string)
  (user_id : option string) (location : option (gmap string float))
  : result WasteScanRequest :=
  v ← validate_base64 image_base64;
  Ok {| image_base64 := v; user_id := user_id; location := location |}.

Section Routes.
Context {lib : ImagingLib}.

(** [POST /scan], up to the point where the image is processed: the checks
    on the declared content type, on the length and on the image. *)
Definition scan_waste_image_checks (content_type : option string)
  (file_data : list Byte.byte) (filename : string) : response (list Byte.byte) :=
  if match content_type with
     | Some ct => negb (truthy (PStr ct)) || negb (String.prefix "image/" ct)
     | None => true
     end
  then HTTPException 400
         (Text "Invalid file type. Please upload an image file (JPEG, PNG, WebP)")
  else if ImageProcessor.bytes_len file_data =? 0
  then HTTPException 400 (Text "Empty file uploaded")
  else
    match ImageProcessor.validate_uploaded_file file_data filename with
    | Ok (is_valid, error_message) =>
        if negb is_valid
        then HTTPException 400
               (match error_message with Some m => Text m | None => NoDetail end)
        else Return file_data
    | Raise e =>
        HTTPException 500 (StrOf e)
    end.

(** [POST /scan/base64]: the route function [scan_waste_base64], up to the
    same point, on a request object with the given fields.  The first
    component lists the strings handed to the base64 decoder.  The route
    itself does not look at the length of [image_base64]: it is only called
    with a request the model has accepted ([receive_base64_scan] below). *)
Definition scan_waste_base64_checks (image_base64 : string)
  (user_id : option string) (location : option (gmap string float))
  : list string * response (list Byte.byte) :=
  let scan_request :=
    {| image_base64 := image_base64; user_id := user_id;
       location := location |} in
  let decoded := [scan_request.(Waste.image_base64)] in
  match ImageProcessor.from_base64 scan_request.(Waste.image_base64) with
  | Raise e => (decoded, HTTPException 400 (StrOf e))
  | Ok file_data =>
      match ImageProcessor.validate_uploaded_file file_data "scan. jpg" with
      | Ok (is_valid, error_message) =>
          if negb is_valid
          then (decoded,
                HTTPException 400
                  (match error_message with
                   | Some m => Text m
                   | None => NoDetail
                   end))
          else (decoded, Return file_data)
      | Raise e => (decoded, HTTPException 500 (StrOf e))
      end
  end.

(** What becomes of the body of a request to [POST /scan/base64]: the
    request model is built from it, and the route is called with the model.
    When the validator raises, the route is not called; the error goes to
    the application's handler for validation errors, and what that answers
    is not modelled here. *)
Definition receive_base64_scan (image_base64 : string)
  (user_id : option string) (location : option (gmap string float))
  : pyexn + list string * response (list Byte.byte) :=
  match WasteScanRequest_new image_base64 user_id location with
  | Raise e => inl e
  | Ok scan_request =>
      inr (scan_waste_base64_checks scan_request.(Waste.image_base64)
             scan_request.(Waste.user_id) scan_request.(Waste.location))
  end.

(** The strings handed to the base64 decoder while a body is received. *)
Definition decoder_calls
  (outcome : pyexn + list string * response (list Byte.byte)) : list string :=
  match outcome with
  | inl _ => []
  | inr checks => checks.1
  end.

End Routes.

(** ** [GET /stats/{user_id}] *)

(** Tuples of two [int]s in Python's (lexicographic) order. *)
Definition tuple_le (a b : Z * Z) : Prop :=
  a.1 < b.1 \/ (a.1 = b.1 /\ a.2 <= b.2).

#[global] Instance tuple_le_dec a b : Decision (tuple_le a b).
Proof. unfold tuple_le. apply _. Defined.

(** [sorted(d.items(), reverse=True)] and [sorted(d.keys())]. *)
Definition sorted_items_desc (d : gmap Z Z) : list (Z * Z) :=
  merge_sort (flip tuple_le) (map_to_list d).

Definition sorted_keys (d : gmap Z Z) : list Z :=
  merge_sort Z.le (map_to_list d).*1.

(** The first loop: the level of the first pair, in descending order, whose
    threshold the total reaches; [level] when there is none. *)
Fixpoint level_loop (items : list (Z * Z)) (total_points : pyval) (level : Z)
  : result Z :=
  match items with
  | [] => Ok level
  | (lvl, threshold) :: items' =>
      reached ← ge_int total_points threshold;
      if reached : bool then Ok lvl
      else level_loop items' total_points level
  end.

(** The second loop: the first key, in ascending order, above [level]. *)
Fixpoint next_level_loop (keys : list Z) (level : Z) : option Z :=
  match keys with
  | [] => None
  | lvl :: keys' => if level <? lvl then Some lvl else next_level_loop keys' level
  end.

(** The part of [get_user_stats] under [# Calculate level]: the two entries
    it stores into [stats]. *)
Definition calculate_level (stats : gmap string pyval)
  : result (gmap string pyval) :=
  let total_points := default (PInt 0) (stats !! "total_points") in
  level ← level_loop (sorted_items_desc (LEVEL_THRESHOLDS settings))
            total_points 1;
  let stats := <["level" := PInt level]> stats in
  let stats := <["next_level_points" := PNone]> stats in
  match next_level_loop (sorted_keys (LEVEL_THRESHOLDS settings)) level with
  | Some lvl =>
      match LEVEL_THRESHOLDS settings !! lvl with
      | Some threshold =>
          gap ← int_sub threshold total_points;
          Ok (<["next_level_points" := gap]> stats)
      | None => Raise (KeyError "")
      end
  | None => Ok stats
  end.

(** [get_user_stats(user_id)]; [db] is the Firestore client ([None] when
    there is none), seen as the collection of user documents. *)
Definition get_user_stats (db : option (gmap string (gmap string pyval)))
  (user_id : string) : response (gmap string pyval) :=
  match db with
  | None => HTTPException 503 (Text "Database service unavailable")
  | Some users =>
      match users !! user_id with
      | None => HTTPException 404 (Text "User not found")
      | Some stats =>
          match calculate_level stats with
          | Ok stats =>
              Return (list_to_map [("success", PBool true);
                                   ("user_id", PStr user_id);
                                   ("stats", PDict stats)])
          | Raise e => HTTPException 500 (StrOf e)
          end
      end
  end.

End Waste.

(* ===================================================================== *)
(** * Reference instances of the libraries                                *)
(* ===================================================================== *)

(** Executable stand-ins for the library functions, following the documented
    behaviour of CPython's [json] decoder (default options), of [float] on a
    string, and of [binascii.a2b_base64].  They serve to run the service on
    concrete texts; no general theorem depends on them. *)
Module Ref.
Import Py Fmt.

(** ** Numbers *)

Definition is_digit (c : ascii) : bool :=
  let n := N_of_ascii c in ((48 <=? n) && (n <=? 57))%N.

Definition digit_val (c : ascii) : Z := Z.of_N (N_of_ascii c) - 48.

(** The longest prefix of decimal digits, and the rest. *)
Fixpoint span_digits (s : string) : string * string :=
  match s with
  | String c s' =>
      if is_digit c then
        let '(ds, rest) := span_digits s' in (String c ds, rest)
      else (EmptyString, s)
  | EmptyString => (EmptyString, EmptyString)
  end.

Fixpoint Z_of_digits (acc : Z) (ds : string) : Z :=
  match ds with
  | EmptyString => acc
  | String c ds' => Z_of_digits (10 * acc + digit_val c) ds'
  end.

(** The float written [sign int . frac e exp]: the binary64 nearest to
    [int.frac * 10^exp]. *)
Definition decimal_to_float (neg : bool) (int_digits frac_digits : string)
  (exp : Z) : float :=
  let m := Z_of_digits 0 (int_digits +:+ frac_digits) in
  let e := exp - len frac_digits in
  SF2Prim (if 0 <=? e then round_ratio neg (m * 10 ^ e) 1
           else round_ratio neg m (10 ^ (- e))).

(** An optional exponent part [e], [e+] or [e-] followed by digits (read by
    [span]): its value and the rest; [None] when the text does not start
    with one. *)
Definition scan_exponent (span : string -> string * string) (s : string)
  : option (Z * string) :=
  match s with
  | String c s1 =>
      if (Ascii.eqb c "e" || Ascii.eqb c "E")%bool then
        let '(neg, s2) :=
          match s1 with
          | String "-" s2 => (true, s2)
          | String "+" s2 => (false, s2)
          | _ => (false, s1)
          end in
        let '(ds, rest) := span s2 in
        match ds with
        | EmptyString => None
        | _ => Some (if neg then - Z_of_digits 0 ds else Z_of_digits 0 ds, rest)
        end
      else None
  | EmptyString => None
  end.

(** A JSON number at the head of [s], as the decoder's pattern matches it:
    an optional minus, then a zero or a digit string without leading zero,
    then an optional point with digits, then an optional exponent.  It is an
    [int] when there is neither fraction nor exponent, a [float]
    otherwise. *)
Definition scan_number (s : string) : option (pyval * string) :=
  let '(neg, s1) :=
    match s with
    | String "-" s1 => (true, s1)
    | _ => (false, s)
    end in
  let '(ds, rest) := span_digits s1 in
  match ds with
  | EmptyString => None
  | String d ds' =>
      (* a leading zero ends the integer part *)
      let '(int_digits, rest) :=
        if Ascii.eqb d "0" then (String d EmptyString, ds' +:+ rest)
        else (ds, rest) in
      let '(frac_digits, rest1) :=
        match rest with
        | String "." r =>
            let '(fs, r') := span_digits r in
            match fs with
            | EmptyString => (EmptyString, rest)
            | _ => (fs, r')
            end
        | _ => (EmptyString, rest)
        end in
      let has_frac := negb (String.eqb frac_digits "") || negb (String.eqb rest1 rest) in
      match scan_exponent span_digits rest1 with
      | Some (exp, rest2) =>
          Some (PFloat (decimal_to_float neg int_digits frac_digits exp), rest2)
      | None =>
          if has_frac
          then Some (PFloat (decimal_to_float neg int_digits frac_digits 0), rest1)
          else
            let z := Z_of_digits 0 int_digits in
            Some (PInt (if neg then - z else z), rest1)
      end
  end.

(** ** Strings *)

Definition hex_val (c : ascii) : option N :=
  let n := N_of_ascii c in
  if ((48 <=? n) && (n <=? 57))%N then Some (n - 48)%N
  else if ((97 <=? n) && (n <=? 102))%N then Some (n - 87)%N
  else if ((65 <=? n) && (n <=? 70))%N then Some (n - 55)%N
  else None.

(** The double quote and the backslash. *)
Definition dquote : ascii := ascii_of_N 34.
Definition backslash : ascii := ascii_of_N 92.

(** The character an escape letter stands for. *)
Definition escape_char (e : ascii) : option ascii :=
  if Ascii.eqb e dquote then Some dquote
  else if Ascii.eqb e backslash then Some backslash
  else if Ascii.eqb e "/" then Some "/"%char
  else if Ascii.eqb e "b" then Some (ascii_of_N 8)
  else if Ascii.eqb e "f" then Some (ascii_of_N 12)
  else if Ascii.eqb e "n" then Some (ascii_of_N 10)
  else if Ascii.eqb e "r" then Some (ascii_of_N 13)
  else if Ascii.eqb e "t" then Some (ascii_of_N 9)
  else None.

(** The body of a JSON string, after the opening quote, up to the closing
    one.  Control characters are refused, as in the decoder's strict mode.
    An escape with four hexadecimal digits is decoded when it names a
    character below U+0100; the reference decoder is not meant for texts
    with other such escapes.  [esc] tells that the previous character was an
    unescaped backslash. *)
Fixpoint scan_string_aux (esc : bool) (s : string) : option (string * string) :=
  match s with
  | EmptyString => None
  | String c rest =>
      if esc then
        if Ascii.eqb c "u" then
          match rest with
          | String h1 (String h2 (String h3 (String h4 rest4))) =>
              a ← hex_val h1; b ← hex_val h2; c ← hex_val h3; d ← hex_val h4;
              if ((a =? 0) && (b =? 0))%N then
                '(body, rest') ← scan_string_aux false rest4;
                Some (String (ascii_of_N (16 * c + d)) body, rest')
              else None
          | _ => None
          end
        else
          c' ← escape_char c;
          '(body, rest') ← scan_string_aux false rest;
          Some (String c' body, rest')
      else if Ascii.eqb c dquote then Some (EmptyString, rest)
      else if Ascii.eqb c backslash then scan_string_aux true rest
      else if (N_of_ascii c <? 32)%N then None
      else '(body, rest') ← scan_string_aux false rest; Some (String c body, rest')
  end.

Definition scan_string (s : string) : option (string * string) :=
  scan_string_aux false s.

(** ** Values *)

Definition json_space (c : ascii) : bool :=
  let n := N_of_ascii c in ((n =? 32) || (n =? 9) || (n =? 10) || (n =? 13))%N.

Fixpoint skip_ws (s : string) : string :=
  match s with
  | String c s' => if json_space c then skip_ws s' else s
  | EmptyString => EmptyString
  end.

(** [s] without the prefix [p], when it starts with it. *)
Definition strip_prefix (p s : string) : option string :=
  if String.prefix p s then Some (str_drop (String.length p) s) else None.

(** The decoder's [scan_once], with the loops over the members of an object
    and the elements of an array.  Every call spends one unit of [fuel];
    twice the length of the text is enough for any text. *)
Fixpoint scan_once (fuel : nat) (s : string) : option (pyval * string) :=
  match fuel with
  | O => None
  | S fuel =>
      match s with
      | String "{" rest =>
          match skip_ws rest with
          | String "}" rest' => Some (PDict ∅, rest')
          | rest' => scan_members fuel rest' ∅
          end
      | String "[" rest =>
          match skip_ws rest with
          | String "]" rest' => Some (PList [], rest')
          | rest' => scan_elements fuel rest' []
          end
      | _ =>
          match strip_prefix (String dquote "") s with
          | Some rest =>
              '(str, rest') ← scan_string rest; Some (PStr str, rest')
          | None =>
          match strip_prefix "null" s with
          | Some rest => Some (PNone, rest)
          | None =>
          match strip_prefix "true" s with
          | Some rest => Some (PBool true, rest)
          | None =>
          match strip_prefix "false" s with
          | Some rest => Some (PBool false, rest)
          | None =>
          match scan_number s with
          | Some r => Some r
          | None =>
          match strip_prefix "NaN" s with
          | Some rest => Some (PFloat nan, rest)
          | None =>
          match strip_prefix "Infinity" s with
          | Some rest => Some (PFloat infinity, rest)
          | None =>
          match strip_prefix "-Infinity" s with
          | Some rest => Some (PFloat neg_infinity, rest)
          | None => None
          end end end end end end end end
      end
  end
(** The members of an object from a key on; [acc] holds those read so far
    (a repeated key keeps its last value). *)
with scan_members (fuel : nat) (s : string) (acc : gmap string pyval)
  : option (pyval * string) :=
  match fuel with
  | O => None
  | S fuel =>
      match strip_prefix (String dquote "") s with
      | Some rest =>
          '(key, rest1) ← scan_string rest;
          match skip_ws rest1 with
          | String ":" rest2 =>
              '(value, rest3) ← scan_once fuel (skip_ws rest2);
              let acc := <[key := value]> acc in
              match skip_ws rest3 with
              | String "}" rest4 => Some (PDict acc, rest4)
              | String "," rest4 => scan_members fuel (skip_ws rest4) acc
              | _ => None
              end
          | _ => None
          end
      | None => None
      end
  end
(** The elements of an array from a value on; [acc] holds those read so far,
    last first. *)
with scan_elements (fuel : nat) (s : string) (acc : list pyval)
  : option (pyval * string) :=
  match fuel with
  | O => None
  | S fuel =>
      '(value, rest1) ← scan_once fuel s;
      match skip_ws rest1 with
      | String "]" rest2 => Some (PList (rev (value :: acc)), rest2)
      | String "," rest2 => scan_elements fuel (skip_ws rest2) (value :: acc)
      | _ => None
      end
  end.

(** [json.loads(s)]: one value, white space around it, nothing else. *)
Definition loads (s : string) : option pyval :=
  '(value, rest) ← scan_once (2 * String.length s + 2) (skip_ws s);
  match skip_ws rest with
  | EmptyString => Some value
  | _ => None
  end.

(** ** [float(s)] on a string *)

Definition lower_char (c : ascii) : ascii :=
  let n := N_of_ascii c in
  if ((65 <=? n) && (n <=? 90))%N then ascii_of_N (n + 32) else c.

Fixpoint lower (s : string) : string :=
  match s with
  | EmptyString => EmptyString
  | String c s' => String (lower_char c) (lower s')
  end.

(** Digits with single underscores between them, the underscores dropped. *)
Fixpoint span_digits_us (s : string) : string * string :=
  match s with
  | String c s' =>
      if is_digit c then
        match s' with
        | String u t =>
            if Ascii.eqb u "_" then
              match t with
              | String d _ =>
                  if is_digit d then
                    let '(ds, rest) := span_digits_us t in (String c ds, rest)
                  else (String c EmptyString, s')
              | EmptyString => (String c EmptyString, s')
              end
            else let '(ds, rest) := span_digits_us s' in (String c ds, rest)
        | EmptyString => (String c EmptyString, EmptyString)
        end
      else (EmptyString, s)
  | EmptyString => (EmptyString, EmptyString)
  end.

(** [float(s)]: white space around, a sign, then [inf], [infinity], [nan]
    (in any case) or a decimal number with digits on at least one side of
    the point. *)
Definition float_of_string (s : string) : option float :=
  let s := strip s in
  let '(neg, s) :=
    match s with
    | String "-" r => (true, r)
    | String "+" r => (false, r)
    | _ => (false, s)
    end in
  let l := lower s in
  if String.eqb l "inf" || String.eqb l "infinity"
  then Some (if neg then neg_infinity else infinity)
  else if String.eqb l "nan" then Some nan
  else
    let '(int_digits, r1) := span_digits_us s in
    let '(frac_digits, r2) :=
      match r1 with
      | String "." r => span_digits_us r
      | _ => (EmptyString, r1)
      end in
    if String.eqb int_digits "" && String.eqb frac_digits "" then None
    else
      match r2 with
      | EmptyString => Some (decimal_to_float neg int_digits frac_digits 0)
      | _ =>
          match scan_exponent span_digits_us r2 with
          | Some (exp, EmptyString) =>
              Some (decimal_to_float neg int_digits frac_digits exp)
          | _ => None
          end
      end.

Definition runtime : PyRuntime :=
  {| json_loads := loads; float_of_str := float_of_string |}.

(** ** Base64 *)

(** The value of a character of the base64 alphabet. *)
Definition b64_val (c : ascii) : option N :=
  let n := N_of_ascii c in
  if ((65 <=? n) && (n <=? 90))%N then Some (n - 65)%N
  else if ((97 <=? n) && (n <=? 122))%N then Some (n - 71)%N
  else if ((48 <=? n) && (n <=? 57))%N then Some (n + 4)%N
  else if (n =? 43)%N then Some 62%N
  else if (n =? 47)%N then Some 63%N
  else None.

Definition byte_of_N (n : N) : Byte.byte :=
  default Byte.x00 (Byte.of_N (n mod 256)).

(** [binascii.a2b_base64] without strict mode: characters outside the
    alphabet are skipped; padding that completes a group ends the input; an
    incomplete last group is an error. *)
Fixpoint a2b_base64 (s : string) (quad_pos leftchar pads : N)
  : option (list Byte.byte) :=
  match s with
  | EmptyString => if (quad_pos =? 0)%N then Some [] else None
  | String c s' =>
      if Ascii.eqb c "=" then
        if ((2 <=? quad_pos) && (4 <=? quad_pos + (pads + 1)))%N then Some []
        else a2b_base64 s' quad_pos leftchar
               (if (2 <=? quad_pos)%N then pads + 1 else pads)%N
      else
        match b64_val c with
        | None => a2b_base64 s' quad_pos leftchar pads
        | Some v =>
            if (quad_pos =? 0)%N then a2b_base64 s' 1%N v 0%N
            else if (quad_pos =? 1)%N then
              cons (byte_of_N (leftchar * 4 + v / 16))
                <$> a2b_base64 s' 2%N (v mod 16)%N 0%N
            else if (quad_pos =? 2)%N then
              cons (byte_of_N (leftchar * 16 + v / 4))
                <$> a2b_base64 s' 3%N (v mod 4)%N 0%N
            else
              cons (byte_of_N (leftchar * 64 + v))
                <$> a2b_base64 s' 0%N 0%N 0%N
        end
  end.

Fixpoint all_ascii (s : string) : bool :=
  match s with
  | EmptyString => true
  | String c s' => (N_of_ascii c <? 128)%N && all_ascii s'
  end.

(** [base64.b64decode(s)] on a [str]. *)
Definition b64decode_ref (s : string) : string + list Byte.byte :=
  if all_ascii s then
    match a2b_base64 s 0%N 0%N 0%N with
    | Some data => inr data
    | None => inl "Incorrect padding"
    end
  else inl "string argument should contain only ASCII characters".

(** ** Image sniffing *)

Definition png_signature : list Byte.byte :=
  [Byte.x89; Byte.x50; Byte.x4e; Byte.x47; Byte.x0d; Byte.x0a; Byte.x1a;
   Byte.x0a].

Definition jpeg_signature : list Byte.byte := [Byte.xff; Byte.xd8; Byte.xff].

Fixpoint starts_with (p data : list Byte.byte) : bool :=
  match p, data with
  | [], _ => true
  | _ :: _, [] => false
  | b :: p', b' :: data' => Byte.eqb b b' && starts_with p' data'
  end.

(** The MIME type read off the first bytes. *)
Definition sniff_mime (data : list Byte.byte) : option string :=
  Some (if starts_with png_signature data then "image/png"
        else if starts_with jpeg_signature data then "image/jpeg"
        else match data with
             | [] => "application/x-empty"
             | _ => "application/octet-stream"
             end).

Definition be32 (bs : list Byte.byte) : Z :=
  fold_left (fun acc b => 256 * acc + Z.of_N (Byte.to_N b)) bs 0.

(** The size a PNG header declares (bytes 16 to 23 of the file). *)
Definition png_size (data : list Byte.byte) : string + (Z * Z) :=
  if starts_with png_signature data && (24 <=? length data)%nat
  then inr (be32 (take 4 (drop 16 data)), be32 (take 4 (drop 20 data)))
  else inl "cannot identify image file".

(** The position of the last [c] in [s], counted from [i]; [acc] when there
    is none. *)
Fixpoint last_index (c : ascii) (s : string) (i acc : Z) : Z :=
  match s with
  | EmptyString => acc
  | String c' s' => last_index c s' (i + 1) (if Ascii.eqb c c' then i else acc)
  end.

(** The suffix of the last component of a path, in lower case. *)
Definition suffix_lower (filename : string) : string :=
  let name := slice filename (last_index "/" filename 0 (-1) + 1) (len filename) in
  let i := last_index "." name 0 (-1) in
  if (i <=? 0) || (i =? len name - 1) then "" else lower (slice name i (len name)).

Definition imaging : ImagingLib :=
  {| magic_from_buffer := sniff_mime;
     image_open_verify := png_size;
     path_suffix_lower := suffix_lower;
     b64decode := b64decode_ref |}.

(** A text with every apostrophe turned into a double quote: the JSON texts
    of the examples are written with apostrophes. *)
Fixpoint dq (s : string) : string :=
  match s with
  | EmptyString => EmptyString
  | String c s' => String (if Ascii.eqb c "'" then dquote else c) (dq s')
  end.

End Ref.

(* ===================================================================== *)
(** * Texts and values of the examples                                    *)
(* ===================================================================== *)

Module Examples.
Import Py Config Terms Ref.

Definition nl : string := String (ascii_of_N 10) "".

(** A reply that is prose, without fence. *)
Definition prose : string := "I cannot identify the item in this photo.".

(** A reply whose fenced block is not JSON. *)
Definition fenced_garbage : string := "Sure! ```json not json at all ```".

(** A complete object whose confidence is a word. *)
Definition confidence_word : string :=
  dq "{'item_name': 'Bottle', 'category': 'Recyclable Plastic', 'confidence': 'high'}".

Definition confidence_word_object : gmap string pyval :=
  list_to_map [("item_name", PStr "Bottle");
               ("category", PStr "Recyclable Plastic");
               ("confidence", PStr "high")].

(** Complete objects whose confidence is outside the unit interval. *)
Definition confidence_high : string :=
  dq "{'item_name': 'Bottle', 'category': 'Recyclable Plastic', 'confidence': '1.7'}".

Definition confidence_high_object : gmap string pyval :=
  list_to_map [("item_name", PStr "Bottle");
               ("category", PStr "Recyclable Plastic");
               ("confidence", PStr "1.7")].

(** A reply about a phone that names its bin and has an empty list of
    steps, and the object it parses to. *)
Definition phone : string :=
  dq "{'item_name': 'Phone', 'category': 'E-Waste', 'confidence': 0.95, 'bin_color': 'ORANGE', 'disposal_steps': []}".

Definition phone_object : gmap string pyval :=
  list_to_map [("item_name", PStr "Phone"); ("category", PStr "E-Waste");
               ("confidence", PFloat 0.95); ("bin_color", PStr "ORANGE");
               ("disposal_steps", PList [])].

Definition e_waste_guide : DisposalGuide :=
  {| bin_color := "SPECIAL";
     instructions := ["Remove batteries if possible";
                      "Wipe personal data from devices";
                      "Take to e-waste collection center";
                      "Check for manufacturer take-back programs"];
     examples := ["Old phones"; "Computers"; "Cables"; "Appliances"];
     co2_saved_per_kg := 1.8;
     decomposition_time := "Never decomposes, toxic materials" |}.

(** A reply with a category of its own making and a bin. *)
Definition gadget : string :=
  dq "{'item_name': 'Gadget', 'category': 'Mystery', 'confidence': 0.4, 'bin_color': 'PINK'}".

Definition gadget_object : gmap string pyval :=
  list_to_map [("item_name", PStr "Gadget"); ("category", PStr "Mystery");
               ("confidence", PFloat 0.4); ("bin_color", PStr "PINK")].

(** The inside of a complete object, and an object with a marker in one of
    its strings. *)
Definition bottle_body : string :=
  dq "'item_name': 'Bottle', 'category': 'Recyclable Plastic', 'confidence': 0.95".

Definition ticks_inside : string :=
  dq "{'item_name': 'a```b', 'category': 'Unknown', 'confidence': 0.9}".

Definition ticks_inside_object : gmap string pyval :=
  list_to_map [("item_name", PStr "a```b"); ("category", PStr "Unknown");
               ("confidence", PFloat 0.9)].

(** Two users, one short of level 5 and one at the highest level. *)
Definition users : gmap string (gmap string pyval) :=
  list_to_map [("ana", {[ "total_points" := PInt 1999 ]});
               ("bo", {[ "total_points" := PInt 10000 ]})].

(** A base64 text of eight characters and the bytes it encodes. *)
Definition short_base64 : string := "aGVsbG8=".

(** The first bytes of a PNG file of 3000 by 3000 pixels: the signature,
    the header chunk with the two sizes, and padding. *)
Definition png_3000 : list Byte.byte :=
  Ref.png_signature ++
  [Byte.x00; Byte.x00; Byte.x00; Byte.x0d;
   Byte.x49; Byte.x48; Byte.x44; Byte.x52;
   Byte.x00; Byte.x00; Byte.x0b; Byte.xb8;
   Byte.x00; Byte.x00; Byte.x0b; Byte.xb8;
   Byte.x08; Byte.x02; Byte.x00; Byte.x00; Byte.x00].

(** An image processor configured with a limit of half a mebibyte, and a
    file one byte above it. *)
Definition small_limit : ImageProcessor.t :=
  ImageProcessor.init
    {| MAX_UPLOAD_SIZE := 512 * 1024;
       ALLOWED_IMAGE_TYPES := ALLOWED_IMAGE_TYPES settings;
       WASTE_CATEGORIES := WASTE_CATEGORIES settings;
       POINTS_CORRECT_DISPOSAL := POINTS_CORRECT_DISPOSAL settings;
       LEVEL_THRESHOLDS := LEVEL_THRESHOLDS settings |}.

Definition oversized : list Byte.byte :=
  repeat Byte.x00 (Z.to_nat (512 * 1024 + 1)).

(** The two results of the point examples. *)
Definition sure_hazardous : gmap string pyval :=
  list_to_map [("confidence", PFloat 0.95); ("recyclable", PBool true);
               ("category", PStr "Hazardous Waste")].

Definition unsure_paper : gmap string pyval :=
  list_to_map [("confidence", PFloat 0.5); ("recyclable", PBool false);
               ("category", PStr "Paper & Cardboard")].

End Examples.

(* ===================================================================== *)
(** * More of the Python operations                                       *)
(* ===================================================================== *)

Module PyOps.
Import Py.

(** [a + b]: the sum of two numbers (an [int] when both are [int]s or
    [bool]s, else the [float] sum after the [int] has been converted), the
    concatenation of two strings or two lists; [TypeError] otherwise. *)
Definition as_int (v : pyval) : option Z :=
  match v with
  | PInt z => Some z
  | PBool b => Some (Z.b2z b)
  | _ => None
  end.

Definition py_add (a b : pyval) : result pyval :=
  match a, b with
  | PFloat x, PFloat y => Ok (PFloat (x + y)%float)
  | PStr x, PStr y => Ok (PStr (x +:+ y))
  | PList x, PList y => Ok (PList (x ++ y))
  | _, _ =>
      match as_int a, as_int b with
      | Some x, Some y => Ok (PInt (x + y))
      | Some x, None =>
          match b with
          | PFloat y => x' ← float_of_int x; Ok (PFloat (x' + y)%float)
          | _ => Raise TypeError
          end
      | None, Some y =>
          match a with
          | PFloat x => y' ← float_of_int y; Ok (PFloat (x + y')%float)
          | _ => Raise TypeError
          end
      | None, None => Raise TypeError
      end
  end.

(** [v.get(key, default)]: only a dict has the method. *)
Definition py_get (v : pyval) (key : string) (dflt : pyval) : result pyval :=
  match v with
  | PDict d => Ok (default dflt (d !! key))
  | _ => Raise AttributeError
  end.

(** [s.replace(old, new)]: the occurrences of [old] are replaced from left
    to right, without overlap; an empty [old] matches before every
    character and at the end. *)
Fixpoint replace_from (old new s : string) (skip : nat) : string :=
  match s with
  | EmptyString => EmptyString
  | String c s' =>
      match skip with
      | S k => replace_from old new s' k
      | O =>
          if String.prefix old s
          then new +:+ replace_from old new s' (String.length old - 1)
          else String c (replace_from old new s' 0)
      end
  end.

Fixpoint interleave (new s : string) : string :=
  match s with
  | EmptyString => EmptyString
  | String c s' => String c (new +:+ interleave new s')
  end.

Definition replace (s old new : string) : string :=
  if String.eqb old "" then new +:+ interleave new s
  else replace_from old new s 0.

End PyOps.

(* ===================================================================== *)
(** * [services/gemini_service.py]: identification and education          *)
(* ===================================================================== *)

(** The reply of the model to the education prompt, which is a function of
    the category alone; [None] when [generate_content] or [response.text]
    raises. *)
Class EducationModel := {
  education_reply : string -> option string
}.

Module GeminiFlow.
Import Py Config GeminiService PyOps.

Definition GEMINI_MODEL : string := "gemini-2.5-flash".

(** The log line that ends the [try] block of [identify_waste] subscripts
    the result with ['item_name'] and ['confidence'] and formats the latter
    with [.2%]: that needs a number. *)
Definition log_identification (res : gmap string pyval) : result unit :=
  _ ← py_getitem (PDict res) "item_name";
  confidence ← py_getitem (PDict res) "confidence";
  match confidence with
  | PFloat _ | PBool _ => Ok tt
  | PInt z => _ ← float_of_int z; Ok tt
  | PStr _ => Raise (ValueError "Unknown format code '%' for object of type 'str'")
  | _ => Raise TypeError
  end.

(** The dictionary of the [except] branch of [identify_waste]. *)
Definition error_result (message : string) (elapsed : float)
  : gmap string pyval :=
  list_to_map [("error", PBool true);
               ("error_message", PStr message);
               ("item_name", PStr "Error");
               ("category", PStr "Unknown");
               ("confidence", PFloat 0.0);
               ("processing_time_seconds", PFloat elapsed)].

Section Service.
Context {rt : PyRuntime}.

(** [identify_waste(image_data)].  [upstream] is what preparing the image
    and asking the model come to: the text of the reply, or [str(e)] of the
    exception one of them raised.  [elapsed] and [elapsed_failed] are the
    values of [round(time.time() - start_time, 2)] in the [try] block and
    in the handler, [timestamp] is that of [time.time()], and [str_e] gives
    the text of an exception raised by the code of the block itself. *)
Definition identify_waste (str_e : pyexn -> string)
  (upstream : string + string) (elapsed timestamp elapsed_failed : float)
  : gmap string pyval :=
  match upstream with
  | inl message => error_result message elapsed_failed
  | inr text =>
      let res := _parse_gemini_response text in
      let res := <["processing_time_seconds" := PFloat elapsed]> res in
      let res := <["model_used" := PStr GEMINI_MODEL]> res in
      let res := <["timestamp" := PFloat timestamp]> res in
      match (points ← _calculate_points res;
             let res := <["points_earned" := PInt points]> res in
             _ ← log_identification res;
             Ok res) with
      | Ok res => res
      | Raise e => error_result (str_e e) elapsed_failed
      end
  end.

(** An entry of the guide as the dictionary it is in [config.py]. *)
Definition guide_dict (guide : DisposalGuide) : gmap string pyval :=
  list_to_map [("bin_color", PStr (bin_color guide));
               ("instructions", str_list (instructions guide));
               ("examples", str_list (examples guide));
               ("co2_saved_per_kg", PFloat (co2_saved_per_kg guide));
               ("decomposition_time", PStr (decomposition_time guide))].

(** The argument of [json.loads] in [get_educational_content]. *)
Definition strip_fences (text : string) : string :=
  strip (replace (replace text "```json" "") "```" "").

(** [get_educational_content(category)].  The bare [except] catches the
    failure of the model, of [json.loads], and of [**ai_content] on a value
    that is no mapping. *)
Definition get_educational_content {model : EducationModel}
  (category : string) : gmap string pyval :=
  match WASTE_DISPOSAL_GUIDES !! category with
  | None => {[ "error" := PStr "Category not found" ]}
  | Some guide =>
      match education_reply category with
      | Some text =>
          match json_loads (strip_fences text) with
          | Some (PDict ai_content) =>
              <["category" := PStr category]> (ai_content ∪ guide_dict guide)
          | _ => <["category" := PStr category]> (guide_dict guide)
          end
      | None => <["category" := PStr category]> (guide_dict guide)
      end
  end.

End Service.

End GeminiFlow.

(* ===================================================================== *)
(** * [utils/image_processor.py]: the base64 helpers                      *)
(* ===================================================================== *)

(** [base64.b64encode(data).decode('utf-8')]. *)
Class Base64Encoder := {
  b64encode : list Byte.byte -> string
}.

Module ImageCodec.
Import Py.

Section Codec.
Context {enc : Base64Encoder}.

(** [to_base64(self, image_data)]. *)
Definition to_base64 (image_data : list Byte.byte) : string :=
  b64encode image_data.

(** [create_data_url(image_data, mime_type)]. *)
Definition create_data_url (image_data : list Byte.byte) (mime_type : string)
  : string :=
  "data:" +:+ mime_type +:+ ";base64," +:+ to_base64 image_data.

End Codec.

End ImageCodec.

(* ===================================================================== *)
(** * [api/routes/waste.py]: the scan records and the user statistics     *)
(* ===================================================================== *)

(** A reading of [datetime.utcnow()]: its [strftime("%Y%m%d_%H%M%S")] and
    its [isoformat()].  The clock is the sequence of the readings. *)
Record instant := {
  strftime : string;
  isoformat : string
}.

Class Clock := {
  utcnow : nat -> instant
}.

Module Records.
Import Py Config PyOps Waste.

(** The two Firestore collections the routes use, each a map from document
    ids to documents.  The calls of the SDK are taken to succeed: a lost
    connection or an id the service refuses is outside the model. *)
Record store := {
  users : gmap string (gmap string pyval);
  waste_scans : gmap string (gmap string pyval)
}.

(** The Firestore client ([None] when there is none) and the number of
    clock readings made so far. *)
Record world := {
  db : option store;
  reads : nat
}.

Section Helpers.
Context {clk : Clock}.

(** [scan_data.get("environmental_impact", {}).get("co2_saved_kg", 0.0)]. *)
Definition scan_co2 (scan_data : gmap string pyval) : result pyval :=
  py_get (default (PDict ∅) (scan_data !! "environmental_impact"))
    "co2_saved_kg" (PFloat 0.0).

(** The dictionary handed to [user_ref.update]. *)
Definition updated_fields (user_data scan_data : gmap string pyval)
  (n : nat) : result (gmap string pyval) :=
  total_scans ← py_add (default (PInt 0) (user_data !! "total_scans")) (PInt 1);
  total_points ← py_add (default (PInt 0) (user_data !! "total_points"))
                        (default (PInt 0) (scan_data !! "points_earned"));
  co2 ← scan_co2 scan_data;
  co2_saved_kg ← py_add (default (PFloat 0.0) (user_data !! "co2_saved_kg")) co2;
  Ok (list_to_map
        [("total_scans", total_scans);
         ("total_points", total_points);
         ("co2_saved_kg", co2_saved_kg);
         ("last_scan_timestamp", PStr (isoformat (utcnow n)));
         ("updated_at", PStr (isoformat (utcnow (S n))))]).

(** The dictionary handed to [user_ref.set] for a user without document. *)
Definition new_user_fields (user_id : string) (scan_data : gmap string pyval)
  (n : nat) : result (gmap string pyval) :=
  co2 ← scan_co2 scan_data;
  Ok (list_to_map
        [("user_id", PStr user_id);
         ("total_scans", PInt 1);
         ("total_points", default (PInt 0) (scan_data !! "points_earned"));
         ("co2_saved_kg", co2);
         ("level", PInt 1);
         ("created_at", PStr (isoformat (utcnow n)));
         ("last_scan_timestamp", PStr (isoformat (utcnow (S n))))]).

(** [update_user_stats(user_id, scan_data)]: [update] writes the given
    fields into the stored document, [set] stores a new one; an exception
    is logged and the function returns. *)
Definition update_user_stats (user_id : string)
  (scan_data : gmap string pyval) (w : world) : world :=
  match db w with
  | None => w
  | Some s =>
      match users s !! user_id with
      | Some user_data =>
          match updated_fields user_data scan_data (reads w) with
          | Ok fields =>
              {| db := Some {| users := <[user_id := fields ∪ user_data]> (users s);
                               waste_scans := waste_scans s |};
                 reads := S (S (reads w)) |}
          | Raise _ => w
          end
      | None =>
          match new_user_fields user_id scan_data (reads w) with
          | Ok fields =>
              {| db := Some {| users := <[user_id := fields]> (users s);
                               waste_scans := waste_scans s |};
                 reads := S (S (reads w)) |}
          | Raise _ => w
          end
      end
  end.

(** [user_id or 'anonymous']. *)
Definition user_or_anonymous (user_id : option string) : string :=
  match user_id with
  | Some u => if truthy (PStr u) then u else "anonymous"
  | None => "anonymous"
  end.

(** The document [save_scan_to_database] stores. *)
Definition scan_document (scan_id : string) (user_id : option string)
  (scan_data : gmap string pyval) (timestamp : string) : gmap string pyval :=
  list_to_map
    [("scan_id", PStr scan_id);
     ("user_id", PStr (user_or_anonymous user_id));
     ("item_name", default PNone (scan_data !! "item_name"));
     ("category", default PNone (scan_data !! "category"));
     ("confidence", default PNone (scan_data !! "confidence"));
     ("recyclable", default PNone (scan_data !! "recyclable"));
     ("points_earned", default (PInt 0) (scan_data !! "points_earned"));
     ("timestamp", PStr timestamp);
     ("processing_time", default PNone (scan_data !! "processing_time_seconds"));
     ("location", default PNone (scan_data !! "location"));
     ("image_hash", default PNone (scan_data !! "image_hash"))].

(** [save_scan_to_database(scan_data, user_id)]: the scan id it returns and
    the world it leaves. *)
Definition save_scan_to_database (scan_data : gmap string pyval)
  (user_id : option string) (w : world) : string * world :=
  match db w with
  | None =>
      ("scan_" +:+ strftime (utcnow (reads w)),
       {| db := None; reads := S (reads w) |})
  | Some s =>
      let scan_id :=
        "scan_" +:+ strftime (utcnow (reads w)) +:+ "_"
        +:+ user_or_anonymous user_id in
      let document :=
        scan_document scan_id user_id scan_data
          (isoformat (utcnow (S (reads w)))) in
      let w :=
        {| db := Some {| users := users s;
                         waste_scans := <[scan_id := document]> (waste_scans s) |};
           reads := S (S (reads w)) |} in
      let w :=
        match user_id with
        | Some u => if truthy (PStr u) then update_user_stats u scan_data w else w
        | None => w
        end in
      (scan_id, w)
  end.

End Helpers.

(** [v != s] for a string [s]. *)
Definition ne_str (v : pyval) (s : string) : bool := negb (eq_str v s).

(** [DELETE /scan/{scan_id}]. *)
Definition delete_scan (scan_id user_id : string) (w : world)
  : response (gmap string pyval) * world :=
  match db w with
  | None => (HTTPException 503 (Text "Database service unavailable"), w)
  | Some s =>
      match waste_scans s !! scan_id with
      | None => (HTTPException 404 (Text "Scan not found"), w)
      | Some scan_data =>
          if ne_str (default PNone (scan_data !! "user_id")) user_id
          then (HTTPException 403 (Text "Not authorized to delete this scan"), w)
          else
            (Return (list_to_map [("success", PBool true);
                                  ("message", PStr "Scan deleted successfully");
                                  ("scan_id", PStr scan_id)]),
             {| db := Some {| users := users s;
                              waste_scans := delete scan_id (waste_scans s) |};
                reads := reads w |})
      end
  end.

(** [GET /stats/{user_id}] on a world. *)
Definition user_stats (user_id : string) (w : world)
  : response (gmap string pyval) :=
  get_user_stats (users <$> db w) user_id.

(** [GET /education/{category}], up to the construction of the response
    model from the content. *)
Definition get_educational_content {rt : PyRuntime} {model : EducationModel}
  (category : string) : response (gmap string pyval) :=
  if negb (existsb (String.eqb category) (WASTE_CATEGORIES settings))
  then HTTPException 404
         (Text ("Category '" +:+ category
                +:+ "' not found. Use /categories to see valid categories."))
  else
    let content := GeminiFlow.get_educational_content category in
    if truthy (default PNone (content !! "error"))
    then HTTPException 404 (Text "Educational content not found")
    else Return content.

End Records.

(* ===================================================================== *)
(** * More reference instances                                            *)
(* ===================================================================== *)

Module RefCodec.

(** The character of a value of the base64 alphabet. *)
Definition b64_char (v : N) : ascii :=
  if (v <? 26)%N then ascii_of_N (v + 65)
  else if (v <? 52)%N then ascii_of_N (v + 71)
  else if (v <? 62)%N then ascii_of_N (v - 4)
  else if (v =? 62)%N then "+"%char else "/"%char.

(** [binascii.b2a_base64] without the newline. *)
Fixpoint b2a_base64 (data : list Byte.byte) : string :=
  match data with
  | [] => ""
  | [a] =>
      let a := Byte.to_N a in
      String (b64_char (a / 4))
        (String (b64_char ((a mod 4) * 16)) "==")
  | [a; b] =>
      let a := Byte.to_N a in
      let b := Byte.to_N b in
      String (b64_char (a / 4))
        (String (b64_char ((a mod 4) * 16 + b / 16))
           (String (b64_char ((b mod 16) * 4)) "="))
  | a :: b :: c :: rest =>
      let a := Byte.to_N a in
      let b := Byte.to_N b in
      let c := Byte.to_N c in
      String (b64_char (a / 4))
        (String (b64_char ((a mod 4) * 16 + b / 16))
           (String (b64_char ((b mod 16) * 4 + c / 64))
              (String (b64_char (c mod 64)) (b2a_base64 rest))))
  end.

Definition encoder : Base64Encoder := {| b64encode := b2a_base64 |}.

(** A clock that ticks once a reading, within one second. *)
Definition same_second : Clock :=
  {| utcnow n :=
       {| strftime := "20240101_120000";
          isoformat := "2024-01-01T12:00:00.00000" +:+
                       NilZero.string_of_uint (Nat.to_uint n) |} |}.

(** A model that never answers, and one that answers every category with
    the same object. *)
Definition silent_model : EducationModel := {| education_reply _ := None |}.

Definition chatty_model : EducationModel :=
  {| education_reply _ :=
       Some (Ref.dq "```json {'facts': ['a'], 'bin_color': 'PINK', 'category': 'Other'} ```") |}.

End RefCodec.

(* ===================================================================== *)
(** * [utils/image_processor.py]: the size of the optimized image         *)
(* ===================================================================== *)

Module ImageResize.
Import Py Config Fmt ImageProcessor.

(** [int(x)] on a [float]: the integer towards zero. *)
Definition int_of_float (x : float) : result Z :=
  match Prim2SF x with
  | S754_nan => Raise (ValueError "cannot convert float NaN to integer")
  | S754_infinity _ => Raise OverflowError
  | S754_zero _ => Ok 0
  | S754_finite s m e =>
      let v := if 0 <=? e then Z.pos m * 2 ^ e else Z.pos m / 2 ^ (- e) in
      Ok (if s then - v else v)
  end.

(** [int(dim * ratio)] for an [int] [dim] and a [float] [ratio]. *)
Definition scale_dim (ratio : float) (dim : Z) : result Z :=
  x ← float_of_int dim;
  int_of_float (x * ratio)%float.

(** The size [_optimize_image] resizes to: the size itself when no side
    is above the optimal dimension. *)
Definition resize_target (self : t) (size : Z * Z) : result (Z * Z) :=
  if optimal_dimension self <? Z.max size.1 size.2 then
    ratio ← true_div (optimal_dimension self) (Z.max size.1 size.2);
    width ← scale_dim ratio size.1;
    height ← scale_dim ratio size.2;
    Ok (width, height)
  else Ok size.

(** The longer side after the resize. *)
Definition resized_longer_side (self : t) (longer : Z) : result Z :=
  ratio ← true_div (optimal_dimension self) longer;
  scale_dim ratio longer.

(** The test that the new longer side is 1023 or 1024. *)
Definition longer_side_ok (m : Z) : bool :=
  match resized_longer_side get_image_processor m with
  | Ok s => (s =? 1023) || (s =? 1024)
  | Raise _ => false
  end.

(** A test on every integer from [lo] on, [n] of them. *)
Fixpoint all_from (n : nat) (lo : Z) (p : Z -> bool) : bool :=
  match n with
  | O => true
  | S n' => p lo && all_from n' (lo + 1) p
  end.

End ImageResize.

(* ===================================================================== *)
(** * [utils/image_processor.py]: processing and batches                  *)
(* ===================================================================== *)

(** What [process_image] does with a file the validator has accepted
    (opening, orientation, metadata, optimization, thumbnail, hash): the
    dictionary it returns, or [str(e)] of the exception it raises. *)
Class Pillow := {
  processed : Type;
  process_valid : list Byte.byte -> string -> string + processed
}.

Module ImageBatch.
Import Py Config ImageProcessor.

Section Batch.
Context {lib : ImagingLib} {pil : Pillow}.

(** [str(error)] for the message of the validator. *)
Definition str_option (error : option string) : string :=
  match error with
  | Some message => message
  | None => "None"
  end.

(** [process_image(self, file_data, filename)]: a refusal of the validator
    is raised as [ValueError(error)].  The result is the dictionary or the
    text of the exception; [str_e] gives the text of an exception of the
    validator itself. *)
Definition process_image (str_e : pyexn -> string) (self : t)
  (file_data : list Byte.byte) (filename : string) : string + processed :=
  match validate_image self file_data filename with
  | Raise e => inl (str_e e)
  | Ok (is_valid, error) =>
      if negb is_valid then inl (str_option error)
      else process_valid file_data filename
  end.

(** The entry [batch_process_images] appends for a file that fails. *)
Definition error_entry (filename message : string) : gmap string pyval :=
  list_to_map [("error", PBool true);
               ("filename", PStr filename);
               ("error_message", PStr message)].

(** The loop of [batch_process_images]. *)
Fixpoint batch_loop (str_e : pyexn -> string)
  (image_files : list (list Byte.byte * string))
  (results : list (gmap string pyval + processed))
  : list (gmap string pyval + processed) :=
  match image_files with
  | [] => results
  | (file_data, filename) :: image_files' =>
      let entry :=
        match process_image str_e get_image_processor file_data filename with
        | inr result => inr result
        | inl message => inl (error_entry filename message)
        end in
      batch_loop str_e image_files' (results ++ [entry])%list
  end.

(** [batch_process_images(image_files, max_workers)]. *)
Definition batch_process_images (str_e : pyexn -> string)
  (image_files : list (list Byte.byte * string)) (max_workers : Z)
  : list (gmap string pyval + processed) :=
  batch_loop str_e image_files [].

End Batch.

End ImageBatch.

(* ===================================================================== *)
(** * Vocabulary of the further statements                                *)
(* ===================================================================== *)

Module FlowTerms.
Import Py Config GeminiService GeminiFlow Records.

(** A result with the metadata [identify_waste] adds before it computes
    the points. *)
Definition with_metadata (res : gmap string pyval) (elapsed timestamp : float)
  : gmap string pyval :=
  <["timestamp" := PFloat timestamp]>
    (<["model_used" := PStr GEMINI_MODEL]>
       (<["processing_time_seconds" := PFloat elapsed]> res)).

(** The user documents and the scan documents of a world; none without a
    client. *)
Definition users_of (w : world) : gmap string (gmap string pyval) :=
  match db w with
  | Some s => users s
  | None => ∅
  end.

Definition scans_of (w : world) : gmap string (gmap string pyval) :=
  match db w with
  | Some s => waste_scans s
  | None => ∅
  end.

(** The keys [update_user_stats] writes into the document of a user that
    has one. *)
Definition updated_keys : list string :=
  ["total_scans"; "total_points"; "co2_saved_kg"; "last_scan_timestamp";
   "updated_at"].

(** The object the model supplied for a category: empty when the model
    failed or its reply is not the text of an object. *)
Definition ai_content {rt : PyRuntime} {model : EducationModel}
  (category : string) : gmap string pyval :=
  match education_reply category with
  | Some text =>
      match json_loads (strip_fences text) with
      | Some (PDict ai) => ai
      | _ => ∅
      end
  | None => ∅
  end.

(** A text without the given character. *)
Fixpoint free_of (c : ascii) (s : string) : bool :=
  match s with
  | EmptyString => true
  | String c' s' => negb (Ascii.eqb c c') && free_of c s'
  end.

End FlowTerms.

(* ===================================================================== *)
(** * More examples                                                       *)
(* ===================================================================== *)

Module MoreExamples.
Import Py Config Records.

(** The five bytes of "hello". *)
Definition hello : list Byte.byte :=
  [Byte.x68; Byte.x65; Byte.x6c; Byte.x6c; Byte.x6f].

(** A text of 101 letters: long enough for the request model, and no
    base64 of anything. *)
Definition long_garbage : string :=
  string_of_list_ascii (repeat "A"%char 101).

(** A user with three scans, ten points short of level 5, in a world
    without scans; and the result of a scan of a bottle. *)
Definition ana : gmap string pyval :=
  list_to_map [("user_id", PStr "ana"); ("total_scans", PInt 3);
               ("total_points", PInt 1990); ("co2_saved_kg", PFloat 1.5);
               ("level", PInt 4)].

Definition shop : world :=
  {| db := Some {| users := {[ "ana" := ana ]}; waste_scans := ∅ |};
     reads := 0 |}.

Definition bottle_scan : gmap string pyval :=
  list_to_map [("item_name", PStr "Bottle");
               ("category", PStr "Recyclable Plastic");
               ("confidence", PFloat 0.95);
               ("recyclable", PBool true);
               ("points_earned", PInt 80);
               ("environmental_impact",
                PDict {[ "co2_saved_kg" := PFloat 0.5 ]})].

(** A reply with a category outside the guide and a word for the impact. *)
Definition vague_impact : string :=
  Ref.dq "{'item_name': 'Gadget', 'category': 'Mystery', 'confidence': 0.4, 'environmental_impact': 'low'}".

(** A reply about a can with a word for the impact, and the object it
    parses to. *)
Definition can_with_vague_impact : string :=
  Ref.dq "{'item_name': 'Can', 'category': 'Metal & Glass', 'confidence': 0.9, 'environmental_impact': 'low'}".

Definition can_with_vague_impact_object : gmap string pyval :=
  list_to_map [("item_name", PStr "Can"); ("category", PStr "Metal & Glass");
               ("confidence", PFloat 0.9);
               ("environmental_impact", PStr "low")].

(** A reply with a category of its own making, a bin, and a word for the
    confidence, and the object it parses to. *)
Definition gadget_with_vague_confidence : string :=
  Ref.dq "{'item_name': 'Gadget', 'category': 'Mystery', 'confidence': 'high', 'bin_color': 'PINK'}".

Definition gadget_with_vague_confidence_object : gmap string pyval :=
  list_to_map [("item_name", PStr "Gadget"); ("category", PStr "Mystery");
               ("confidence", PStr "high"); ("bin_color", PStr "PINK")].

(** A reply in a fence between two sentences, and one whose fence is not
    closed. *)
Definition chatty_fence : string :=
  "Here you are: ```json" +:+ Examples.nl
  +:+ Terms.object_text Examples.bottle_body +:+ Examples.nl
  +:+ "``` Anything else? ```json {} ```".


End MoreExamples.
(* ===================================================================== *)
(** * Facts about the string methods                                      *)
(* ===================================================================== *)

Module StrFacts.
Import Py.

Lemma app_nil (b : string) : "" +:+ b = b.
Proof. reflexivity. Qed.

Lemma app_cons (c : ascii) (a b : string) :
  String c a +:+ b = String c (a +:+ b).
Proof. reflexivity. Qed.

(** Boolean comparisons of integers in the goal, decided by [lia]. *)
Ltac zbool :=
  repeat match goal with
  | |- context [?a <? ?b] =>
      first [ replace (a <? b) with false by (symmetry; apply Z.ltb_ge; lia)
            | replace (a <? b) with true by (symmetry; apply Z.ltb_lt; lia) ]
  | |- context [?a <=? ?b] =>
      first [ replace (a <=? b) with false by (symmetry; apply Z.leb_gt; lia)
            | replace (a <=? b) with true by (symmetry; apply Z.leb_le; lia) ]
  end.

(** Appends are reduced by rewriting with their two equations. *)
Ltac app_simpl := rewrite ?app_cons, ?app_nil in *; simpl in *.

Lemma length_app (a b : string) :
  String.length (a +:+ b) = (String.length a + String.length b)%nat.
Proof. induction a as [|c a IH]; app_simpl; [reflexivity | now rewrite IH]. Qed.

Lemma len_app (a b : string) : len (a +:+ b) = len a + len b.
Proof. unfold len. rewrite length_app. lia. Qed.

Lemma len_nonneg (s : string) : 0 <= len s.
Proof. unfold len. lia. Qed.

Lemma app_assoc (a b c : string) : (a +:+ b) +:+ c = a +:+ b +:+ c.
Proof. induction a as [|x a IH]; app_simpl; [reflexivity | now rewrite IH]. Qed.

Lemma app_empty_r (a : string) : a +:+ "" = a.
Proof. induction a as [|x a IH]; app_simpl; [reflexivity | now rewrite IH]. Qed.

Lemma str_drop_app (a b : string) : str_drop (String.length a) (a +:+ b) = b.
Proof. induction a as [|c a IH]; app_simpl; [now destruct b | exact IH]. Qed.

Lemma str_take_app (a b : string) : str_take (String.length a) (a +:+ b) = a.
Proof. induction a as [|c a IH]; app_simpl; [now destruct b | now rewrite IH]. Qed.

Lemma str_take_length (n : nat) (s : string) :
  (String.length (str_take n s) <= n)%nat.
Proof.
  revert s. induction n as [|n IH]; intros [|c s]; simpl; try lia.
  specialize (IH s). lia.
Qed.

Lemma str_take_prefix (n : nat) (s : string) :
  String.prefix (str_take n s) s = true.
Proof.
  revert s. induction n as [|n IH]; intros [|c s]; simpl; try reflexivity.
  destruct (ascii_dec c c); [apply IH | congruence].
Qed.

Lemma str_take_all (n : nat) (s : string) :
  (String.length s <= n)%nat -> str_take n s = s.
Proof.
  revert s. induction n as [|n IH]; intros [|c s]; simpl; intros Hn;
    try reflexivity; try lia.
  rewrite IH; [reflexivity | lia].
Qed.

Lemma slice_index_in (n i : Z) : 0 <= i <= n -> slice_index n i = i.
Proof. intros H. unfold slice_index. zbool. lia. Qed.

Lemma slice_index_over (n i : Z) : 0 <= n <= i -> slice_index n i = n.
Proof. intros H. unfold slice_index. zbool. lia. Qed.

(** [s[0:n]] is the prefix of at most [n] characters. *)
Lemma slice_0 (s : string) (n : Z) :
  0 <= n -> slice s 0 n = str_take (Z.to_nat n) s.
Proof.
  intros Hn. unfold slice. pose proof (len_nonneg s).
  rewrite (slice_index_in (len s) 0) by lia. simpl str_drop.
  destruct (Z.le_ge_cases n (len s)) as [Hle | Hge].
  - rewrite slice_index_in by lia. now rewrite Z.sub_0_r.
  - rewrite slice_index_over by lia. rewrite Z.sub_0_r.
    rewrite !str_take_all; unfold len in *; try lia. reflexivity.
Qed.

Lemma slice_0_len (s : string) (n : Z) : 0 <= n -> len (slice s 0 n) <= n.
Proof.
  intros Hn. rewrite slice_0 by assumption. unfold len.
  pose proof (str_take_length (Z.to_nat n) s). lia.
Qed.

Lemma slice_0_prefix (s : string) (n : Z) :
  0 <= n -> String.prefix (slice s 0 n) s = true.
Proof. intros Hn. rewrite slice_0 by assumption. apply str_take_prefix. Qed.

(** The middle of a three-part text, cut out by its two bounds. *)
Lemma slice_middle (a b c : string) :
  slice (a +:+ b +:+ c) (len a) (len a + len b) = b.
Proof.
  unfold slice. rewrite !len_app.
  pose proof (len_nonneg a). pose proof (len_nonneg b). pose proof (len_nonneg c).
  rewrite !slice_index_in by lia.
  replace (len a + len b - len a) with (len b) by lia.
  unfold len. rewrite !Nat2Z.id. rewrite str_drop_app. apply str_take_app.
Qed.

(** ** [find] *)

Lemma find_from_nil (sub : string) (i : Z) :
  find_from sub "" i = if String.prefix sub "" then i else -1.
Proof. reflexivity. Qed.

Lemma find_from_cons (sub : string) (c : ascii) (s : string) (i : Z) :
  find_from sub (String c s) i =
  if String.prefix sub (String c s) then i else find_from sub s (i + 1).
Proof. reflexivity. Qed.

Lemma find_from_ge (sub s : string) (i : Z) :
  find_from sub s i = -1 \/ i <= find_from sub s i.
Proof.
  revert i. induction s as [|c s IH]; intros i.
  - rewrite find_from_nil. destruct (String.prefix sub ""); [right; lia | now left].
  - rewrite find_from_cons.
    destruct (String.prefix sub (String c s)); [right; lia |].
    destruct (IH (i + 1)) as [-> | H]; [now left | right; lia].
Qed.

Lemma find_0 (s sub : string) : find s sub 0 = find_from sub s 0.
Proof.
  unfold find. pose proof (len_nonneg s). zbool. reflexivity.
Qed.

Lemma find_at (a b sub : string) :
  find (a +:+ b) sub (len a) = find_from sub b (len a).
Proof.
  unfold find. pose proof (len_nonneg a). pose proof (len_nonneg b).
  rewrite len_app. zbool. unfold len. now rewrite Nat2Z.id, str_drop_app.
Qed.

(** Absence of [sub] from [s] does not depend on the starting index. *)
Lemma find_from_none_shift (sub s : string) (i j : Z) :
  0 <= i -> 0 <= j -> find_from sub s i = -1 -> find_from sub s j = -1.
Proof.
  revert i j. induction s as [|c s IH]; intros i j Hi Hj.
  - rewrite !find_from_nil. destruct (String.prefix sub ""); [lia | reflexivity].
  - rewrite !find_from_cons.
    destruct (String.prefix sub (String c s)); [lia |].
    apply IH; lia.
Qed.

Lemma contains_false (sub s : string) :
  contains sub s = false <-> find_from sub s 0 = -1.
Proof.
  unfold contains. rewrite find_0.
  destruct (find_from_ge sub s 0) as [H | H].
  - rewrite H. split; reflexivity.
  - split; [intros H'; apply Z.leb_gt in H'; lia | intros H'; lia].
Qed.

Lemma prefix_app (p s : string) : String.prefix p (p +:+ s) = true.
Proof.
  induction p as [|c p IH]; app_simpl; [now destruct s |].
  destruct (ascii_dec c c); [exact IH | congruence].
Qed.

Lemma find_from_prefix (sub s : string) (i : Z) :
  String.prefix sub s = true -> find_from sub s i = i.
Proof.
  intros H. destruct s; [rewrite find_from_nil | rewrite find_from_cons];
    now rewrite H.
Qed.

(** A longer needle is found nowhere a shorter one, its prefix, is not. *)
Lemma prefix_app_false (p q s : string) :
  String.prefix p s = false -> String.prefix (p +:+ q) s = false.
Proof.
  revert s. induction p as [|c p IH]; intros s H.
  - destruct s; simpl in H; discriminate H.
  - rewrite app_cons. destruct s as [|d s]; [reflexivity |]. simpl in *.
    destruct (ascii_dec c d); [apply IH; exact H | reflexivity].
Qed.

Lemma find_from_none_longer (p q s : string) (i : Z) :
  0 <= i -> find_from p s i = -1 -> find_from (p +:+ q) s i = -1.
Proof.
  revert i. induction s as [|c s IH]; intros i Hi.
  - rewrite !find_from_nil. destruct (String.prefix p "") eqn:Hp; [lia |].
    now rewrite (prefix_app_false p q "" Hp).
  - rewrite !find_from_cons.
    destruct (String.prefix p (String c s)) eqn:Hp; [lia |].
    rewrite (prefix_app_false p q _ Hp). apply IH. lia.
Qed.

End StrFacts.

(** ** Fenced texts *)

Module FenceFacts.
Import Py Terms StrFacts.

Lemma prefix_cons (a : ascii) (s1 : string) (b : ascii) (s2 : string) :
  String.prefix (String a s1) (String b s2) =
  if ascii_dec a b then String.prefix s1 s2 else false.
Proof. reflexivity. Qed.

Lemma prefix_nil_r (a : ascii) (s1 : string) :
  String.prefix (String a s1) "" = false.
Proof. reflexivity. Qed.

Lemma prefix_nil_l (s : string) : String.prefix "" s = true.
Proof. destruct s; reflexivity. Qed.

(** Unfolds [String.prefix] on texts whose first characters are known and
    decides the comparisons of characters it meets. *)
Ltac prefix_cases :=
  repeat (rewrite ?app_cons, ?app_nil, ?prefix_cons, ?prefix_nil_r, ?prefix_nil_l in *;
          match goal with
          | H : true = false |- _ => discriminate H
          | |- context [ascii_dec ?a ?b] =>
              destruct (ascii_dec a b); subst; try discriminate
          | H : context [ascii_dec ?a ?b] |- _ =>
              destruct (ascii_dec a b); subst; try discriminate
          end);
  try reflexivity; try assumption.

(** A needle that starts with the three backticks. *)
Definition starts_with_ticks (sub : string) : Prop :=
  forall s, String.prefix "```" s = false -> String.prefix sub s = false.

Lemma ticks_starts : starts_with_ticks "```".
Proof. intros s H. exact H. Qed.

Lemma ticks_json_starts : starts_with_ticks "```json".
Proof. intros s H. exact (prefix_app_false "```" "json" s H). Qed.

(** A white-space character is not a backtick, so no marker starts at it. *)
Lemma prefix_ticks_space (c : ascii) (s : string) :
  isspace c = true -> String.prefix "```" (String c s) = false.
Proof. intros Hc. prefix_cases. Qed.

Lemma find_skip_space (sub pre r : string) (i : Z) :
  starts_with_ticks sub -> all_space pre = true ->
  find_from sub (pre +:+ r) i = find_from sub r (i + len pre).
Proof.
  intros Hsub. revert i. induction pre as [|c pre IH]; intros i Hpre.
  - rewrite app_nil. f_equal. unfold len. simpl. lia.
  - simpl in Hpre. apply andb_true_iff in Hpre as [Hc Hpre].
    rewrite app_cons, find_from_cons.
    rewrite (Hsub _ (prefix_ticks_space c _ Hc)).
    rewrite IH by assumption. f_equal. unfold len. simpl String.length. lia.
Qed.

(** Where a text ending in a closing brace has no marker, none starts in it
    even when more text follows. *)
Lemma prefix_ticks_brace (x r : string) :
  String.prefix "```" (x +:+ "}") = false ->
  String.prefix "```" (x +:+ "}" +:+ r) = false.
Proof.
  intros H. destruct x as [|c1 [|c2 [|c3 x]]]; prefix_cases.
Qed.

Lemma find_skip_object (sub x r : string) (i : Z) :
  starts_with_ticks sub ->
  find_from "```" (x +:+ "}") 0 = -1 ->
  find_from sub (x +:+ "}" +:+ r) i = find_from sub r (i + len (x +:+ "}")).
Proof.
  intros Hsub. revert i. induction x as [|c x IH]; intros i H.
  - rewrite !app_nil, app_cons, app_nil, find_from_cons.
    rewrite (Hsub (String "}" r)) by reflexivity. reflexivity.
  - rewrite (app_cons c x) in *. rewrite find_from_cons in H.
    destruct (String.prefix "```" (String c (x +:+ "}"))) eqn:Hp; [lia |].
    rewrite find_from_cons.
    assert (String.prefix "```" (String c (x +:+ "}" +:+ r)) = false) as Hb
      by (apply (prefix_ticks_brace (String c x) r); exact Hp).
    rewrite (Hsub _ Hb).
    rewrite IH by (apply (find_from_none_shift _ _ (0 + 1)); [lia | lia | exact H]).
    f_equal. unfold len. simpl String.length. lia.
Qed.

Lemma lstrip_space (pre s : string) :
  all_space pre = true -> lstrip (pre +:+ s) = lstrip s.
Proof.
  induction pre as [|c pre IH]; intros H; [reflexivity |].
  simpl in H. apply andb_true_iff in H as [Hc H].
  rewrite app_cons. simpl. rewrite Hc. now apply IH.
Qed.

Lemma rstrip_space (post : string) : all_space post = true -> rstrip post = "".
Proof.
  induction post as [|c post IH]; intros H; [reflexivity |].
  simpl in H. apply andb_true_iff in H as [Hc H].
  simpl. rewrite IH by assumption. now rewrite Hc.
Qed.

Lemma rstrip_after (x : string) (c : ascii) (post : string) :
  isspace c = false -> all_space post = true ->
  rstrip (x +:+ String c post) = x +:+ String c "".
Proof.
  intros Hc Hpost. induction x as [|a x IH].
  - rewrite !app_nil. simpl. rewrite rstrip_space by assumption. now rewrite Hc.
  - rewrite !app_cons. simpl. rewrite IH.
    destruct x; reflexivity.
Qed.

(** Stripping keeps exactly a text in braces that is padded with white
    space. *)
Lemma strip_padded (pre body post : string) :
  all_space pre = true -> all_space post = true ->
  strip (pre +:+ ("{" +:+ body +:+ "}") +:+ post) = "{" +:+ body +:+ "}".
Proof.
  intros Hpre Hpost. unfold strip. rewrite lstrip_space by assumption.
  rewrite !app_cons, !app_nil. simpl lstrip.
  rewrite app_assoc. rewrite app_cons, app_nil.
  change (String "{" (body +:+ String "}" post))
    with (("{" +:+ body) +:+ String "}" post).
  rewrite rstrip_after by (assumption || reflexivity).
  now rewrite app_cons, app_nil.
Qed.

End FenceFacts.

Module ExtractFacts.
Import Py Terms StrFacts FenceFacts GeminiService.

Lemma contains_opener (opener s : string) : contains opener (opener +:+ s) = true.
Proof.
  unfold contains. rewrite find_0, find_from_prefix by apply prefix_app.
  reflexivity.
Qed.

Lemma find_opener (opener s : string) : find (opener +:+ s) opener 0 = 0.
Proof. rewrite find_0. apply find_from_prefix, prefix_app. Qed.

Lemma extract_unfenced (text : string) :
  contains "```" text = false -> extract_json_text text = text.
Proof.
  intros H. unfold extract_json_text. rewrite H.
  assert (contains "```json" text = false) as ->; [| reflexivity].
  apply contains_false. apply contains_false in H.
  exact (find_from_none_longer "```" "json" text 0 (Z.le_refl 0) H).
Qed.

(** The closing marker is the first one after the padded object. *)
Lemma find_closing (sub pre body post : string) (i : Z) :
  starts_with_ticks sub ->
  all_space pre = true -> all_space post = true ->
  contains "```" (object_text body) = false ->
  find_from sub (padded pre (object_text body) post +:+ "```") i =
  find_from sub "```" (i + len (padded pre (object_text body) post)).
Proof.
  intros Hsub Hpre Hpost Hj. apply contains_false in Hj.
  unfold padded, object_text in *.
  rewrite (app_assoc pre). rewrite find_skip_space by assumption.
  change ("{" +:+ body +:+ "}") with (("{" +:+ body) +:+ "}") in *.
  rewrite (app_assoc (("{" +:+ body) +:+ "}")).
  rewrite (app_assoc ("{" +:+ body) "}").
  rewrite find_skip_object by assumption.
  rewrite find_skip_space by assumption.
  f_equal. rewrite !len_app. lia.
Qed.

(** The slice the reconciler takes between an opening marker at the start
    of the text and the next marker. *)
Lemma fenced_slice (opener mid : string) :
  find_from "```" (mid +:+ "```") (len opener) = len opener + len mid ->
  slice (opener +:+ mid +:+ "```") (len opener)
    (find (opener +:+ mid +:+ "```") "```" (len opener)) = mid.
Proof. intros H. rewrite find_at, H. apply slice_middle. Qed.

Lemma strip_padded_object (pre body post : string) :
  all_space pre = true -> all_space post = true ->
  strip (padded pre (object_text body) post) = object_text body.
Proof. apply strip_padded. Qed.

Lemma extract_fence_json (pre body post : string) :
  all_space pre = true -> all_space post = true ->
  contains "```" (object_text body) = false ->
  extract_json_text (fence_json pre (object_text body) post) = object_text body.
Proof.
  intros Hpre Hpost Hj. unfold extract_json_text, fence_json.
  rewrite contains_opener, find_opener.
  change (0 + 7) with (len "```json").
  rewrite fenced_slice; [now apply strip_padded_object |].
  rewrite find_closing by (assumption || apply ticks_starts).
  now rewrite find_from_prefix by reflexivity.
Qed.

(** After an opening marker without a language tag, the tagged marker occurs
    nowhere. *)
Lemma no_json_marker (pre body post : string) :
  all_space pre = true -> all_space post = true ->
  contains "```" (object_text body) = false ->
  contains "```json" (fence_plain pre (object_text body) post) = false.
Proof.
  intros Hpre Hpost Hj. apply contains_false. unfold fence_plain.
  assert (find_from "```json"
            (padded pre (object_text body) post +:+ "```") (0 + 1 + 1 + 1)
          = -1) as Hrest.
  { rewrite find_closing by (assumption || apply ticks_json_starts).
    reflexivity. }
  revert Hrest. unfold padded, object_text. destruct pre as [|c pre]; intros Hrest.
  - rewrite !app_nil in *. rewrite !app_cons in *. rewrite !app_nil in *.
    rewrite !find_from_cons. prefix_cases.
  - simpl in Hpre. apply andb_true_iff in Hpre as [Hc Hpre].
    rewrite !app_cons in *. rewrite !app_nil in *.
    rewrite (find_from_cons _ "`"), (find_from_cons _ "`"), (find_from_cons _ "`").
    prefix_cases.
Qed.

Lemma extract_fence_plain (pre body post : string) :
  all_space pre = true -> all_space post = true ->
  contains "```" (object_text body) = false ->
  extract_json_text (fence_plain pre (object_text body) post) = object_text body.
Proof.
  intros Hpre Hpost Hj. unfold extract_json_text.
  rewrite no_json_marker by assumption. unfold fence_plain.
  rewrite contains_opener, find_opener.
  change (0 + 3) with (len "```").
  rewrite fenced_slice; [now apply strip_padded_object |].
  rewrite find_closing by (assumption || apply ticks_starts).
  now rewrite find_from_prefix by reflexivity.
Qed.

End ExtractFacts.

Module FloatFacts.
Import Py.

Lemma SFcompare_swap (x y : spec_float) :
  SFcompare y x = option_map CompOpp (SFcompare x y).
Proof.
  destruct x as [sx | sx | | sx mx ex], y as [sy | sy | | sy my ey]; simpl;
    try reflexivity;
    try (destruct sx; reflexivity); try (destruct sy; reflexivity);
    try (destruct sx, sy; reflexivity).
  f_equal. rewrite (Z.compare_antisym ex ey).
  pose proof (Pos.compare_cont_antisym mx my Eq) as Ha. simpl in Ha.
  destruct sx, sy; try reflexivity;
    destruct (ex ?= ey); simpl; try reflexivity;
    rewrite <- Ha; try reflexivity; now rewrite CompOpp_involutive.
Qed.

Lemma ltb_leb (x y : float) :
  PrimFloat.ltb x y = true -> PrimFloat.leb x y = true.
Proof.
  rewrite ltb_spec, leb_spec. unfold SFltb, SFleb.
  destruct (SFcompare _ _) as [[]|]; congruence.
Qed.

Lemma ltb_asym (x y : float) :
  PrimFloat.ltb x y = true -> PrimFloat.ltb y x = false.
Proof.
  rewrite !ltb_spec. unfold SFltb. rewrite (SFcompare_swap (Prim2SF x)).
  destruct (SFcompare _ _) as [[]|]; simpl; congruence.
Qed.

(** [max(0.0, min(1.0, f))] is in the unit interval whatever [f] is. *)
Lemma clamp_bounds (f : float) :
  PrimFloat.leb 0 (max2 0 (min2 1 f)) = true /\
  PrimFloat.leb (max2 0 (min2 1 f)) 1 = true.
Proof.
  unfold max2, min2. destruct (PrimFloat.ltb f 1) eqn:H1.
  - destruct (PrimFloat.ltb 0 f) eqn:H0.
    + split; now apply ltb_leb.
    + split; reflexivity.
  - split; reflexivity.
Qed.

Lemma clamp_above (f : float) :
  PrimFloat.ltb 1 f = true -> max2 0 (min2 1 f) = 1%float.
Proof.
  intros H. unfold max2, min2. now rewrite (ltb_asym _ _ H).
Qed.

Lemma ltb_0_1 (f : float) :
  PrimFloat.ltb f 0 = true -> PrimFloat.ltb f 1 = true.
Proof.
  rewrite !ltb_spec. unfold SFltb.
  replace (Prim2SF 0) with (S754_zero false) by (vm_compute; reflexivity).
  replace (Prim2SF 1) with (S754_finite false 4503599627370496 (-52))
    by (vm_compute; reflexivity).
  destruct (Prim2SF f) as [s | s | | s m e]; cbn [SFcompare];
    try discriminate; destruct s; try discriminate; reflexivity.
Qed.

Lemma clamp_below (f : float) :
  PrimFloat.ltb f 0 = true -> max2 0 (min2 1 f) = 0%float.
Proof.
  intros H. unfold max2, min2. rewrite (ltb_0_1 _ H).
  now rewrite (ltb_asym _ _ H).
Qed.

Lemma clamp_inside (f : float) :
  PrimFloat.ltb 0 f = true -> PrimFloat.ltb f 1 = true ->
  max2 0 (min2 1 f) = f.
Proof. intros H0 H1. unfold max2, min2. now rewrite H1, H0. Qed.

End FloatFacts.

(* ===================================================================== *)
(** * Facts about the reconciler                                          *)
(* ===================================================================== *)

Module ReconcileFacts.
Import Py Config GeminiService Terms.

Lemma bind_Ok {A B} (a : A) (k : A -> result B) : (Ok a ≫= k) = k a.
Proof. reflexivity. Qed.

Lemma bind_Raise {A B} (e : pyexn) (k : A -> result B) :
  (Raise e ≫= k) = Raise e.
Proof. reflexivity. Qed.

Lemma in_str_list_In (s : string) (l : list string) :
  in_str_list (PStr s) l = true -> In s l.
Proof.
  unfold in_str_list. intros H. apply existsb_exists in H as (x & Hx & He).
  simpl in He. apply String.eqb_eq in He. now subst.
Qed.

Lemma in_str_list_PStr (v : pyval) (l : list string) :
  in_str_list v l = true -> exists s, v = PStr s.
Proof.
  unfold in_str_list. intros H. apply existsb_exists in H as (x & _ & He).
  destruct v; try discriminate. eauto.
Qed.

(** The category of the result is always one of the configured ones. *)
Lemma coerced_category_known (category : pyval) :
  In (coerced_category category) (WASTE_CATEGORIES settings).
Proof.
  unfold coerced_category. destruct category; try (simpl; tauto).
  destruct (in_str_list _ _) eqn:H; [now apply in_str_list_In | simpl; tauto].
Qed.

Lemma coerced_category_unknown (category : pyval) :
  in_str_list category (WASTE_CATEGORIES settings) = false ->
  coerced_category category = "Unknown".
Proof. unfold coerced_category. intros H. destruct category; now rewrite ?H. Qed.

Lemma py_getitem_dict (d : gmap string pyval) (k : string) (v : pyval) :
  d !! k = Some v -> py_getitem (PDict d) k = Ok v.
Proof. intros H. unfold py_getitem. now rewrite H. Qed.

(** ** The required fields *)

Lemma check_required_present (d : gmap string pyval) :
  has_required_fields d -> check_required (PDict d) required_fields = Ok tt.
Proof.
  intros (H1 & H2 & H3). unfold required_fields, check_required, py_contains.
  rewrite !bind_Ok, !bool_decide_eq_true_2 by assumption. reflexivity.
Qed.

Lemma check_required_inv (d : gmap string pyval) (u : unit) :
  check_required (PDict d) required_fields = Ok u -> has_required_fields d.
Proof.
  unfold required_fields, check_required, py_contains, has_required_fields.
  rewrite !bind_Ok.
  repeat (case_bool_decide; [| discriminate]). tauto.
Qed.

(** ** The merge with the guide *)

Lemma setdefault_lookup (key : string) (value : pyval)
  (d : gmap string pyval) (k : string) :
  setdefault key value d !! k =
  if decide (k = key) then Some (default value (d !! key)) else d !! k.
Proof.
  unfold setdefault. destruct (d !! key) eqn:H; case_decide; subst; simpl;
    rewrite ?lookup_insert_eq, ?lookup_insert_ne by congruence; congruence.
Qed.

(** The data just before the impact entry is read: three keys may have been
    written, and the impact entry is there. *)
Lemma merge_guide_shape (guide : DisposalGuide) (data : gmap string pyval) :
  exists d3 : gmap string pyval,
    (forall k, k <> "disposal_steps" -> k <> "bin_color" ->
               k <> "environmental_impact" -> d3 !! k = data !! k) /\
    d3 !! "disposal_steps" =
      Some (match data !! "disposal_steps" with
            | Some steps =>
                if truthy steps then steps else str_list (instructions guide)
            | None => str_list (instructions guide)
            end) /\
    d3 !! "bin_color" =
      Some (default (PStr (bin_color guide)) (data !! "bin_color")) /\
    d3 !! "environmental_impact" =
      Some (default (PDict ∅) (data !! "environmental_impact")) /\
    merge_guide guide data =
      match default (PDict ∅) (data !! "environmental_impact") with
      | PDict impact =>
          Ok (<["examples" := str_list (examples guide)]>
                (<["environmental_impact" :=
                     PDict (setdefault "decomposition_time"
                              (PStr (decomposition_time guide))
                              (setdefault "co2_saved_kg"
                                 (PFloat (co2_saved_per_kg guide)) impact))]>
                   d3))
      | _ => Raise AttributeError
      end.
Proof.
  unfold merge_guide.
  set (d1 := match data !! "disposal_steps" with
             | Some steps =>
                 if truthy steps then data
                 else <["disposal_steps" := str_list (instructions guide)]> data
             | None => <["disposal_steps" := str_list (instructions guide)]> data
             end).
  assert (forall k, k <> "disposal_steps" -> d1 !! k = data !! k) as Hd1.
  { intros k Hk. unfold d1. destruct (data !! "disposal_steps") as [steps|];
      [destruct (truthy steps) |]; now rewrite ?lookup_insert_ne by congruence. }
  assert (d1 !! "disposal_steps" =
          Some (match data !! "disposal_steps" with
                | Some steps =>
                    if truthy steps then steps else str_list (instructions guide)
                | None => str_list (instructions guide)
                end)) as Hsteps.
  { unfold d1. destruct (data !! "disposal_steps") as [steps|] eqn:E;
      [destruct (truthy steps) |]; now rewrite ?lookup_insert_eq. }
  clearbody d1.
  set (d2 := match d1 !! "bin_color" with
             | Some _ => d1
             | None => <["bin_color" := PStr (bin_color guide)]> d1
             end).
  assert (forall k, k <> "bin_color" -> d2 !! k = d1 !! k) as Hd2.
  { intros k Hk. unfold d2. destruct (d1 !! "bin_color");
      now rewrite ?lookup_insert_ne by congruence. }
  assert (d2 !! "bin_color" =
          Some (default (PStr (bin_color guide)) (data !! "bin_color"))) as Hbin.
  { unfold d2. rewrite <- (Hd1 "bin_color") by discriminate.
    destruct (d1 !! "bin_color") eqn:E; simpl;
      now rewrite ?lookup_insert_eq. }
  clearbody d2.
  set (d3 := match d2 !! "environmental_impact" with
             | Some _ => d2
             | None => <["environmental_impact" := PDict ∅]> d2
             end).
  assert (forall k, k <> "environmental_impact" -> d3 !! k = d2 !! k) as Hd3.
  { intros k Hk. unfold d3. destruct (d2 !! "environmental_impact");
      now rewrite ?lookup_insert_ne by congruence. }
  assert (d3 !! "environmental_impact" =
          Some (default (PDict ∅) (data !! "environmental_impact"))) as Himp.
  { unfold d3. rewrite (Hd2 "environmental_impact") by discriminate.
    rewrite (Hd1 "environmental_impact") by discriminate.
    destruct (data !! "environmental_impact") eqn:E; simpl.
    - now rewrite (Hd2 "environmental_impact"), (Hd1 "environmental_impact")
        by discriminate.
    - apply lookup_insert_eq. }
  clearbody d3. exists d3. repeat split.
  - intros k H1 H2 H3. now rewrite Hd3, Hd2, Hd1.
  - now rewrite Hd3, Hd2 by discriminate.
  - now rewrite Hd3 by discriminate.
  - exact Himp.
  - rewrite Himp.
    now destruct (default (PDict ∅) (data !! "environmental_impact")).
Qed.

(** A merge that returns leaves every key it does not write as it was. *)
Lemma merge_guide_other_keys (guide : DisposalGuide)
  (data r : gmap string pyval) (k : string) :
  merge_guide guide data = Ok r -> ~ In k merged_keys -> r !! k = data !! k.
Proof.
  destruct (merge_guide_shape guide data) as (d3 & Hother & _ & _ & _ & ->).
  unfold merged_keys. intros H Hk.
  destruct (default (PDict ∅) (data !! "environmental_impact"));
    try discriminate H.
  injection H as <-.
  rewrite !lookup_insert_ne by (intros E; apply Hk; rewrite <- E; simpl; auto 10).
  apply Hother; intros E; apply Hk; rewrite E; simpl; auto 10.
Qed.

(** What [merge_guide] returns when the impact entry is absent or an
    object: the four keys it writes, and nothing else changed. *)
Lemma merge_guide_Ok (guide : DisposalGuide) (data : gmap string pyval) :
  impact_absent_or_object data ->
  exists r, merge_guide guide data = Ok r /\
    r !! "disposal_steps" =
      Some (match data !! "disposal_steps" with
            | Some steps =>
                if truthy steps then steps else str_list (instructions guide)
            | None => str_list (instructions guide)
            end) /\
    r !! "bin_color" =
      Some (default (PStr (bin_color guide)) (data !! "bin_color")) /\
    (exists impact, r !! "environmental_impact" = Some (PDict impact) /\
       impact !! "co2_saved_kg" =
         Some (default (PFloat (co2_saved_per_kg guide))
                 (impact_of data !! "co2_saved_kg")) /\
       impact !! "decomposition_time" =
         Some (default (PStr (decomposition_time guide))
                 (impact_of data !! "decomposition_time")) /\
       forall k, k <> "co2_saved_kg" -> k <> "decomposition_time" ->
         impact !! k = impact_of data !! k) /\
    r !! "examples" = Some (str_list (examples guide)) /\
    forall k, ~ In k merged_keys -> r !! k = data !! k.
Proof.
  intros Himpact.
  destruct (merge_guide_shape guide data) as (d3 & Hother & Hsteps & Hbin & _ & Hrun).
  assert (default (PDict ∅) (data !! "environmental_impact")
          = PDict (impact_of data)) as Himp.
  { unfold impact_absent_or_object, impact_of in *.
    now destruct (data !! "environmental_impact") as [[]|]. }
  rewrite Himp in Hrun. eexists. split; [exact Hrun |].
  repeat split.
  - now rewrite !lookup_insert_ne by discriminate.
  - now rewrite !lookup_insert_ne by discriminate.
  - eexists. split; [| split; [| split]].
    + rewrite lookup_insert_ne by discriminate. apply lookup_insert_eq.
    + rewrite !setdefault_lookup. simpl. reflexivity.
    + rewrite !setdefault_lookup. simpl. reflexivity.
    + intros k Hk1 Hk2. rewrite !setdefault_lookup.
      repeat case_decide; congruence.
  - apply lookup_insert_eq.
  - intros k Hk. unfold merged_keys in Hk.
    rewrite !lookup_insert_ne
      by (intros E; apply Hk; rewrite <- E; simpl; auto 10).
    apply Hother; intros E; apply Hk; rewrite E; simpl; auto 10.
Qed.

(** The merge returns only when the impact entry is absent or an object. *)
Lemma merge_guide_Ok_impact (guide : DisposalGuide)
  (data r : gmap string pyval) :
  merge_guide guide data = Ok r -> impact_absent_or_object data.
Proof.
  destruct (merge_guide_shape guide data) as (d3 & _ & _ & _ & _ & ->).
  unfold impact_absent_or_object.
  destruct (data !! "environmental_impact") as [[]|]; simpl;
    intros H; try discriminate H; exact I.
Qed.

Section Runtime.
Context {rt : PyRuntime}.

(** ** The [try] block on an object with the required fields *)

Lemma parse_and_validate_object (text : string) (d : gmap string pyval)
  (category confidence : pyval) :
  json_loads text = Some (PDict d) ->
  is_Some (d !! "item_name") ->
  d !! "category" = Some category ->
  d !! "confidence" = Some confidence ->
  parse_and_validate text =
  (f ← py_float confidence;
   match WASTE_DISPOSAL_GUIDES !! coerced_category category with
   | Some guide => merge_guide guide (validated d category f)
   | None => Ok (validated d category f)
   end).
Proof.
  intros Hloads Hname Hcat Hconf. unfold parse_and_validate.
  rewrite Hloads, bind_Ok.
  rewrite check_required_present, bind_Ok
    by (repeat split; rewrite ?Hcat, ?Hconf; eauto).
  rewrite (py_getitem_dict d "category" category Hcat), bind_Ok.
  assert ((if negb (in_str_list category (WASTE_CATEGORIES settings))
           then <["category" := PStr "Unknown"]> d else d)
          = <["category" := PStr (coerced_category category)]> d) as ->.
  { unfold coerced_category.
    destruct (in_str_list category _) eqn:Hin; simpl.
    - destruct (in_str_list_PStr _ _ Hin) as [s ->].
      symmetry. now apply insert_id.
    - now destruct category. }
  rewrite lookup_insert_ne, Hconf by discriminate. simpl default.
  destruct (py_float confidence) as [f | e]; [| reflexivity].
  rewrite !bind_Ok. fold (clamp01 f). fold (validated d category f).
  rewrite (py_getitem_dict _ "category" (PStr (coerced_category category))), bind_Ok.
  - unfold guide_for. now rewrite bind_Ok.
  - unfold validated. rewrite lookup_insert_ne by discriminate.
    apply lookup_insert_eq.
Qed.

(** A [try] block that returns has gone through every step. *)
Lemma parse_and_validate_Ok_inv (text : string) (data : gmap string pyval) :
  parse_and_validate text = Ok data ->
  exists d category confidence f,
    json_loads text = Some (PDict d) /\
    is_Some (d !! "item_name") /\
    d !! "category" = Some category /\
    d !! "confidence" = Some confidence /\
    py_float confidence = Ok f /\
    match WASTE_DISPOSAL_GUIDES !! coerced_category category with
    | Some guide => merge_guide guide (validated d category f) = Ok data
    | None => data = validated d category f
    end.
Proof.
  intros H. pose proof H as H0. unfold parse_and_validate in H.
  destruct (json_loads text) as [v |] eqn:Hloads; [| discriminate H].
  rewrite bind_Ok in H.
  destruct (check_required v required_fields) as [u | e] eqn:Hreq;
    [| discriminate H].
  rewrite bind_Ok in H.
  destruct v as [| | | | | | d]; try discriminate H. clear H.
  destruct (check_required_inv d u Hreq) as (Hname & [category Hcat] & [confidence Hconf]).
  rewrite (parse_and_validate_object text d category confidence) in H0
    by assumption.
  destruct (py_float confidence) as [f | e] eqn:Hf; [| discriminate H0].
  rewrite bind_Ok in H0.
  exists d, category, confidence, f.
  repeat (split; [first [assumption | reflexivity] |]).
  destruct (WASTE_DISPOSAL_GUIDES !! coerced_category category);
    [exact H0 | now injection H0].
Qed.

(** ** When the [try] block raises *)

Lemma parse_and_validate_not_object (text : string) :
  (forall d, json_loads text = Some (PDict d) -> ~ has_required_fields d) ->
  exists e, parse_and_validate text = Raise e.
Proof.
  intros H. unfold parse_and_validate.
  destruct (json_loads text) as [v |] eqn:Hloads; [| eexists; reflexivity].
  rewrite bind_Ok.
  destruct (check_required v required_fields) as [u | e] eqn:Hreq;
    [| eexists; reflexivity].
  rewrite bind_Ok.
  destruct v as [| | | | | | d]; try (eexists; reflexivity).
  exfalso. exact (H d eq_refl (check_required_inv d u Hreq)).
Qed.

Lemma parse_raises (response_text : string) (e : pyexn) :
  parse_and_validate (extract_json_text response_text) = Raise e ->
  _parse_gemini_response response_text =
  _create_fallback_response (extract_json_text response_text).
Proof.
  intros H. unfold _parse_gemini_response. rewrite H. now destruct e.
Qed.

Lemma parse_returns (response_text : string) (data : gmap string pyval) :
  parse_and_validate (extract_json_text response_text) = Ok data ->
  _parse_gemini_response response_text = data.
Proof. intros H. unfold _parse_gemini_response. now rewrite H. Qed.

End Runtime.

(** ** The fallback *)

Lemma fallback_fields (raw : string) :
  let r := _create_fallback_response raw in
  r !! "item_name" = Some (PStr "Unknown Item") /\
  r !! "category" = Some (PStr "Unknown") /\
  r !! "confidence" = Some (PFloat 0.3) /\
  r !! "recyclable" = Some (PBool false) /\
  r !! "bin_color" = Some (PStr "GREY") /\
  (exists impact, r !! "environmental_impact" = Some (PDict impact) /\
     impact !! "co2_saved_kg" = Some (PFloat 0.0)) /\
  r !! "raw_ai_response" = Some (PStr (slice raw 0 500)) /\
  r !! "examples" = None.
Proof.
  unfold _create_fallback_response. cbn [list_to_map foldr uncurry curry fst snd].
  repeat split; try (eexists; split);
    repeat first [ rewrite lookup_insert_eq; reflexivity
                 | rewrite lookup_insert_ne by discriminate
                 | apply lookup_empty ].
Qed.

End ReconcileFacts.

Module RunFacts.
Import Py Config GeminiService Terms ReconcileFacts.

Lemma validated_confidence (d : gmap string pyval) (category : pyval) (f : float) :
  validated d category f !! "confidence" = Some (PFloat (clamp01 f)).
Proof. apply lookup_insert_eq. Qed.

Lemma validated_category (d : gmap string pyval) (category : pyval) (f : float) :
  validated d category f !! "category" = Some (PStr (coerced_category category)).
Proof.
  unfold validated. rewrite lookup_insert_ne by discriminate.
  apply lookup_insert_eq.
Qed.

Lemma validated_other (d : gmap string pyval) (category : pyval) (f : float)
  (k : string) :
  k <> "confidence" -> k <> "category" -> validated d category f !! k = d !! k.
Proof.
  intros H1 H2. unfold validated. now rewrite !lookup_insert_ne by congruence.
Qed.

Lemma validated_impact (d : gmap string pyval) (category : pyval) (f : float) :
  impact_absent_or_object d -> impact_absent_or_object (validated d category f).
Proof.
  unfold impact_absent_or_object.
  now rewrite (validated_other d category f "environmental_impact")
    by discriminate.
Qed.

Lemma validated_impact_of (d : gmap string pyval) (category : pyval) (f : float) :
  impact_of (validated d category f) = impact_of d.
Proof.
  unfold impact_of.
  now rewrite (validated_other d category f "environmental_impact")
    by discriminate.
Qed.

(** A category with an entry in the guide is one of the configured
    categories, so the validation step leaves it as it is. *)
Lemma guide_key_kept (s : string) (guide : DisposalGuide) :
  WASTE_DISPOSAL_GUIDES !! s = Some guide -> coerced_category (PStr s) = s.
Proof.
  intros H. unfold coerced_category.
  assert (map_Forall (fun k _ => in_str_list (PStr k) (WASTE_CATEGORIES settings) = true)
            WASTE_DISPOSAL_GUIDES) as Hall.
  { apply map_Forall_to_list. vm_compute. repeat constructor. }
  now rewrite (Hall s guide H).
Qed.

Lemma unknown_has_no_guide : WASTE_DISPOSAL_GUIDES !! "Unknown" = None.
Proof. reflexivity. Qed.

(** The guide has an entry for every configured category but "Unknown". *)
Lemma guide_covers_all_but_unknown (c : string) :
  In c (WASTE_CATEGORIES settings) ->
  (is_Some (WASTE_DISPOSAL_GUIDES !! c) <-> c <> "Unknown").
Proof.
  intros H. simpl in H.
  destruct H as [<-|[<-|[<-|[<-|[<-|[<-|[<-|[<-|[]]]]]]]]].
  1-7: split; [intros _; discriminate | intros _; eexists; reflexivity].
  split; [intros [g Hg]; discriminate Hg | congruence].
Qed.

Section Runtime.
Context {rt : PyRuntime}.

(** What a successful parse went through, in terms of the parsed object. *)
Lemma success_run (response_text : string) (d : gmap string pyval)
  (category : pyval) :
  parsed_successfully response_text ->
  json_loads (extract_json_text response_text) = Some (PDict d) ->
  d !! "category" = Some category ->
  exists confidence f,
    d !! "confidence" = Some confidence /\
    py_float confidence = Ok f /\
    match WASTE_DISPOSAL_GUIDES !! coerced_category category with
    | Some guide =>
        impact_absent_or_object d /\
        merge_guide guide (validated d category f)
        = Ok (_parse_gemini_response response_text)
    | None => _parse_gemini_response response_text = validated d category f
    end.
Proof.
  intros [data Hrun] Hloads Hcat.
  rewrite (parse_returns _ _ Hrun).
  destruct (parse_and_validate_Ok_inv _ _ Hrun)
    as (d' & category' & confidence & f & Hloads' & _ & Hcat' & Hconf & Hf & Hdata).
  rewrite Hloads in Hloads'. injection Hloads' as <-.
  rewrite Hcat in Hcat'. injection Hcat' as <-.
  exists confidence, f. split; [exact Hconf | split; [exact Hf |]].
  destruct (WASTE_DISPOSAL_GUIDES !! coerced_category category) as [guide |];
    [| exact Hdata].
  split; [| exact Hdata].
  pose proof (merge_guide_Ok_impact _ _ _ Hdata) as Himpact.
  unfold impact_absent_or_object in *.
  now rewrite (validated_other d category f "environmental_impact")
    in Himpact by discriminate.
Qed.

(** Which replies are parsed successfully. *)
Lemma parsed_successfully_iff (response_text : string) :
  parsed_successfully response_text <->
  exists d category confidence f,
    json_loads (extract_json_text response_text) = Some (PDict d) /\
    is_Some (d !! "item_name") /\
    d !! "category" = Some category /\
    d !! "confidence" = Some confidence /\
    py_float confidence = Ok f /\
    (is_Some (WASTE_DISPOSAL_GUIDES !! coerced_category category) ->
     impact_absent_or_object d).
Proof.
  split.
  - intros [data Hrun].
    destruct (parse_and_validate_Ok_inv _ _ Hrun)
      as (d & category & confidence & f & Hloads & Hname & Hcat & Hconf & Hf & Hdata).
    exists d, category, confidence, f. repeat (split; [assumption |]).
    intros [guide Hguide]. rewrite Hguide in Hdata.
    pose proof (merge_guide_Ok_impact _ _ _ Hdata) as Himpact.
    unfold impact_absent_or_object in *.
    now rewrite (validated_other d category f "environmental_impact")
      in Himpact by discriminate.
  - intros (d & category & confidence & f & Hloads & Hname & Hcat & Hconf & Hf & Himpact).
    unfold parsed_successfully.
    rewrite (parse_and_validate_object _ d category confidence) by assumption.
    rewrite Hf, bind_Ok.
    destruct (WASTE_DISPOSAL_GUIDES !! coerced_category category) as [guide |];
      [| eexists; reflexivity].
    destruct (merge_guide_Ok guide (validated d category f)
                (validated_impact d category f (Himpact (ex_intro _ guide eq_refl))))
      as (r & Hr & _).
    exists r. exact Hr.
Qed.

(** The confidence of every result is a float of the unit interval. *)
Lemma confidence_in_unit_interval (response_text : string) :
  exists c, _parse_gemini_response response_text !! "confidence" = Some (PFloat c)
            /\ PrimFloat.leb 0 c = true /\ PrimFloat.leb c 1 = true.
Proof.
  destruct (parse_and_validate (extract_json_text response_text))
    as [data | e] eqn:Hrun.
  - rewrite (parse_returns _ _ Hrun).
    destruct (parse_and_validate_Ok_inv _ _ Hrun)
      as (d & category & confidence & f & _ & _ & _ & _ & _ & Hdata).
    exists (clamp01 f). split; [| apply FloatFacts.clamp_bounds].
    destruct (WASTE_DISPOSAL_GUIDES !! coerced_category category) as [guide |].
    + rewrite (merge_guide_other_keys guide _ _ "confidence" Hdata)
        by (unfold merged_keys; simpl; intuition discriminate).
      apply validated_confidence.
    + subst data. apply validated_confidence.
  - rewrite (parse_raises _ _ Hrun). exists 0.3%float.
    split; [apply fallback_fields | split; reflexivity].
Qed.

End Runtime.
End RunFacts.

Module LevelFacts.
Import Py Config Waste Terms.

Lemma sorted_items_default :
  sorted_items_desc (LEVEL_THRESHOLDS settings)
  = [(7, 10000); (6, 5000); (5, 2000); (4, 1000); (3, 500); (2, 200); (1, 0)].
Proof. vm_compute. reflexivity. Qed.

Lemma sorted_keys_default :
  sorted_keys (LEVEL_THRESHOLDS settings) = [1; 2; 3; 4; 5; 6; 7].
Proof. vm_compute. reflexivity. Qed.

Lemma thresholds_list :
  map_to_list (LEVEL_THRESHOLDS settings)
  = [(7, 10000); (5, 2000); (3, 500); (6, 5000); (4, 1000); (2, 200); (1, 0)].
Proof. vm_compute. reflexivity. Qed.

(** Decides the comparisons of [tp] with the thresholds that occur in the
    goal, under the hypotheses on [tp]. *)
Ltac decide_thresholds :=
  repeat match goal with
  | |- context [decide (?a <= ?b)] =>
      first [ rewrite (decide_True (P := a <= b)) by lia
            | rewrite (decide_False (P := a <= b)) by lia ]
  end.

(** The level and the gap, by the range [total_points] falls in. *)
Lemma highest_level_cases (tp : Z) :
  0 <= tp ->
  highest_level_reached tp =
    if 10000 <=? tp then 7 else if 5000 <=? tp then 6
    else if 2000 <=? tp then 5 else if 1000 <=? tp then 4
    else if 500 <=? tp then 3 else if 200 <=? tp then 2 else 1.
Proof.
  intros H. unfold highest_level_reached, levels_reached.
  rewrite thresholds_list.
  repeat match goal with
  | |- context [?a <=? tp] => destruct (Z.leb_spec a tp)
  end; try lia;
  repeat (rewrite filter_cons; simpl snd; decide_thresholds; cbv iota beta);
  rewrite filter_nil; reflexivity.
Qed.

(** [highest_level_reached] is what its name says. *)
Lemma highest_level_reached_spec (tp : Z) :
  0 <= tp ->
  exists threshold,
    LEVEL_THRESHOLDS settings !! highest_level_reached tp = Some threshold /\
    threshold <= tp /\
    forall level threshold',
      LEVEL_THRESHOLDS settings !! level = Some threshold' ->
      threshold' <= tp -> level <= highest_level_reached tp.
Proof.
  intros H. rewrite (highest_level_cases tp H).
  assert (forall level threshold',
            LEVEL_THRESHOLDS settings !! level = Some threshold' ->
            In (level, threshold')
              [(1, 0); (2, 200); (3, 500); (4, 1000); (5, 2000); (6, 5000);
               (7, 10000)]) as Htable.
  { intros level threshold' Hl. apply elem_of_map_to_list in Hl.
    rewrite thresholds_list in Hl. apply list_elem_of_In in Hl.
    simpl in Hl. simpl. intuition. }
  repeat match goal with
  | |- context [?a <=? tp] => destruct (Z.leb_spec a tp)
  end;
  (match goal with
   | |- context [LEVEL_THRESHOLDS settings !! ?l] =>
       let v := eval vm_compute in (LEVEL_THRESHOLDS settings !! l) in
       match v with
       | Some ?t => exists t; split; [vm_compute; reflexivity | split; [lia |]]
       end
   end;
   intros level threshold' Hl Hle; apply Htable in Hl; simpl in Hl;
   repeat (destruct Hl as [Hl | Hl]; [injection Hl as <- <-; lia |]);
   contradiction).
Qed.

Lemma calculate_level_int (stats : gmap string pyval) (tp : Z) :
  default (PInt 0) (stats !! "total_points") = PInt tp ->
  0 <= tp ->
  calculate_level stats =
  Ok (<["next_level_points" := gap_to_next_level (highest_level_reached tp) tp]>
        (<["level" := PInt (highest_level_reached tp)]> stats)).
Proof.
  intros Hstats H. unfold calculate_level. rewrite Hstats.
  rewrite sorted_items_default, sorted_keys_default.
  rewrite (highest_level_cases tp H). unfold gap_to_next_level.
  unfold level_loop, ge_int. rewrite !ReconcileFacts.bind_Ok.
  repeat match goal with
  | |- context [?a <=? tp] =>
      destruct (Z.leb_spec a tp); rewrite ?ReconcileFacts.bind_Ok; try lia
  end;
  vm_compute next_level_loop; cbv iota beta;
  match goal with
  | |- context [LEVEL_THRESHOLDS settings !! ?l] =>
      let v := eval vm_compute in (LEVEL_THRESHOLDS settings !! l) in
      change (LEVEL_THRESHOLDS settings !! l) with v
  end; cbv iota beta;
  unfold int_sub; rewrite ?ReconcileFacts.bind_Ok;
  now rewrite ?insert_insert_eq.
Qed.

End LevelFacts.

(* ===================================================================== *)
(** * Facts about the scan records and the user statistics                *)
(* ===================================================================== *)

Module RecordFacts.
Import Py Config PyOps Waste Records FlowTerms ReconcileFacts.

(** Looks a key up in a dictionary written as a list of entries. *)
Ltac lookup_literal :=
  cbn [list_to_map foldr uncurry curry fst snd];
  repeat first [ rewrite lookup_insert_eq; reflexivity
               | rewrite lookup_insert_ne by (discriminate || congruence)
               | apply lookup_empty ].

Section Clocked.
Context {clk : Clock}.

(** The update either leaves the world as it is or writes the document of
    the user, after two readings of the clock; the scans are not touched. *)
Lemma update_user_stats_effect (user_id : string)
  (scan_data : gmap string pyval) (w : world) :
  update_user_stats user_id scan_data w = w \/
  exists s doc,
    db w = Some s /\
    update_user_stats user_id scan_data w
    = {| db := Some {| users := <[user_id := doc]> (users s);
                       waste_scans := waste_scans s |};
         reads := S (S (reads w)) |}.
Proof.
  unfold update_user_stats.
  destruct (db w) as [s |] eqn:Hdb; [| now left].
  destruct (users s !! user_id) as [user_data |].
  - destruct (updated_fields _ _ _) as [fields | e]; [| now left].
    right. eexists _, _. split; reflexivity.
  - destruct (new_user_fields _ _ _) as [fields | e]; [| now left].
    right. eexists _, _. split; reflexivity.
Qed.

Lemma update_user_stats_scans (user_id : string)
  (scan_data : gmap string pyval) (w : world) :
  scans_of (update_user_stats user_id scan_data w) = scans_of w.
Proof.
  destruct (update_user_stats_effect user_id scan_data w)
    as [-> | (s & doc & Hdb & ->)]; [reflexivity |].
  unfold scans_of. now rewrite Hdb.
Qed.

Lemma update_user_stats_others (user_id other : string)
  (scan_data : gmap string pyval) (w : world) :
  other <> user_id ->
  users_of (update_user_stats user_id scan_data w) !! other
  = users_of w !! other.
Proof.
  intros Hne.
  destruct (update_user_stats_effect user_id scan_data w)
    as [-> | (s & doc & Hdb & ->)]; [reflexivity |].
  unfold users_of. rewrite Hdb. simpl. now rewrite lookup_insert_ne.
Qed.

(** The fields written for a user whose counters and whose scan are of the
    expected types. *)
Lemma updated_fields_numbers (user_data scan_data : gmap string pyval)
  (n : nat) (scans points earned : Z) (co2 saved : float) :
  default (PInt 0) (user_data !! "total_scans") = PInt scans ->
  default (PInt 0) (user_data !! "total_points") = PInt points ->
  default (PFloat 0.0) (user_data !! "co2_saved_kg") = PFloat co2 ->
  default (PInt 0) (scan_data !! "points_earned") = PInt earned ->
  scan_co2 scan_data = Ok (PFloat saved) ->
  updated_fields user_data scan_data n =
  Ok (list_to_map
        [("total_scans", PInt (scans + 1));
         ("total_points", PInt (points + earned));
         ("co2_saved_kg", PFloat (co2 + saved)%float);
         ("last_scan_timestamp", PStr (isoformat (utcnow n)));
         ("updated_at", PStr (isoformat (utcnow (S n))))]).
Proof.
  intros H1 H2 H3 H4 H5. unfold updated_fields.
  rewrite H1, H2, H3, H4, H5. reflexivity.
Qed.

Lemma update_existing_user (user_id : string)
  (scan_data user_data fields : gmap string pyval) (w : world) (s : store) :
  db w = Some s ->
  users s !! user_id = Some user_data ->
  updated_fields user_data scan_data (reads w) = Ok fields ->
  update_user_stats user_id scan_data w
  = {| db := Some {| users := <[user_id := fields ∪ user_data]> (users s);
                     waste_scans := waste_scans s |};
       reads := S (S (reads w)) |}.
Proof.
  intros Hdb Huser Hfields. unfold update_user_stats.
  now rewrite Hdb, Huser, Hfields.
Qed.

Lemma update_new_user (user_id : string)
  (scan_data fields : gmap string pyval) (w : world) (s : store) :
  db w = Some s ->
  users s !! user_id = None ->
  new_user_fields user_id scan_data (reads w) = Ok fields ->
  update_user_stats user_id scan_data w
  = {| db := Some {| users := <[user_id := fields]> (users s);
                     waste_scans := waste_scans s |};
       reads := S (S (reads w)) |}.
Proof.
  intros Hdb Huser Hfields. unfold update_user_stats.
  now rewrite Hdb, Huser, Hfields.
Qed.

(** The world right after the scan document has been stored. *)
Lemma save_scan_with_client (scan_data : gmap string pyval)
  (user_id : option string) (w : world) (s : store) :
  db w = Some s ->
  let scan_id := "scan_" +:+ strftime (utcnow (reads w)) +:+ "_"
                 +:+ user_or_anonymous user_id in
  let stored :=
    {| db := Some {| users := users s;
                     waste_scans :=
                       <[scan_id := scan_document scan_id user_id scan_data
                                      (isoformat (utcnow (S (reads w))))]>
                         (waste_scans s) |};
       reads := S (S (reads w)) |} in
  save_scan_to_database scan_data user_id w
  = (scan_id,
     match user_id with
     | Some u => if truthy (PStr u) then update_user_stats u scan_data stored
                 else stored
     | None => stored
     end).
Proof. intros Hdb. unfold save_scan_to_database. now rewrite Hdb. Qed.

(** The CO2 of a scan is read off its impact entry. *)
Lemma scan_co2_depends (r r' : gmap string pyval) :
  r' !! "environmental_impact" = r !! "environmental_impact" ->
  scan_co2 r' = scan_co2 r.
Proof. intros H. unfold scan_co2. now rewrite H. Qed.

(** A scan whose impact entry has no [get] updates nothing. *)
Lemma update_without_impact (user_id : string)
  (scan_data : gmap string pyval) (w : world) (e : pyexn) :
  scan_co2 scan_data = Raise e ->
  update_user_stats user_id scan_data w = w.
Proof.
  intros H. unfold update_user_stats, updated_fields, new_user_fields.
  rewrite H.
  destruct (db w) as [s |]; [| reflexivity].
  destruct (users s !! user_id) as [user_data |]; [| reflexivity].
  destruct (py_add _ (PInt 1)); [| reflexivity]. rewrite bind_Ok.
  destruct (py_add _ _); reflexivity.
Qed.

(** A world with a client keeps it. *)
Lemma update_user_stats_client (user_id : string)
  (scan_data : gmap string pyval) (w : world) (s : store) :
  db w = Some s ->
  exists s', db (update_user_stats user_id scan_data w) = Some s' /\
             waste_scans s' = waste_scans s /\
             forall other, other <> user_id ->
                           users s' !! other = users s !! other.
Proof.
  intros Hdb.
  destruct (update_user_stats_effect user_id scan_data w)
    as [-> | (s0 & doc & Hdb0 & ->)].
  - exists s. now rewrite Hdb.
  - rewrite Hdb in Hdb0. injection Hdb0 as <-.
    eexists. split; [reflexivity |]. split; [reflexivity |].
    intros other Hne. simpl. now rewrite lookup_insert_ne.
Qed.

(** What saving a scan leaves: the document under the scan id, the other
    scans as they were, and the documents of the other users as they
    were. *)
Lemma save_scan_effect (scan_data : gmap string pyval)
  (user_id : option string) (w : world) (s : store) :
  db w = Some s ->
  let scan_id := "scan_" +:+ strftime (utcnow (reads w)) +:+ "_"
                 +:+ user_or_anonymous user_id in
  (save_scan_to_database scan_data user_id w).1 = scan_id /\
  exists s',
    db (save_scan_to_database scan_data user_id w).2 = Some s' /\
    waste_scans s'
    = <[scan_id := scan_document scan_id user_id scan_data
                     (isoformat (utcnow (S (reads w))))]> (waste_scans s) /\
    (forall other, user_id <> Some other ->
                   users s' !! other = users s !! other) /\
    (user_id = None \/ user_id = Some "" -> users s' = users s).
Proof.
  intros Hdb scan_id.
  rewrite (save_scan_with_client scan_data user_id w s Hdb). fold scan_id.
  split; [reflexivity |]. cbn [snd].
  set (stored := {| db := Some _; reads := _ |}).
  assert (exists s', db stored = Some s' /\
            waste_scans s'
            = <[scan_id := scan_document scan_id user_id scan_data
                             (isoformat (utcnow (S (reads w))))]> (waste_scans s) /\
            users s' = users s) as Hstored
    by (eexists; repeat split).
  destruct user_id as [u |].
  - destruct (truthy (PStr u)) eqn:Hu.
    + destruct (update_user_stats_client u scan_data stored _ eq_refl)
        as (s' & Hdb' & Hscans & Hothers).
      exists s'. split; [exact Hdb' |]. split; [exact Hscans |]. split.
      * intros other Hne. apply Hothers. congruence.
      * intros [H | H]; [discriminate H |]. injection H as ->.
        discriminate Hu.
    + destruct Hstored as (s' & Hdb' & Hscans & Husers).
      exists s'. repeat (split; [first [assumption | now rewrite Husers] |]).
      intros _. exact Husers.
  - destruct Hstored as (s' & Hdb' & Hscans & Husers).
    exists s'. repeat (split; [first [assumption | now rewrite Husers] |]).
    intros _. exact Husers.
Qed.

End Clocked.

(** The entries of a scan document. *)
Lemma scan_document_fields (scan_id : string) (user_id : option string)
  (scan_data : gmap string pyval) (timestamp : string) :
  let doc := scan_document scan_id user_id scan_data timestamp in
  doc !! "scan_id" = Some (PStr scan_id) /\
  doc !! "user_id" = Some (PStr (user_or_anonymous user_id)) /\
  doc !! "points_earned"
  = Some (default (PInt 0) (scan_data !! "points_earned")) /\
  doc !! "timestamp" = Some (PStr timestamp).
Proof. unfold scan_document. repeat split; lookup_literal. Qed.

End RecordFacts.

(* ===================================================================== *)
(** * Facts about the identification flow                                 *)
(* ===================================================================== *)

Module FlowFacts.
Import Py Config GeminiService Terms PyOps GeminiFlow FlowTerms.
Import ReconcileFacts RunFacts.

(** The points depend on three entries only. *)
Lemma points_depend_on_three_keys (r r' : gmap string pyval) :
  r' !! "confidence" = r !! "confidence" ->
  r' !! "recyclable" = r !! "recyclable" ->
  r' !! "category" = r !! "category" ->
  _calculate_points r' = _calculate_points r.
Proof. intros H1 H2 H3. unfold _calculate_points. now rewrite H1, H2, H3. Qed.

(** With a float for confidence the points are returned, between the base
    and the base with the three bonuses. *)
Lemma points_bounds (r : gmap string pyval) (c : float) :
  r !! "confidence" = Some (PFloat c) ->
  exists p, _calculate_points r = Ok p /\ 50 <= p <= 110.
Proof.
  intros Hc. unfold _calculate_points. rewrite Hc. simpl default.
  unfold ge_0_9. rewrite bind_Ok.
  change (POINTS_CORRECT_DISPOSAL settings) with 50.
  destruct (PrimFloat.leb 0.9 c),
    (truthy (default (PBool false) (r !! "recyclable"))),
    (in_str_list (default PNone (r !! "category")) ["Hazardous Waste"; "E-Waste"]);
    eexists; (split; [reflexivity | lia]).
Qed.

(** The fallback earns the base points. *)
Lemma fallback_points (raw : string) :
  _calculate_points (_create_fallback_response raw) = Ok 50.
Proof.
  destruct (fallback_fields raw) as (_ & Hcat & Hconf & Hrec & _).
  unfold _calculate_points. cbv zeta in Hcat, Hconf, Hrec.
  rewrite Hcat, Hconf, Hrec. reflexivity.
Qed.

Section Runtime.
Context {rt : PyRuntime}.

(** Every result of the reconciler names its item. *)
Lemma item_name_present (response_text : string) :
  is_Some (_parse_gemini_response response_text !! "item_name").
Proof.
  destruct (parse_and_validate (extract_json_text response_text))
    as [data | e] eqn:Hrun.
  - rewrite (parse_returns _ _ Hrun).
    destruct (parse_and_validate_Ok_inv _ _ Hrun)
      as (d & category & confidence & f & _ & Hname & _ & _ & _ & Hdata).
    destruct (WASTE_DISPOSAL_GUIDES !! coerced_category category) as [guide |].
    + rewrite (merge_guide_other_keys guide _ _ "item_name" Hdata)
        by (unfold merged_keys; simpl; intuition discriminate).
      now rewrite validated_other by discriminate.
    + subst data. now rewrite validated_other by discriminate.
  - rewrite (parse_raises _ _ Hrun). eexists. apply fallback_fields.
Qed.

Lemma with_metadata_other (res : gmap string pyval) (elapsed timestamp : float)
  (k : string) :
  k <> "timestamp" -> k <> "model_used" -> k <> "processing_time_seconds" ->
  with_metadata res elapsed timestamp !! k = res !! k.
Proof.
  intros H1 H2 H3. unfold with_metadata.
  now rewrite !lookup_insert_ne by congruence.
Qed.

(** On a reply of the model, [identify_waste] returns the reconciled result
    with the metadata and the points of the reconciled result. *)
Lemma identify_waste_reply (str_e : pyexn -> string) (text : string)
  (elapsed timestamp elapsed_failed : float) :
  exists p,
    _calculate_points (_parse_gemini_response text) = Ok p /\
    50 <= p <= 110 /\
    identify_waste str_e (inr text) elapsed timestamp elapsed_failed
    = <["points_earned" := PInt p]>
        (with_metadata (_parse_gemini_response text) elapsed timestamp).
Proof.
  destruct (confidence_in_unit_interval text) as (c & Hc & _).
  destruct (points_bounds _ c Hc) as (p & Hp & Hbounds).
  exists p. split; [exact Hp | split; [exact Hbounds |]].
  unfold identify_waste.
  fold (with_metadata (_parse_gemini_response text) elapsed timestamp).
  rewrite (points_depend_on_three_keys (_parse_gemini_response text))
    by (apply with_metadata_other; discriminate).
  rewrite Hp, bind_Ok. cbv zeta.
  unfold log_identification.
  destruct (item_name_present text) as [name Hname].
  rewrite (py_getitem_dict _ "item_name" name), bind_Ok
    by (rewrite lookup_insert_ne by discriminate;
        rewrite with_metadata_other by discriminate; exact Hname).
  rewrite (py_getitem_dict _ "confidence" (PFloat c)), bind_Ok
    by (rewrite lookup_insert_ne by discriminate;
        rewrite with_metadata_other by discriminate; exact Hc).
  reflexivity.
Qed.

End Runtime.

End FlowFacts.

(* ===================================================================== *)
(** * Facts about the image validator                                     *)
(* ===================================================================== *)

Module ImageFacts.
Import Py Config Fmt ImageProcessor ReconcileFacts.

Lemma default_limit_in_megabytes :
  true_div (max_size get_image_processor) (1024 * 1024) = Ok 10%float.
Proof. vm_compute. reflexivity. Qed.

Lemma default_allowed_names :
  allowed_names (allowed_types get_image_processor)
  = Some "JPEG, PNG, JPG, WEBP".
Proof. vm_compute. reflexivity. Qed.

Section Lib.
Context {lib : ImagingLib}.

(** The type check returns only refusals with a message. *)
Lemma extension_check_refuses (filename : string) (r : bool * option string) :
  extension_check filename = Some r -> r = (false, Some "Invalid file type").
Proof.
  unfold extension_check.
  destruct (negb _); intros H; [now injection H as <- | discriminate H].
Qed.

Lemma mime_check_refuses (self : t) (file_data : list Byte.byte)
  (filename : string) (r : bool * option string) :
  mime_check self file_data filename = Some r ->
  exists message, r = (false, Some message).
Proof.
  unfold mime_check. intros H.
  destruct (magic_from_buffer file_data) as [mime |].
  - destruct (negb _); [| discriminate H].
    destruct (allowed_names _) as [allowed |].
    + injection H as <-. eexists. reflexivity.
    + eexists. exact (extension_check_refuses _ _ H).
  - eexists. exact (extension_check_refuses _ _ H).
Qed.

(** What a passed type check means. *)
Lemma mime_check_passes (self : t) (file_data : list Byte.byte)
  (filename : string) :
  mime_check self file_data filename = None ->
  (exists mime, magic_from_buffer file_data = Some mime /\
                In mime (allowed_types self)) \/
  ((magic_from_buffer file_data = None \/
    allowed_names (allowed_types self) = None) /\
   In (path_suffix_lower filename) [".jpg"; ".jpeg"; ".png"; ".webp"]).
Proof.
  assert (forall f, extension_check f = None ->
            In (path_suffix_lower f) [".jpg"; ".jpeg"; ".png"; ".webp"])
    as Hext.
  { intros f. unfold extension_check.
    destruct (existsb _ _) eqn:E; [| discriminate]. intros _.
    apply existsb_exists in E as (x & Hin & Heq).
    apply String.eqb_eq in Heq. now subst x. }
  unfold mime_check. intros H.
  destruct (magic_from_buffer file_data) as [mime |].
  - destruct (existsb _ _) eqn:E; simpl in H.
    + left. exists mime. split; [reflexivity |].
      apply existsb_exists in E as (x & Hin & Heq).
      apply String.eqb_eq in Heq. now subst x.
    + destruct (allowed_names _); [discriminate H |].
      right. split; [now right | now apply Hext].
  - right. split; [now left | now apply Hext].
Qed.

(** Every verdict of the validator, by the step that gave it. *)
Lemma validate_image_cases (self : t) (file_data : list Byte.byte)
  (filename : string) (r : bool * option string) :
  validate_image self file_data filename = Ok r ->
  (exists message, r = (false, Some message)) \/
  (r = (true, None) /\
   0 < bytes_len file_data <= max_size self /\
   mime_check self file_data filename = None /\
   exists width height,
     image_open_verify file_data = inr (width, height) /\
     50 <= width <= max_dimension self /\
     50 <= height <= max_dimension self).
Proof.
  unfold validate_image.
  destruct (Z.ltb_spec (max_size self) (bytes_len file_data)) as [Hbig | Hbig].
  { destruct (true_div _ _); [| discriminate].
    rewrite bind_Ok. intros H. injection H as <-. left. eexists. reflexivity. }
  destruct (Z.eqb_spec (bytes_len file_data) 0) as [Hzero | Hzero].
  { intros H. injection H as <-. left. eexists. reflexivity. }
  destruct (mime_check self file_data filename) as [r' |] eqn:Hmime.
  { intros H. injection H as <-. left. exact (mime_check_refuses _ _ _ _ Hmime). }
  destruct (image_open_verify file_data) as [msg | [width height]] eqn:Hopen.
  { intros H. injection H as <-. left. eexists. reflexivity. }
  destruct (Z.ltb_spec width 50) as [Hw | Hw]; simpl orb.
  { intros H. injection H as <-. left. eexists. reflexivity. }
  destruct (Z.ltb_spec height 50) as [Hh | Hh]; simpl orb.
  { intros H. injection H as <-. left. eexists. reflexivity. }
  destruct (Z.ltb_spec (max_dimension self) width) as [Hw' | Hw']; simpl orb.
  { intros H. injection H as <-. left. eexists. reflexivity. }
  destruct (Z.ltb_spec (max_dimension self) height) as [Hh' | Hh']; simpl orb.
  { intros H. injection H as <-. left. eexists. reflexivity. }
  intros H. injection H as <-. right.
  split; [reflexivity |]. split.
  { unfold bytes_len in *. lia. }
  split; [reflexivity |]. exists width, height. repeat split; assumption.
Qed.

(** With the default settings the validator returns. *)
Lemma validate_uploaded_file_returns (file_data : list Byte.byte)
  (filename : string) :
  exists r, validate_uploaded_file file_data filename = Ok r.
Proof.
  unfold validate_uploaded_file, validate_image.
  rewrite default_limit_in_megabytes, bind_Ok.
  repeat match goal with
         | |- context [if ?b then _ else _] => destruct b
         | |- context [match ?x with _ => _ end] => destruct x
         end; eexists; reflexivity.
Qed.

End Lib.

End ImageFacts.

(* ===================================================================== *)
(** * Facts about texts without a given character                         *)
(* ===================================================================== *)

Module TextFacts.
Import Py Terms FlowTerms StrFacts FenceFacts GeminiService.

(** A needle does not start where its first character is not. *)
Lemma prefix_other_char (c c' : ascii) (sub s : string) :
  Ascii.eqb c c' = false -> String.prefix (String c sub) (String c' s) = false.
Proof.
  intros H. rewrite prefix_cons. destruct (ascii_dec c c') as [-> |]; [| reflexivity].
  now rewrite Ascii.eqb_refl in H.
Qed.

Lemma find_from_skip_free (c : ascii) (sub pre r : string) (i : Z) :
  free_of c pre = true ->
  find_from (String c sub) (pre +:+ r) i
  = find_from (String c sub) r (i + len pre).
Proof.
  revert i. induction pre as [|c' pre IH]; intros i Hpre.
  - rewrite app_nil. f_equal. unfold len. simpl. lia.
  - simpl in Hpre. apply andb_true_iff in Hpre as [Hc Hpre].
    apply negb_true_iff in Hc.
    rewrite app_cons, find_from_cons, (prefix_other_char _ _ _ _ Hc).
    rewrite IH by assumption. f_equal. unfold len. simpl String.length. lia.
Qed.

Lemma find_from_free (c : ascii) (sub s : string) (i : Z) :
  free_of c s = true -> find_from (String c sub) s i = -1.
Proof.
  intros H. rewrite <- (app_empty_r s), find_from_skip_free by assumption.
  reflexivity.
Qed.

(** The first occurrence of a needle right after a text that is free of
    the first character of the needle. *)
Lemma find_after_free (c : ascii) (sub pre r : string) :
  free_of c pre = true ->
  find (pre +:+ String c sub +:+ r) (String c sub) 0 = len pre.
Proof.
  intros H. rewrite find_0, find_from_skip_free by assumption.
  now rewrite find_from_prefix by apply prefix_app.
Qed.

Lemma contains_after_free (c : ascii) (sub pre r : string) :
  free_of c pre = true ->
  contains (String c sub) (pre +:+ String c sub +:+ r) = true.
Proof.
  intros H. unfold contains. rewrite find_after_free by assumption.
  apply Z.leb_le, len_nonneg.
Qed.

Lemma contains_free (c : ascii) (sub s : string) :
  free_of c s = true -> contains (String c sub) s = false.
Proof. intros H. apply contains_false. now apply find_from_free. Qed.

(** The rest of a text after a prefix. *)
Lemma slice_rest (a b : string) :
  slice (a +:+ b) (len a) (len (a +:+ b)) = b.
Proof.
  rewrite <- (app_empty_r b) at 1. rewrite len_app.
  rewrite slice_middle. reflexivity.
Qed.


(** Stripping brings in no character. *)
Lemma free_of_lstrip (c : ascii) (s : string) :
  free_of c s = true -> free_of c (lstrip s) = true.
Proof.
  induction s as [|c' s IH]; [reflexivity |]. intros H. simpl.
  destruct (isspace c'); [| exact H].
  simpl in H. apply andb_true_iff in H as [_ H]. now apply IH.
Qed.

Lemma free_of_rstrip (c : ascii) (s : string) :
  free_of c s = true -> free_of c (rstrip s) = true.
Proof.
  induction s as [|c' s IH]; [reflexivity |]. intros H.
  simpl in H. apply andb_true_iff in H as [Hc H].
  specialize (IH H). simpl.
  destruct (rstrip s) as [|c'' r].
  - destruct (isspace c'); [reflexivity |]. simpl. now rewrite Hc.
  - simpl. simpl in IH. now rewrite Hc, IH.
Qed.

Lemma free_of_strip (c : ascii) (s : string) :
  free_of c s = true -> free_of c (strip s) = true.
Proof. intros H. now apply free_of_rstrip, free_of_lstrip. Qed.

(** What the reconciler cuts out of a reply with a tagged fence. *)
Lemma extract_tagged_fence (pre inner post : string) :
  free_of "`" pre = true -> free_of "`" inner = true ->
  extract_json_text (pre +:+ "```json" +:+ inner +:+ "```" +:+ post)
  = strip inner.
Proof.
  intros Hpre Hinner. unfold extract_json_text.
  rewrite (contains_after_free "`" "``json" pre _ Hpre).
  rewrite (find_after_free "`" "``json" pre _ Hpre).
  replace (len pre + 7) with (len (pre +:+ "```json"))
    by (rewrite len_app; reflexivity).
  rewrite <- (app_assoc pre "```json").
  rewrite find_at.
  rewrite (find_from_skip_free "`" "``" inner _ _ Hinner).
  rewrite find_from_prefix by apply prefix_app.
  now rewrite slice_middle.
Qed.

Lemma extract_free (text : string) :
  free_of "`" text = true -> extract_json_text text = text.
Proof.
  intros H. apply ExtractFacts.extract_unfenced.
  exact (contains_free "`" "``" text H).
Qed.

End TextFacts.

(* ===================================================================== *)
(** * Facts about the base64 helpers                                      *)
(* ===================================================================== *)

Module CodecFacts.
Import Py Terms FlowTerms StrFacts TextFacts ImageProcessor.

Section Lib.
Context {lib : ImagingLib}.

(** What [from_base64] hands to the decoder. *)
Lemma from_base64_after_comma (header payload : string) :
  free_of "," header = true ->
  from_base64 (header +:+ "," +:+ payload)
  = match b64decode payload with
    | inr data => Ok data
    | inl msg => Raise (ValueError ("Invalid base64 string: " +:+ msg))
    end.
Proof.
  intros H. unfold from_base64.
  rewrite (contains_after_free "," "" header payload H).
  rewrite (find_after_free "," "" header payload H).
  replace (len header + 1) with (len (header +:+ ","))
    by (rewrite len_app; reflexivity).
  rewrite <- (app_assoc header "," payload).
  now rewrite slice_rest.
Qed.

Lemma from_base64_without_comma (text : string) :
  free_of "," text = true ->
  from_base64 text
  = match b64decode text with
    | inr data => Ok data
    | inl msg => Raise (ValueError ("Invalid base64 string: " +:+ msg))
    end.
Proof.
  intros H. unfold from_base64.
  now rewrite (contains_free "," "" text H).
Qed.

End Lib.

Lemma free_of_app (c : ascii) (a b : string) :
  free_of c (a +:+ b) = free_of c a && free_of c b.
Proof.
  induction a as [|c' a IH]; [now rewrite app_nil |].
  rewrite app_cons. simpl. rewrite IH. now rewrite andb_assoc.
Qed.

End CodecFacts.

(* ===================================================================== *)
(** * Facts about the levels of all integer totals                        *)
(* ===================================================================== *)

Module TotalFacts.
Import Py Config Waste Terms LevelFacts.

(** The level the route computes for an integer total, by its range. *)
Lemma level_by_range (tp : Z) :
  Z.max 1 (highest_level_reached tp) =
    if 10000 <=? tp then 7 else if 5000 <=? tp then 6
    else if 2000 <=? tp then 5 else if 1000 <=? tp then 4
    else if 500 <=? tp then 3 else if 200 <=? tp then 2 else 1.
Proof.
  destruct (Z.le_gt_cases 0 tp) as [H | H].
  - rewrite (highest_level_cases tp H).
    repeat match goal with
    | |- context [?a <=? tp] => destruct (Z.leb_spec a tp)
    end; reflexivity.
  - assert (highest_level_reached tp = 0) as ->.
    { unfold highest_level_reached, levels_reached. rewrite thresholds_list.
      repeat (rewrite filter_cons; simpl snd; decide_thresholds; cbv iota beta).
      now rewrite filter_nil. }
    repeat match goal with
    | |- context [?a <=? tp] => destruct (Z.leb_spec a tp)
    end; try lia; reflexivity.
Qed.

(** The two entries the route computes, for every integer total. *)
Lemma calculate_level_every_int (stats : gmap string pyval) (tp : Z) :
  default (PInt 0) (stats !! "total_points") = PInt tp ->
  calculate_level stats =
  Ok (<["next_level_points" :=
          gap_to_next_level (Z.max 1 (highest_level_reached tp)) tp]>
        (<["level" := PInt (Z.max 1 (highest_level_reached tp))]> stats)).
Proof.
  intros Hstats.
  destruct (Z.le_gt_cases 0 tp) as [H | H].
  - rewrite (calculate_level_int stats tp Hstats H).
    replace (Z.max 1 (highest_level_reached tp)) with (highest_level_reached tp);
      [reflexivity |].
    rewrite (highest_level_cases tp H).
    repeat match goal with
    | |- context [?a <=? tp] => destruct (Z.leb_spec a tp)
    end; reflexivity.
  - rewrite level_by_range.
    repeat match goal with
    | |- context [?a <=? tp] => destruct (Z.leb_spec a tp); try lia
    end.
    unfold calculate_level. rewrite Hstats, sorted_items_default, sorted_keys_default.
    unfold level_loop, ge_int. rewrite !ReconcileFacts.bind_Ok.
    repeat match goal with
    | |- context [?a <=? tp] =>
        destruct (Z.leb_spec a tp); rewrite ?ReconcileFacts.bind_Ok; try lia
    end.
    vm_compute next_level_loop. cbv iota beta.
    unfold gap_to_next_level.
    change (LEVEL_THRESHOLDS settings !! 2) with (Some 200).
    change (LEVEL_THRESHOLDS settings !! (1 + 1)) with (Some 200).
    cbv iota beta. unfold int_sub. rewrite ?ReconcileFacts.bind_Ok.
    now rewrite ?insert_insert_eq.
Qed.

(** The gap to the next level, by the range of the total. *)
Lemma gap_by_range (tp : Z) :
  gap_to_next_level (Z.max 1 (highest_level_reached tp)) tp =
    if 10000 <=? tp then PNone else if 5000 <=? tp then PInt (10000 - tp)
    else if 2000 <=? tp then PInt (5000 - tp)
    else if 1000 <=? tp then PInt (2000 - tp)
    else if 500 <=? tp then PInt (1000 - tp)
    else if 200 <=? tp then PInt (500 - tp) else PInt (200 - tp).
Proof.
  rewrite level_by_range.
  repeat match goal with
  | |- context [?a <=? tp] => destruct (Z.leb_spec a tp)
  end; reflexivity.
Qed.

End TotalFacts.

(* ===================================================================== *)
(** * Facts about the educational content                                 *)
(* ===================================================================== *)

Module EducationFacts.
Import Py Config GeminiService GeminiFlow FlowTerms RunFacts.

Lemma guide_dict_keys (guide : DisposalGuide) (k : string) :
  is_Some (guide_dict guide !! k) <->
  In k ["bin_color"; "instructions"; "examples"; "co2_saved_per_kg";
        "decomposition_time"].
Proof.
  unfold guide_dict. cbn [list_to_map foldr uncurry curry fst snd].
  rewrite !lookup_insert_is_Some, lookup_empty, is_Some_alt. simpl.
  intuition congruence.
Qed.

Section Service.
Context {rt : PyRuntime} {model : EducationModel}.

(** The content for a category of the guide, in one expression. *)
Lemma content_of_guide (category : string) (guide : DisposalGuide) :
  WASTE_DISPOSAL_GUIDES !! category = Some guide ->
  get_educational_content category
  = <["category" := PStr category]> (ai_content category ∪ guide_dict guide).
Proof.
  intros H. unfold get_educational_content, ai_content. rewrite H.
  destruct (education_reply category) as [text |];
    [| now rewrite (left_id ∅ (∪))].
  destruct (json_loads (strip_fences text)) as [[]|];
    now rewrite ?(left_id ∅ (∪)).
Qed.

Lemma content_error (category : string) (guide : DisposalGuide) :
  WASTE_DISPOSAL_GUIDES !! category = Some guide ->
  get_educational_content category !! "error" = ai_content category !! "error".
Proof.
  intros H. rewrite (content_of_guide category guide H).
  rewrite lookup_insert_ne by discriminate.
  apply lookup_union_l.
  apply eq_None_not_Some. intros Hs.
  apply guide_dict_keys in Hs. simpl in Hs.
  destruct Hs as [H' | [H' | [H' | [H' | [H' | []]]]]]; discriminate H'.
Qed.

End Service.

End EducationFacts.

(* ===================================================================== *)
(** * Facts about [replace]                                               *)
(* ===================================================================== *)

Module ReplaceFacts.
Import Py PyOps FlowTerms StrFacts FenceFacts TextFacts CodecFacts.

(** One step of the replacement at a place where the needle does not
    start. *)
Lemma replace_from_step_no (old new : string) (c : ascii) (s : string) :
  String.prefix old (String c s) = false ->
  replace_from old new (String c s) 0 = String c (replace_from old new s 0).
Proof. intros H. cbn [replace_from]. now rewrite H. Qed.

Lemma replace_from_free (c : ascii) (sub new s : string) :
  free_of c s = true -> replace_from (String c sub) new s 0 = s.
Proof.
  induction s as [|c' s IH]; [reflexivity |]. intros H.
  simpl in H. apply andb_true_iff in H as [Hc H]. apply negb_true_iff in Hc.
  cbn [replace_from]. rewrite (prefix_other_char _ _ _ _ Hc).
  now rewrite IH.
Qed.

Lemma replace_from_skip_free (c : ascii) (sub new pre r : string) :
  free_of c pre = true ->
  replace_from (String c sub) new (pre +:+ r) 0
  = pre +:+ replace_from (String c sub) new r 0.
Proof.
  induction pre as [|c' pre IH]; [now rewrite !app_nil |]. intros H.
  simpl in H. apply andb_true_iff in H as [Hc H]. apply negb_true_iff in Hc.
  rewrite !app_cons. cbn [replace_from].
  rewrite (prefix_other_char _ _ _ _ Hc). now rewrite IH.
Qed.

Lemma replace_from_skip (old new a r : string) :
  replace_from old new (a +:+ r) (String.length a) = replace_from old new r 0.
Proof.
  induction a as [|c a IH]; [now rewrite app_nil |].
  rewrite app_cons. cbn [replace_from String.length].
  destruct r; exact IH.
Qed.

Lemma replace_from_match (c : ascii) (sub new r : string) :
  replace_from (String c sub) new (String c sub +:+ r) 0
  = new +:+ replace_from (String c sub) new r 0.
Proof.
  pose proof (prefix_app (String c sub) r) as Hp. rewrite app_cons in Hp.
  rewrite app_cons. cbn [replace_from]. rewrite Hp.
  cbn [String.length]. rewrite Nat.sub_1_r. cbn [Nat.pred].
  now rewrite replace_from_skip.
Qed.

(** No needle that starts with two backticks starts at the last backtick
    before a text without backtick. *)
Lemma prefix_ticks_free (sub post : string) :
  free_of "`" post = true ->
  String.prefix (String "`" (String "`" sub)) (String "`" post) = false.
Proof.
  intros Hfree. rewrite prefix_cons.
  destruct (ascii_dec "`" "`") as [_ |]; [| reflexivity].
  destruct post as [|p post]; [reflexivity |].
  cbn [free_of] in Hfree. apply andb_true_iff in Hfree as [Hp _].
  apply negb_true_iff in Hp.
  exact (prefix_other_char _ _ _ _ Hp).
Qed.

(** A closing marker that is not followed by "json" is no tagged marker. *)
Lemma closing_marker_is_untagged (new post : string) :
  free_of "`" post = true ->
  String.prefix "json" post = false ->
  replace_from "```json" new ("```" +:+ post) 0 = "```" +:+ post.
Proof.
  intros Hfree Hjson. rewrite !app_cons, app_nil.
  assert (String.prefix "```json" (String "`" (String "`" (String "`" post)))
          = false) as H1.
  { rewrite prefix_cons. destruct (ascii_dec "`" "`") as [_ |]; [| reflexivity].
    rewrite prefix_cons. destruct (ascii_dec "`" "`") as [_ |]; [| reflexivity].
    rewrite prefix_cons. destruct (ascii_dec "`" "`") as [_ |]; [| reflexivity].
    exact Hjson. }
  assert (String.prefix "```json" (String "`" (String "`" post)) = false) as H2.
  { rewrite prefix_cons. destruct (ascii_dec "`" "`") as [_ |]; [| reflexivity].
    now apply prefix_ticks_free. }
  pose proof (prefix_ticks_free "`json" post Hfree) as H3.
  rewrite (replace_from_step_no _ _ _ _ H1).
  rewrite (replace_from_step_no _ _ _ _ H2).
  rewrite (replace_from_step_no _ _ _ _ H3).
  now rewrite (replace_from_free "`" "``json" new post Hfree).
Qed.

End ReplaceFacts.

(* ===================================================================== *)
(** * Facts about the size of the optimized image                         *)
(* ===================================================================== *)

Module ResizeFacts.
Import Py Config Fmt ImageProcessor ImageResize.

Lemma all_from_spec (n : nat) (lo : Z) (p : Z -> bool) :
  all_from n lo p = true ->
  forall m, lo <= m < lo + Z.of_nat n -> p m = true.
Proof.
  revert lo. induction n as [|n IH]; intros lo H m Hm; [lia |].
  cbn [all_from] in H. apply andb_true_iff in H as [H0 H].
  destruct (Z.eq_dec m lo) as [-> | Hne]; [exact H0 |].
  apply (IH (lo + 1) H). lia.
Qed.

Lemma longer_sides_checked :
  all_from 3072 1025 longer_side_ok = true.
Proof. vm_compute. reflexivity. Qed.

End ResizeFacts.

(* ===================================================================== *)
(** * Facts about batches                                                 *)
(* ===================================================================== *)

Module BatchFacts.
Import Py Config ImageProcessor ImageBatch.

Section Batch.
Context {lib : ImagingLib} {pil : Pillow}.

(** The loop appends one entry a file, in the order of the files. *)
Lemma batch_loop_map (str_e : pyexn -> string)
  (image_files : list (list Byte.byte * string))
  (results : list (gmap string pyval + processed)) :
  batch_loop str_e image_files results
  = (results ++
     map (fun file =>
            match process_image str_e get_image_processor file.1 file.2 with
            | inr result => inr result
            | inl message => inl (error_entry file.2 message)
            end) image_files)%list.
Proof.
  revert results. induction image_files as [|[file_data filename] files IH];
    intros results.
  - simpl. now rewrite List.app_nil_r.
  - cbn [batch_loop map fst snd]. rewrite IH. now rewrite <- List.app_assoc.
Qed.

End Batch.

End BatchFacts.

(* ===================================================================== *)
(** * The claims                                                          *)
(* ===================================================================== *)

Import Py Config GeminiService Terms.
Import StrFacts FenceFacts ExtractFacts FloatFacts ReconcileFacts RunFacts.

(** What the code does with a reply that does not parse to an object with
    the fields item_name, category and confidence: the reconciler returns
    (it is a total function: nothing is raised) the fallback result,
    item_name "Unknown Item", category "Unknown", confidence 0.3,
    recyclable false, bin_color "GREY", co2_saved_kg 0.0.  Both handlers
    build it from [response_text] as the [try] block left it, so the field
    raw_ai_response holds the first at most 500 characters of the raw reply
    only when the reply has no fence marker. *)
Theorem unparseable_text_gives_fallback {rt : PyRuntime} (response_text : string) :
  (forall d, json_loads (extract_json_text response_text) = Some (PDict d) ->
             ~ has_required_fields d) ->
  let text := extract_json_text response_text in
  let r := _parse_gemini_response response_text in
  r = _create_fallback_response text /\
  r !! "item_name" = Some (PStr "Unknown Item") /\
  r !! "category" = Some (PStr "Unknown") /\
  r !! "confidence" = Some (PFloat 0.3) /\
  r !! "recyclable" = Some (PBool false) /\
  r !! "bin_color" = Some (PStr "GREY") /\
  (exists impact, r !! "environmental_impact" = Some (PDict impact) /\
     impact !! "co2_saved_kg" = Some (PFloat 0.0)) /\
  r !! "raw_ai_response" = Some (PStr (slice text 0 500)) /\
  len (slice text 0 500) <= 500 /\
  String.prefix (slice text 0 500) text = true /\
  (contains "```" response_text = false -> text = response_text).
Proof.
  intros H text r.
  destruct (parse_and_validate_not_object _ H) as [e He].
  assert (r = _create_fallback_response text) as Hr
    by exact (parse_raises response_text e He).
  destruct (fallback_fields text) as (F1 & F2 & F3 & F4 & F5 & F6 & F7 & _).
  rewrite Hr. split; [reflexivity |]. repeat (split; [assumption |]).
  split; [apply slice_0_len; lia |].
  split; [apply slice_0_prefix; lia |].
  apply extract_unfenced.
Qed.

(** The theorem at a reply in prose. *)
Lemma unparseable_text_gives_fallback_witness :
  (@_parse_gemini_response Ref.runtime Examples.prose) !! "confidence"
    = Some (PFloat 0.3) /\
  (@_parse_gemini_response Ref.runtime Examples.prose) !! "raw_ai_response"
    = Some (PStr Examples.prose).
Proof.
  assert (forall d, @json_loads Ref.runtime (extract_json_text Examples.prose)
                    = Some (PDict d) -> ~ has_required_fields d) as H
    by (intros d Hd; vm_compute in Hd; discriminate Hd).
  destruct (@unparseable_text_gives_fallback Ref.runtime Examples.prose H)
    as (_ & _ & _ & Hc & _ & _ & _ & Hraw & _).
  split; [exact Hc | exact Hraw].
Defined.

(** C1.  The code at the failing input, a reply whose fenced block is not
    JSON.  The claim asks for a raw_ai_response that holds the first at most
    500 characters of the raw reply, here the whole reply, and the
    parameter of [_create_fallback_response] is documented as the raw text
    of the model.  The field holds the stripped inside of the fence
    instead, which is no prefix of the raw reply: the [try] block has bound
    [response_text] again before the handlers pass it on. *)
Lemma fenced_garbage_raw_field :
  Ref.loads Examples.fenced_garbage = None /\
  Ref.loads (extract_json_text Examples.fenced_garbage) = None /\
  (@_parse_gemini_response Ref.runtime Examples.fenced_garbage)
    !! "raw_ai_response" = Some (PStr "not json at all") /\
  slice Examples.fenced_garbage 0 500 = "Sure! ```json not json at all ```" /\
  String.prefix "not json at all" Examples.fenced_garbage = false.
Proof. vm_compute. repeat split. Qed.

(** C2 (as amended).  For a reply that parses to an object with the required
    fields, the confidence of the result is a float in [0.0, 1.0].  When the
    raw confidence converts to a number f and the reply is parsed
    successfully, it is max(0.0, min(1.0, f)): 1.0 when f is above 1.0, 0.0
    when f is below 0.0, f itself when f is strictly between.  When the raw
    confidence does not convert to a number, the reconciler returns the
    fallback result, whose confidence is 0.3 (the value 0.5 is never
    produced). *)
Theorem confidence_clamped_or_fallback {rt : PyRuntime} (response_text : string)
  (d : gmap string pyval) (category confidence : pyval) :
  json_loads (extract_json_text response_text) = Some (PDict d) ->
  is_Some (d !! "item_name") ->
  d !! "category" = Some category ->
  d !! "confidence" = Some confidence ->
  let r := _parse_gemini_response response_text in
  (exists c, r !! "confidence" = Some (PFloat c)
             /\ PrimFloat.leb 0 c = true /\ PrimFloat.leb c 1 = true) /\
  match py_float confidence with
  | Ok f =>
      (parsed_successfully response_text ->
       r !! "confidence" = Some (PFloat (clamp01 f))) /\
      (PrimFloat.ltb 1 f = true -> clamp01 f = 1%float) /\
      (PrimFloat.ltb f 0 = true -> clamp01 f = 0%float) /\
      (PrimFloat.ltb 0 f = true -> PrimFloat.ltb f 1 = true -> clamp01 f = f)
  | Raise _ =>
      r = _create_fallback_response (extract_json_text response_text) /\
      r !! "confidence" = Some (PFloat 0.3)
  end.
Proof.
  intros Hloads Hname Hcat Hconf r.
  split; [apply confidence_in_unit_interval |].
  destruct (py_float confidence) as [f | e] eqn:Hf.
  - split; [| split; [apply FloatFacts.clamp_above
                     | split; [apply FloatFacts.clamp_below
                              | apply FloatFacts.clamp_inside]]].
    intros Hok.
    destruct (success_run response_text d category Hok Hloads Hcat)
      as (confidence' & f' & Hconf' & Hf' & Hrun).
    rewrite Hconf in Hconf'. injection Hconf' as <-.
    rewrite Hf in Hf'. injection Hf' as <-.
    destruct (WASTE_DISPOSAL_GUIDES !! coerced_category category) as [guide |].
    + destruct Hrun as [_ Hmerge]. unfold r.
      rewrite (merge_guide_other_keys guide _ _ "confidence" Hmerge)
        by (unfold merged_keys; simpl; intuition discriminate).
      apply validated_confidence.
    + unfold r. rewrite Hrun. apply validated_confidence.
  - assert (r = _create_fallback_response (extract_json_text response_text))
      as Hr.
    { apply (parse_raises _ e).
      rewrite (parse_and_validate_object _ d category confidence)
        by assumption.
      now rewrite Hf. }
    split; [exact Hr |]. rewrite Hr. apply fallback_fields.
Qed.

(** The theorem at a reply whose confidence is the string 1.7. *)
Lemma confidence_clamped_or_fallback_witness :
  (@_parse_gemini_response Ref.runtime Examples.confidence_high) !! "confidence"
    = Some (PFloat 1).
Proof.
  assert (@json_loads Ref.runtime (extract_json_text Examples.confidence_high)
          = Some (PDict Examples.confidence_high_object)) as Hloads
    by (vm_compute; reflexivity).
  assert (is_Some (Examples.confidence_high_object !! "item_name")) as Hname
    by (eexists; reflexivity).
  assert (@parsed_successfully Ref.runtime Examples.confidence_high) as Hok
    by (eexists; vm_compute; reflexivity).
  destruct (@confidence_clamped_or_fallback Ref.runtime
              Examples.confidence_high Examples.confidence_high_object
              (PStr "Recyclable Plastic") (PStr "1.7")
              Hloads Hname eq_refl eq_refl) as [_ H].
  exact (proj1 H Hok).
Defined.

(** C2, as stated, fails: a confidence that is not a number does not give
    0.5 but the fallback result, whose confidence is 0.3. *)
Lemma confidence_word_gives_fallback :
  Ref.loads Examples.confidence_word
    = Some (PDict Examples.confidence_word_object) /\
  Ref.float_of_string "high" = None /\
  (@_parse_gemini_response Ref.runtime Examples.confidence_word) !! "confidence"
    = Some (PFloat 0.3) /\
  (@_parse_gemini_response Ref.runtime Examples.confidence_word) !! "item_name"
    = Some (PStr "Unknown Item") /\
  PrimFloat.eqb 0.3 0.5 = false.
Proof. vm_compute. repeat split. Qed.

(** C3.  Whatever the reply, the category of the reconciler's result is one
    of the eight configured categories; and when the reply parses to an
    object whose category is none of them, the category of the result is
    "Unknown". *)
Theorem category_is_always_known {rt : PyRuntime} (response_text : string) :
  let r := _parse_gemini_response response_text in
  length (WASTE_CATEGORIES settings) = 8%nat /\
  (exists c, r !! "category" = Some (PStr c)
             /\ In c (WASTE_CATEGORIES settings)) /\
  (forall d category,
     json_loads (extract_json_text response_text) = Some (PDict d) ->
     d !! "category" = Some category ->
     in_str_list category (WASTE_CATEGORIES settings) = false ->
     r !! "category" = Some (PStr "Unknown")).
Proof.
  intros r. split; [reflexivity |].
  destruct (parse_and_validate (extract_json_text response_text))
    as [data | e] eqn:Hrun.
  - assert (r = data) as -> by exact (parse_returns _ _ Hrun).
    destruct (parse_and_validate_Ok_inv _ _ Hrun)
      as (d & category & confidence & f & Hloads & _ & Hcat & _ & _ & Hdata).
    assert (data !! "category" = Some (PStr (coerced_category category)))
      as Hres.
    { destruct (WASTE_DISPOSAL_GUIDES !! coerced_category category) as [guide |].
      - rewrite (merge_guide_other_keys guide _ _ "category" Hdata)
          by (unfold merged_keys; simpl; intuition discriminate).
        apply validated_category.
      - subst data. apply validated_category. }
    split.
    + eexists. split; [exact Hres | apply coerced_category_known].
    + intros d' category' Hloads' Hcat' Hin.
      rewrite Hloads in Hloads'. injection Hloads' as <-.
      rewrite Hcat in Hcat'. injection Hcat' as <-.
      now rewrite Hres, coerced_category_unknown.
  - assert (r = _create_fallback_response (extract_json_text response_text))
      as -> by exact (parse_raises _ _ Hrun).
    destruct (fallback_fields (extract_json_text response_text))
      as (_ & Hc & _).
    split.
    + eexists. split; [exact Hc | simpl; tauto].
    + intros; exact Hc.
Qed.

(** C4.  On a result whose confidence is a float, whose recyclable flag is a
    boolean and whose category is a string, the points are the base 50 plus
    10 when the confidence is at least 0.9, plus 20 when recyclable is
    true, plus 30 when the category is "Hazardous Waste" or "E-Waste": the
    three bonuses add up without a cap, and nothing else of the result is
    looked at. *)
Theorem points_are_base_plus_bonuses (waste_data : gmap string pyval)
  (confidence : float) (recyclable : bool) (category : string) :
  waste_data !! "confidence" = Some (PFloat confidence) ->
  waste_data !! "recyclable" = Some (PBool recyclable) ->
  waste_data !! "category" = Some (PStr category) ->
  _calculate_points waste_data =
  Ok (50
      + (if PrimFloat.leb 0.9 confidence then 10 else 0)
      + (if recyclable then 20 else 0)
      + (if bool_decide (category = "Hazardous Waste" \/ category = "E-Waste")
         then 30 else 0)).
Proof.
  intros Hc Hr Hcat. unfold _calculate_points. rewrite Hc, Hr, Hcat.
  simpl default. unfold ge_0_9. rewrite bind_Ok.
  unfold in_str_list, existsb, eq_str, truthy.
  change (POINTS_CORRECT_DISPOSAL settings) with 50.
  destruct (String.eqb_spec category "Hazardous Waste") as [-> | H1];
    [| destruct (String.eqb_spec category "E-Waste") as [-> | H2]];
    simpl orb; (case_bool_decide as Hd; [| try (exfalso; apply Hd; tauto)]);
    try (exfalso; destruct Hd; congruence);
    destruct (PrimFloat.leb 0.9 confidence), recyclable; reflexivity.
Qed.

(** The theorem at the two examples of the specification. *)
Lemma points_are_base_plus_bonuses_witness :
  _calculate_points Examples.sure_hazardous = Ok 110 /\
  _calculate_points Examples.unsure_paper = Ok 50.
Proof.
  split.
  - exact (points_are_base_plus_bonuses Examples.sure_hazardous
             0.95 true "Hazardous Waste" eq_refl eq_refl eq_refl).
  - exact (points_are_base_plus_bonuses Examples.unsure_paper
             0.5 false "Paper & Cardboard" eq_refl eq_refl eq_refl).
Defined.

(** C5 (as amended).  For a reply that parses to an object with the
    required fields, whose confidence converts to a float, whose category
    has an entry in the disposal guide and whose environmental_impact is
    absent or an object, the result takes from the guide only what the
    reply lacks: disposal_steps when the reply has none or a false (empty)
    one, bin_color when the reply has none, co2_saved_kg and
    decomposition_time of the impact object when it has none; what the
    reply supplies stays.  The guide's examples are attached, the category
    is kept, the confidence is the converted one brought into the unit
    interval, and every key other than these is as in the reply. *)
Theorem guide_fills_only_what_is_missing {rt : PyRuntime}
  (response_text : string) (d : gmap string pyval) (category : string)
  (guide : DisposalGuide) (confidence : pyval) (f : float) :
  json_loads (extract_json_text response_text) = Some (PDict d) ->
  is_Some (d !! "item_name") ->
  d !! "category" = Some (PStr category) ->
  d !! "confidence" = Some confidence ->
  py_float confidence = Ok f ->
  WASTE_DISPOSAL_GUIDES !! category = Some guide ->
  impact_absent_or_object d ->
  let r := _parse_gemini_response response_text in
  r !! "disposal_steps" =
    Some (match d !! "disposal_steps" with
          | Some steps =>
              if truthy steps then steps else str_list (instructions guide)
          | None => str_list (instructions guide)
          end) /\
  r !! "bin_color" = Some (default (PStr (bin_color guide)) (d !! "bin_color")) /\
  (exists impact, r !! "environmental_impact" = Some (PDict impact) /\
     impact !! "co2_saved_kg" =
       Some (default (PFloat (co2_saved_per_kg guide))
               (impact_of d !! "co2_saved_kg")) /\
     impact !! "decomposition_time" =
       Some (default (PStr (decomposition_time guide))
               (impact_of d !! "decomposition_time")) /\
     forall k, k <> "co2_saved_kg" -> k <> "decomposition_time" ->
       impact !! k = impact_of d !! k) /\
  r !! "examples" = Some (str_list (examples guide)) /\
  r !! "category" = Some (PStr category) /\
  r !! "confidence" = Some (PFloat (clamp01 f)) /\
  (forall k, ~ In k merged_keys -> k <> "confidence" -> k <> "category" ->
             r !! k = d !! k).
Proof.
  intros Hloads Hname Hcat Hconf Hf Hguide Himpact r.
  assert (parsed_successfully response_text) as Hok.
  { apply parsed_successfully_iff.
    exists d, (PStr category), confidence, f.
    repeat (split; [assumption |]). intros _. exact Himpact. }
  destruct (success_run response_text d (PStr category) Hok Hloads Hcat)
    as (confidence' & f' & Hconf' & Hf' & Hrun).
  rewrite Hconf in Hconf'. injection Hconf' as <-.
  rewrite Hf in Hf'. injection Hf' as <-.
  rewrite (guide_key_kept category guide Hguide), Hguide in Hrun.
  destruct Hrun as [_ Hmerge]. fold r in Hmerge.
  destruct (merge_guide_Ok guide _ (validated_impact d (PStr category) f Himpact))
    as (r' & Hr & Hsteps & Hbin & Himp & Hex & Hother).
  rewrite Hmerge in Hr. injection Hr as <-.
  rewrite validated_impact_of in Himp.
  rewrite !validated_other in Hsteps, Hbin by discriminate.
  repeat (split; [assumption |]).
  split; [| split].
  - rewrite Hother by (unfold merged_keys; simpl; intuition discriminate).
    rewrite validated_category.
    now rewrite (guide_key_kept category guide Hguide).
  - rewrite Hother by (unfold merged_keys; simpl; intuition discriminate).
    apply validated_confidence.
  - intros k Hk H1 H2. rewrite Hother by assumption.
    now apply validated_other.
Qed.

(** The theorem at a reply that names its bin and has an empty list of
    steps. *)
Lemma guide_fills_only_what_is_missing_witness :
  let r := @_parse_gemini_response Ref.runtime Examples.phone in
  r !! "bin_color" = Some (PStr "ORANGE") /\
  r !! "disposal_steps"
    = Some (str_list (instructions Examples.e_waste_guide)) /\
  r !! "examples" = Some (str_list (examples Examples.e_waste_guide)).
Proof.
  assert (@json_loads Ref.runtime (extract_json_text Examples.phone)
          = Some (PDict Examples.phone_object)) as Hloads
    by (vm_compute; reflexivity).
  destruct (@guide_fills_only_what_is_missing Ref.runtime Examples.phone
              Examples.phone_object "E-Waste" Examples.e_waste_guide
              (PFloat 0.95) 0.95 Hloads)
    as (Hsteps & Hbin & _ & Hex & _).
  - vm_compute. eexists. reflexivity.
  - reflexivity.
  - reflexivity.
  - reflexivity.
  - reflexivity.
  - vm_compute. exact I.
  - split; [exact Hbin | split; [exact Hsteps | exact Hex]].
Defined.

(** C5, as stated, fails: two replies that parse to an object with the
    required fields and a category of the guide, and to which nothing of
    the guide is added.  The first has a word for its environmental_impact,
    the second a word for its confidence; for both the result is the
    fallback, without examples, with the bin "GREY" and without the impact
    or the item the reply supplied. *)
Lemma backfill_needs_a_sound_reply :
  Ref.loads MoreExamples.can_with_vague_impact
  = Some (PDict MoreExamples.can_with_vague_impact_object) /\
  is_Some (WASTE_DISPOSAL_GUIDES !! "Metal & Glass") /\
  (@_parse_gemini_response Ref.runtime MoreExamples.can_with_vague_impact)
    !! "examples" = None /\
  (@_parse_gemini_response Ref.runtime MoreExamples.can_with_vague_impact)
    !! "bin_color" = Some (PStr "GREY") /\
  (@_parse_gemini_response Ref.runtime MoreExamples.can_with_vague_impact)
    !! "item_name" = Some (PStr "Unknown Item") /\
  Ref.loads Examples.confidence_word
  = Some (PDict Examples.confidence_word_object) /\
  is_Some (WASTE_DISPOSAL_GUIDES !! "Recyclable Plastic") /\
  (@_parse_gemini_response Ref.runtime Examples.confidence_word)
    !! "examples" = None /\
  (@_parse_gemini_response Ref.runtime Examples.confidence_word)
    !! "bin_color" = Some (PStr "GREY").
Proof. vm_compute. repeat split; eexists; reflexivity. Qed.

(** C6 (as amended).  For every text in braces that contains no fence marker
    (three backticks), wrapped in a fenced code block with or without the
    language tag and with any white space between the markers and the text,
    the stripping step extracts exactly the text, and the reconciler returns
    the same result as on the text alone. *)
Theorem fenced_object_is_parsed_like_the_object {rt : PyRuntime}
  (pre body post : string) :
  all_space pre = true -> all_space post = true ->
  contains "```" (object_text body) = false ->
  extract_json_text (fence_json pre (object_text body) post) = object_text body /\
  extract_json_text (fence_plain pre (object_text body) post) = object_text body /\
  _parse_gemini_response (fence_json pre (object_text body) post)
    = _parse_gemini_response (object_text body) /\
  _parse_gemini_response (fence_plain pre (object_text body) post)
    = _parse_gemini_response (object_text body).
Proof.
  intros Hpre Hpost Hfree.
  pose proof (extract_fence_json pre body post Hpre Hpost Hfree) as Hj.
  pose proof (extract_fence_plain pre body post Hpre Hpost Hfree) as Hp.
  pose proof (extract_unfenced _ Hfree) as Hu.
  unfold _parse_gemini_response. rewrite Hj, Hp, Hu. auto.
Qed.

(** The theorem at a complete object between two line breaks. *)
Lemma fenced_object_is_parsed_like_the_object_witness :
  @_parse_gemini_response Ref.runtime
    (fence_json Examples.nl (object_text Examples.bottle_body) Examples.nl)
  = @_parse_gemini_response Ref.runtime (object_text Examples.bottle_body) /\
  (@_parse_gemini_response Ref.runtime (object_text Examples.bottle_body))
    !! "item_name" = Some (PStr "Bottle").
Proof.
  split.
  - exact (proj1 (proj2 (proj2
      (@fenced_object_is_parsed_like_the_object Ref.runtime
         Examples.nl Examples.bottle_body Examples.nl
         eq_refl eq_refl eq_refl)))).
  - vm_compute. reflexivity.
Defined.

(** C6, as stated, fails: the object [ticks_inside] is a JSON object with
    the required fields, yet wrapped in a fence it is cut at its own
    backticks, and the two results differ. *)
Lemma fence_cuts_at_inner_backticks :
  Ref.loads Examples.ticks_inside = Some (PDict Examples.ticks_inside_object) /\
  (@_parse_gemini_response Ref.runtime
     (fence_json Examples.nl Examples.ticks_inside Examples.nl))
    !! "raw_ai_response" = Some (PStr (Ref.dq "{'item_name': 'a")) /\
  (@_parse_gemini_response Ref.runtime Examples.ticks_inside)
    !! "raw_ai_response"
    = Some (PStr (Ref.dq "b', 'category': 'Unknown', 'confidence': 0.9")).
Proof. vm_compute. repeat split. Qed.

(** C7.  For a user whose stored total is an integer [tp >= 0] (a missing
    total counts as 0), the route answers with the stored statistics in
    which level is the highest level whose threshold is at most [tp] and
    next_level_points is the gap from [tp] to the threshold of the next
    level, or null when there is no next level.  So a total of 1999 gives
    level 4 and a gap of 1, and a total of 10000 gives level 7 and null. *)
Theorem stats_level_is_highest_reached
  (users : gmap string (gmap string pyval)) (user_id : string)
  (stats : gmap string pyval) (tp : Z) :
  users !! user_id = Some stats ->
  default (PInt 0) (stats !! "total_points") = PInt tp ->
  0 <= tp ->
  Waste.get_user_stats (Some users) user_id =
  Waste.Return
    (list_to_map
       [("success", PBool true); ("user_id", PStr user_id);
        ("stats",
         PDict (<["next_level_points" :=
                    gap_to_next_level (highest_level_reached tp) tp]>
                  (<["level" := PInt (highest_level_reached tp)]> stats)))]).
Proof.
  intros Huser Hstats H. unfold Waste.get_user_stats. rewrite Huser.
  now rewrite (LevelFacts.calculate_level_int stats tp Hstats H).
Qed.

(** The theorem at the two totals of the specification. *)
Lemma stats_level_is_highest_reached_witness :
  Waste.get_user_stats (Some Examples.users) "ana" =
  Waste.Return
    (list_to_map
       [("success", PBool true); ("user_id", PStr "ana");
        ("stats", PDict (list_to_map [("total_points", PInt 1999);
                                      ("level", PInt 4);
                                      ("next_level_points", PInt 1)]))]) /\
  Waste.get_user_stats (Some Examples.users) "bo" =
  Waste.Return
    (list_to_map
       [("success", PBool true); ("user_id", PStr "bo");
        ("stats", PDict (list_to_map [("total_points", PInt 10000);
                                      ("level", PInt 7);
                                      ("next_level_points", PNone)]))]).
Proof.
  split.
  - rewrite (stats_level_is_highest_reached Examples.users "ana"
               {[ "total_points" := PInt 1999 ]} 1999 eq_refl eq_refl)
      by lia.
    vm_compute. reflexivity.
  - rewrite (stats_level_is_highest_reached Examples.users "bo"
               {[ "total_points" := PInt 10000 ]} 10000 eq_refl eq_refl)
      by lia.
    vm_compute. reflexivity.
Defined.

(** C8.  With a non-negative size limit, [validate_image] refuses an empty
    file with "File is empty"; it refuses a file longer than the limit with
    a message that states the limit in megabytes with one decimal
    ("10.0MB" for the default of 10 MiB), and so does the upload route with
    status 400; and it accepts a file that is not empty nor over the limit,
    whose sniffed type is image/png (an allowed type) and whose width and
    height are between 50 and the maximum dimension, whatever its file
    name. *)
Theorem upload_validation_cases {lib : ImagingLib} (self : ImageProcessor.t) :
  0 <= ImageProcessor.max_size self ->
  (forall filename,
     ImageProcessor.validate_image self [] filename
     = Ok (false, Some "File is empty")) /\
  (forall file_data filename max_mb,
     ImageProcessor.max_size self < ImageProcessor.bytes_len file_data ->
     Fmt.true_div (ImageProcessor.max_size self) (1024 * 1024) = Ok max_mb ->
     ImageProcessor.validate_image self file_data filename
     = Ok (false, Some ("File too large. Maximum size is "
                        +:+ Fmt.format_1f max_mb +:+ "MB"))) /\
  (forall file_data filename width height,
     0 < ImageProcessor.bytes_len file_data <= ImageProcessor.max_size self ->
     In "image/png" (ImageProcessor.allowed_types self) ->
     magic_from_buffer file_data = Some "image/png" ->
     image_open_verify file_data = inr (width, height) ->
     50 <= width <= ImageProcessor.max_dimension self ->
     50 <= height <= ImageProcessor.max_dimension self ->
     ImageProcessor.validate_image self file_data filename = Ok (true, None)) /\
  (forall content_type filename,
     String.prefix "image/" content_type = true ->
     Waste.scan_waste_image_checks (Some content_type) [] filename
     = Waste.HTTPException 400 (Waste.Text "Empty file uploaded")) /\
  (forall content_type file_data filename,
     String.prefix "image/" content_type = true ->
     10 * 1024 * 1024 < ImageProcessor.bytes_len file_data ->
     Waste.scan_waste_image_checks (Some content_type) file_data filename
     = Waste.HTTPException 400
         (Waste.Text "File too large. Maximum size is 10.0MB")).
Proof.
  intros Hmax. repeat split.
  - intros filename. unfold ImageProcessor.validate_image.
    change (ImageProcessor.bytes_len []) with 0.
    now rewrite (proj2 (Z.ltb_ge _ _) Hmax).
  - intros file_data filename max_mb Hlen Hdiv.
    unfold ImageProcessor.validate_image.
    rewrite (proj2 (Z.ltb_lt _ _) Hlen), Hdiv. reflexivity.
  - intros file_data filename width height [Hpos Hlen] Hpng Hmime Hopen
      [Hw1 Hw2] [Hh1 Hh2].
    unfold ImageProcessor.validate_image, ImageProcessor.mime_check.
    rewrite (proj2 (Z.ltb_ge _ _) Hlen).
    rewrite (proj2 (Z.eqb_neq _ _)) by lia.
    rewrite Hmime.
    assert (existsb (String.eqb "image/png") (ImageProcessor.allowed_types self)
            = true) as ->.
    { apply existsb_exists. exists "image/png". split; [exact Hpng |].
      apply String.eqb_refl. }
    simpl negb. cbv iota. rewrite Hopen.
    rewrite (proj2 (Z.ltb_ge _ _) Hw1), (proj2 (Z.ltb_ge _ _) Hh1).
    rewrite (proj2 (Z.ltb_ge _ _) Hw2), (proj2 (Z.ltb_ge _ _) Hh2).
    reflexivity.
  - intros content_type filename Hct. unfold Waste.scan_waste_image_checks.
    rewrite Hct. destruct content_type; [discriminate Hct | reflexivity].
  - intros content_type file_data filename Hct Hlen.
    unfold Waste.scan_waste_image_checks. rewrite Hct.
    assert (truthy (PStr content_type) = true) as ->
      by (destruct content_type; [discriminate Hct | reflexivity]).
    simpl orb. cbv iota.
    rewrite (proj2 (Z.eqb_neq _ _)) by lia.
    unfold ImageProcessor.validate_uploaded_file, ImageProcessor.validate_image.
    change (ImageProcessor.max_size ImageProcessor.get_image_processor)
      with (10 * 1024 * 1024).
    rewrite (proj2 (Z.ltb_lt _ _) Hlen).
    replace (Fmt.true_div (10 * 1024 * 1024) (1024 * 1024)) with (Ok 10%float)
      by (vm_compute; reflexivity).
    rewrite ReconcileFacts.bind_Ok.
    replace (Fmt.format_1f 10) with "10.0" by (vm_compute; reflexivity).
    reflexivity.
Qed.

(** The theorem at a processor with a limit of half a mebibyte: an empty
    file, a file one byte over the limit, and the header of a 3000 by 3000
    PNG under a name that ends in .txt. *)
Lemma upload_validation_cases_witness :
  @ImageProcessor.validate_image Ref.imaging Examples.small_limit [] "a.png"
    = Ok (false, Some "File is empty") /\
  @ImageProcessor.validate_image Ref.imaging Examples.small_limit
     Examples.oversized "a.png"
    = Ok (false, Some "File too large. Maximum size is 0.5MB") /\
  @ImageProcessor.validate_image Ref.imaging Examples.small_limit
     Examples.png_3000 "photo.txt"
    = Ok (true, None).
Proof.
  assert (0 <= ImageProcessor.max_size Examples.small_limit) as Hmax
    by (vm_compute; discriminate).
  destruct (@upload_validation_cases Ref.imaging Examples.small_limit Hmax)
    as (Hempty & Hlarge & Hpng & _).
  split; [apply Hempty | split].
  - apply (Hlarge Examples.oversized "a.png" 0.5%float);
      vm_compute; reflexivity.
  - apply (Hpng Examples.png_3000 "photo.txt" 3000 3000);
      try (vm_compute; reflexivity);
      try (split; vm_compute; (reflexivity || discriminate)).
    simpl. tauto.
Defined.

(** C9 (as amended).  The disposal guide has seven entries, one for each
    configured category except "Unknown".  For a reply that parses to an
    object with the required fields, whose confidence converts to a float
    and whose category is "Unknown" after validation, the result is the
    parsed object with only the category and the confidence rewritten:
    disposal_steps, bin_color, environmental_impact and examples are present
    or absent exactly as in the reply. *)
Theorem unknown_category_gets_no_backfill {rt : PyRuntime}
  (response_text : string) (d : gmap string pyval)
  (category confidence : pyval) (f : float) :
  json_loads (extract_json_text response_text) = Some (PDict d) ->
  is_Some (d !! "item_name") ->
  d !! "category" = Some category ->
  d !! "confidence" = Some confidence ->
  py_float confidence = Ok f ->
  coerced_category category = "Unknown" ->
  let r := _parse_gemini_response response_text in
  size WASTE_DISPOSAL_GUIDES = 7%nat /\
  (forall c, In c (WASTE_CATEGORIES settings) ->
             (is_Some (WASTE_DISPOSAL_GUIDES !! c) <-> c <> "Unknown")) /\
  r = <["confidence" := PFloat (clamp01 f)]>
        (<["category" := PStr "Unknown"]> d) /\
  r !! "category" = Some (PStr "Unknown") /\
  r !! "disposal_steps" = d !! "disposal_steps" /\
  r !! "bin_color" = d !! "bin_color" /\
  r !! "environmental_impact" = d !! "environmental_impact" /\
  r !! "examples" = d !! "examples".
Proof.
  intros Hloads Hname Hcat Hconf Hf Hunknown r.
  split; [reflexivity |]. split; [exact guide_covers_all_but_unknown |].
  assert (parsed_successfully response_text) as Hok.
  { apply parsed_successfully_iff.
    exists d, category, confidence, f.
    repeat (split; [assumption |]).
    rewrite Hunknown, unknown_has_no_guide. intros [guide Hguide].
    discriminate Hguide. }
  destruct (success_run response_text d category Hok Hloads Hcat)
    as (confidence' & f' & Hconf' & Hf' & Hrun).
  rewrite Hconf in Hconf'. injection Hconf' as <-.
  rewrite Hf in Hf'. injection Hf' as <-.
  rewrite Hunknown, unknown_has_no_guide in Hrun. fold r in Hrun.
  rewrite Hrun. split.
  - unfold validated. now rewrite Hunknown.
  - rewrite validated_category, Hunknown.
    now rewrite !validated_other by discriminate.
Qed.

(** The theorem at a reply with a category that is not configured. *)
Lemma unknown_category_gets_no_backfill_witness :
  let r := @_parse_gemini_response Ref.runtime Examples.gadget in
  r !! "category" = Some (PStr "Unknown") /\
  r !! "bin_color" = Some (PStr "PINK") /\
  r !! "disposal_steps" = None /\
  r !! "examples" = None.
Proof.
  assert (@json_loads Ref.runtime (extract_json_text Examples.gadget)
          = Some (PDict Examples.gadget_object)) as Hloads
    by (vm_compute; reflexivity).
  destruct (@unknown_category_gets_no_backfill Ref.runtime Examples.gadget
              Examples.gadget_object (PStr "Mystery") (PFloat 0.4) 0.4 Hloads)
    as (_ & _ & _ & Hc & Hsteps & Hbin & _ & Hex).
  - vm_compute. eexists. reflexivity.
  - reflexivity.
  - reflexivity.
  - reflexivity.
  - reflexivity.
  - split; [exact Hc |].
    split; [exact Hbin | split; [exact Hsteps | exact Hex]].
Defined.

(** C9, as stated, fails: a reply that parses to an object with the required
    fields and a category that is not configured, coerced to "Unknown", and
    whose confidence is a word.  The result is the fallback: the bin is not
    the "PINK" the reply supplied but "GREY", and the steps and the impact
    the reply left out are there. *)
Lemma unknown_category_with_vague_confidence :
  Ref.loads MoreExamples.gadget_with_vague_confidence
  = Some (PDict MoreExamples.gadget_with_vague_confidence_object) /\
  coerced_category (PStr "Mystery") = "Unknown" /\
  MoreExamples.gadget_with_vague_confidence_object !! "bin_color"
  = Some (PStr "PINK") /\
  (@_parse_gemini_response Ref.runtime MoreExamples.gadget_with_vague_confidence)
    !! "bin_color" = Some (PStr "GREY") /\
  MoreExamples.gadget_with_vague_confidence_object !! "disposal_steps" = None /\
  is_Some ((@_parse_gemini_response Ref.runtime
              MoreExamples.gadget_with_vague_confidence) !! "disposal_steps") /\
  MoreExamples.gadget_with_vague_confidence_object !! "environmental_impact"
  = None /\
  is_Some ((@_parse_gemini_response Ref.runtime
              MoreExamples.gadget_with_vague_confidence)
             !! "environmental_impact").
Proof. vm_compute. repeat split; eexists; reflexivity. Qed.

(** C10.  A value of image_base64 shorter than 100 characters (the empty
    string too) is refused by the validator of the request model with the
    validation error "Invalid base64 image data": the request model is not
    built, the route is not called, and so the base64 decoder is not called
    on the value, whatever it would have made of it. *)
Theorem short_base64_is_refused_undecoded {lib : ImagingLib}
  (image_base64 : string) (user_id : option string)
  (location : option (gmap string float)) :
  len image_base64 < 100 ->
  Waste.validate_base64 image_base64
    = Raise (ValueError "Invalid base64 image data") /\
  Waste.WasteScanRequest_new image_base64 user_id location
    = Raise (ValueError "Invalid base64 image data") /\
  Waste.receive_base64_scan image_base64 user_id location
    = inl (ValueError "Invalid base64 image data") /\
  Waste.decoder_calls
    (Waste.receive_base64_scan image_base64 user_id location) = [].
Proof.
  intros Hlen.
  assert (Waste.validate_base64 image_base64
          = Raise (ValueError "Invalid base64 image data")) as Hv.
  { unfold Waste.validate_base64.
    rewrite (proj2 (Z.ltb_lt _ _) Hlen). now rewrite orb_true_r. }
  assert (Waste.WasteScanRequest_new image_base64 user_id location
          = Raise (ValueError "Invalid base64 image data")) as Hnew
    by (unfold Waste.WasteScanRequest_new; now rewrite Hv).
  split; [exact Hv |]. split; [exact Hnew |].
  unfold Waste.receive_base64_scan. rewrite Hnew.
  split; reflexivity.
Qed.

(** The theorem at eight characters that are the base64 of five bytes. *)
Lemma short_base64_is_refused_undecoded_witness :
  @b64decode Ref.imaging Examples.short_base64
    = inr [Byte.x68; Byte.x65; Byte.x6c; Byte.x6c; Byte.x6f] /\
  @Waste.receive_base64_scan Ref.imaging Examples.short_base64 None None
    = inl (ValueError "Invalid base64 image data") /\
  Waste.decoder_calls
    (@Waste.receive_base64_scan Ref.imaging Examples.short_base64 None None)
    = [].
Proof.
  split; [vm_compute; reflexivity |].
  destruct (@short_base64_is_refused_undecoded Ref.imaging
              Examples.short_base64 None None) as (_ & _ & Hreceive & Hcalls).
  - vm_compute. reflexivity.
  - split; [exact Hreceive | exact Hcalls].
Defined.

(* ===================================================================== *)
(** * Further properties of the code                                      *)
(* ===================================================================== *)

Import PyOps GeminiFlow Records FlowTerms.

(** X1.  Whatever text the model replies with, [identify_waste] does not
    take its error branch: it returns the reconciled result with the
    metadata and with points_earned, the score of the reconciled result, an
    integer between 50 and 110.  The confidence is a float of the unit
    interval, and points_earned, timestamp, model_used and
    processing_time_seconds are those of the service even when the reply
    has entries of these names; every other entry is the reconciler's. *)
Theorem reply_is_always_scored {rt : PyRuntime} (str_e : pyexn -> string)
  (text : string) (elapsed timestamp elapsed_failed : float) :
  let r := identify_waste str_e (inr text) elapsed timestamp elapsed_failed in
  exists p c,
    _calculate_points (_parse_gemini_response text) = Ok p /\
    50 <= p <= 110 /\
    r !! "points_earned" = Some (PInt p) /\
    r !! "confidence" = Some (PFloat c) /\
    PrimFloat.leb 0 c = true /\ PrimFloat.leb c 1 = true /\
    r !! "model_used" = Some (PStr "gemini-2.5-flash") /\
    r !! "processing_time_seconds" = Some (PFloat elapsed) /\
    r !! "timestamp" = Some (PFloat timestamp) /\
    forall k,
      ~ In k ["points_earned"; "timestamp"; "model_used";
              "processing_time_seconds"] ->
      r !! k = _parse_gemini_response text !! k.
Proof.
  intros r.
  destruct (FlowFacts.identify_waste_reply str_e text elapsed timestamp
              elapsed_failed) as (p & Hp & Hbounds & Hr).
  fold r in Hr.
  destruct (confidence_in_unit_interval text) as (c & Hc & Hc0 & Hc1).
  assert (forall k, k <> "points_earned" -> k <> "timestamp" ->
            k <> "model_used" -> k <> "processing_time_seconds" ->
            r !! k = _parse_gemini_response text !! k) as Hother.
  { intros k H1 H2 H3 H4. rewrite Hr, lookup_insert_ne by congruence.
    now apply FlowFacts.with_metadata_other. }
  exists p, c. repeat (split; [first [assumption | lia] |]).
  split; [rewrite Hr; apply lookup_insert_eq |].
  split; [rewrite Hother by discriminate; exact Hc |].
  repeat (split; [assumption |]).
  split; [rewrite Hr; unfold with_metadata;
          now rewrite !lookup_insert_ne, lookup_insert_eq by discriminate |].
  split; [rewrite Hr; unfold with_metadata;
          now rewrite !lookup_insert_ne, lookup_insert_eq by discriminate |].
  split; [rewrite Hr; unfold with_metadata;
          now rewrite !lookup_insert_ne, lookup_insert_eq by discriminate |].
  intros k Hk. apply Hother; intros ->; apply Hk; simpl; tauto.
Qed.

(** X2.  A reply that is not parsed successfully is still scored: the
    result of [identify_waste] is the fallback with the base 50 points, the
    category "Unknown", and no error entry, so the scan routes go on to
    store it. *)
Theorem unparsed_reply_scores_the_base {rt : PyRuntime}
  (str_e : pyexn -> string) (text : string)
  (elapsed timestamp elapsed_failed : float) :
  ~ parsed_successfully text ->
  let r := identify_waste str_e (inr text) elapsed timestamp elapsed_failed in
  r !! "points_earned" = Some (PInt 50) /\
  r !! "item_name" = Some (PStr "Unknown Item") /\
  r !! "category" = Some (PStr "Unknown") /\
  r !! "confidence" = Some (PFloat 0.3) /\
  r !! "error" = None /\
  truthy (default PNone (r !! "error")) = false.
Proof.
  intros Hfail r.
  destruct (parse_and_validate (extract_json_text text)) as [data | e] eqn:Hrun.
  { exfalso. apply Hfail. now exists data. }
  destruct (FlowFacts.identify_waste_reply str_e text elapsed timestamp
              elapsed_failed) as (p & Hp & _ & Hr).
  fold r in Hr. rewrite (parse_raises _ _ Hrun) in Hp, Hr.
  rewrite FlowFacts.fallback_points in Hp. injection Hp as <-.
  destruct (fallback_fields (extract_json_text text))
    as (Hname & Hcat & Hconf & _).
  assert (r !! "error" = None) as Herr.
  { rewrite Hr, lookup_insert_ne by discriminate.
    rewrite FlowFacts.with_metadata_other by discriminate.
    unfold _create_fallback_response. RecordFacts.lookup_literal. }
  split; [rewrite Hr; apply lookup_insert_eq |].
  repeat (split;
          [rewrite Hr, lookup_insert_ne by discriminate;
           rewrite FlowFacts.with_metadata_other by discriminate;
           assumption |]).
  split; [exact Herr | now rewrite Herr].
Qed.

(** The theorem at a reply in prose. *)
Lemma unparsed_reply_scores_the_base_witness :
  let r := @identify_waste Ref.runtime (fun _ => "") (inr Examples.prose)
             0.25 1700000000 0.5 in
  r !! "points_earned" = Some (PInt 50) /\
  r !! "category" = Some (PStr "Unknown") /\
  r !! "error" = None.
Proof.
  assert (~ @parsed_successfully Ref.runtime Examples.prose) as Hfail
    by (intros [data H]; vm_compute in H; discriminate H).
  destruct (@unparsed_reply_scores_the_base Ref.runtime (fun _ => "")
              Examples.prose 0.25 1700000000 0.5 Hfail)
    as (Hp & _ & Hcat & _ & Herr & _).
  split; [exact Hp | split; [exact Hcat | exact Herr]].
Defined.

(** X3.  An image the validator accepts is not empty and not longer than
    the size limit, opens as an image whose width and height are between
    50 and the maximum dimension, and has passed the type check: its
    sniffed type is one of the allowed types, or the sniffing (or the
    wording of the refusal) failed and the extension of the file name is
    one of .jpg, .jpeg, .png, .webp.  An acceptance carries no message. *)
Theorem accepted_upload_is_within_limits {lib : ImagingLib}
  (self : ImageProcessor.t) (file_data : list Byte.byte) (filename : string)
  (message : option string) :
  ImageProcessor.validate_image self file_data filename = Ok (true, message) ->
  message = None /\
  0 < ImageProcessor.bytes_len file_data <= ImageProcessor.max_size self /\
  (exists width height,
     image_open_verify file_data = inr (width, height) /\
     50 <= width <= ImageProcessor.max_dimension self /\
     50 <= height <= ImageProcessor.max_dimension self) /\
  ((exists mime, magic_from_buffer file_data = Some mime /\
                 In mime (ImageProcessor.allowed_types self)) \/
   ((magic_from_buffer file_data = None \/
     ImageProcessor.allowed_names (ImageProcessor.allowed_types self) = None) /\
    In (path_suffix_lower filename) [".jpg"; ".jpeg"; ".png"; ".webp"])).
Proof.
  intros H.
  destruct (ImageFacts.validate_image_cases self file_data filename _ H)
    as [[m Hm] | (Hr & Hlen & Hmime & Hdims)]; [discriminate Hm |].
  injection Hr as ->.
  split; [reflexivity | split; [exact Hlen | split; [exact Hdims |]]].
  exact (ImageFacts.mime_check_passes self file_data filename Hmime).
Qed.

(** The theorem at the header of a PNG of 3000 by 3000 pixels. *)
Lemma accepted_upload_is_within_limits_witness :
  0 < ImageProcessor.bytes_len Examples.png_3000
    <= ImageProcessor.max_size Examples.small_limit /\
  exists width height,
    @image_open_verify Ref.imaging Examples.png_3000 = inr (width, height) /\
    50 <= width <= 4096 /\ 50 <= height <= 4096.
Proof.
  destruct (@accepted_upload_is_within_limits Ref.imaging Examples.small_limit
              Examples.png_3000 "photo.txt" None)
    as (_ & Hlen & Hdims & _).
  - vm_compute. reflexivity.
  - split; [exact Hlen | exact Hdims].
Defined.


(** X5.  With the default settings, a file of an acceptable length whose
    sniffed type is none of image/jpeg, image/png, image/jpg, image/webp is
    refused with "Invalid file type. Allowed types: JPEG, PNG, JPG, WEBP",
    whatever its file name says and without the image being opened. *)
Theorem sniffed_type_overrides_the_file_name {lib : ImagingLib}
  (file_data : list Byte.byte) (filename mime : string) :
  0 < ImageProcessor.bytes_len file_data <= 10 * 1024 * 1024 ->
  magic_from_buffer file_data = Some mime ->
  ~ In mime ["image/jpeg"; "image/png"; "image/jpg"; "image/webp"] ->
  ImageProcessor.validate_uploaded_file file_data filename
  = Ok (false, Some "Invalid file type. Allowed types: JPEG, PNG, JPG, WEBP").
Proof.
  intros [Hpos Hlen] Hmime Hnot.
  unfold ImageProcessor.validate_uploaded_file, ImageProcessor.validate_image.
  change (ImageProcessor.max_size ImageProcessor.get_image_processor)
    with (10 * 1024 * 1024).
  rewrite (proj2 (Z.ltb_ge _ _) Hlen).
  rewrite (proj2 (Z.eqb_neq _ _)) by lia.
  unfold ImageProcessor.mime_check. rewrite Hmime.
  rewrite ImageFacts.default_allowed_names.
  change (ImageProcessor.allowed_types ImageProcessor.get_image_processor)
    with ["image/jpeg"; "image/png"; "image/jpg"; "image/webp"].
  destruct (existsb _ _) eqn:E; [| reflexivity].
  exfalso. apply Hnot.
  apply existsb_exists in E as (x & Hin & Heq).
  apply String.eqb_eq in Heq. now subst x.
Qed.

(** The theorem at one zero byte under the name of a PNG. *)
Lemma sniffed_type_overrides_the_file_name_witness :
  @ImageProcessor.validate_uploaded_file Ref.imaging [Byte.x00] "photo.png"
  = Ok (false, Some "Invalid file type. Allowed types: JPEG, PNG, JPG, WEBP").
Proof.
  apply (@sniffed_type_overrides_the_file_name Ref.imaging [Byte.x00]
           "photo.png" "application/octet-stream").
  - vm_compute. split; [reflexivity | discriminate].
  - reflexivity.
  - simpl. intros [H | [H | [H | [H | []]]]]; discriminate H.
Defined.

(** X6.  [from_base64] drops everything up to the first comma of its
    argument, whatever that is, and decodes the rest; an argument without
    comma is decoded as it is.  A failure of the decoder is raised as a
    [ValueError] whose text starts with "Invalid base64 string: ". *)
Theorem data_url_prefix_is_dropped {lib : ImagingLib} (header payload : string) :
  free_of "," header = true ->
  ImageProcessor.from_base64 (header +:+ "," +:+ payload)
  = match b64decode payload with
    | inr data => Ok data
    | inl msg => Raise (ValueError ("Invalid base64 string: " +:+ msg))
    end /\
  ImageProcessor.from_base64 header
  = match b64decode header with
    | inr data => Ok data
    | inl msg => Raise (ValueError ("Invalid base64 string: " +:+ msg))
    end.
Proof.
  intros H. split.
  - now apply CodecFacts.from_base64_after_comma.
  - now apply CodecFacts.from_base64_without_comma.
Qed.

(** The theorem at a data URL and at its header alone. *)
Lemma data_url_prefix_is_dropped_witness :
  @ImageProcessor.from_base64 Ref.imaging "data:image/png;base64,aGVsbG8="
  = Ok MoreExamples.hello /\
  @ImageProcessor.from_base64 Ref.imaging "data:image/png;base64"
  = Raise (ValueError "Invalid base64 string: Incorrect padding").
Proof.
  destruct (@data_url_prefix_is_dropped Ref.imaging "data:image/png;base64"
              "aGVsbG8=" eq_refl) as [H1 H2].
  split; [exact H1 | exact H2].
Defined.

(** X7.  Decoding a data URL made by [create_data_url] gives the bytes
    back, when the MIME type has no comma and the decoder inverts the
    encoder on these bytes. *)
Theorem data_url_round_trip {lib : ImagingLib} {enc : Base64Encoder}
  (image_data : list Byte.byte) (mime_type : string) :
  free_of "," mime_type = true ->
  b64decode (b64encode image_data) = inr image_data ->
  ImageProcessor.from_base64 (ImageCodec.create_data_url image_data mime_type)
  = Ok image_data.
Proof.
  intros Hmime Hcodec. unfold ImageCodec.create_data_url, ImageCodec.to_base64.
  change (";base64," +:+ b64encode image_data)
    with (";base64" +:+ "," +:+ b64encode image_data).
  rewrite <- !StrFacts.app_assoc.
  rewrite StrFacts.app_assoc.
  rewrite CodecFacts.from_base64_after_comma, Hcodec; [reflexivity |].
  rewrite !CodecFacts.free_of_app, Hmime. reflexivity.
Qed.

(** The theorem at five bytes and the reference codec. *)
Lemma data_url_round_trip_witness :
  @ImageCodec.create_data_url RefCodec.encoder MoreExamples.hello "image/png"
  = "data:image/png;base64,aGVsbG8=" /\
  @ImageProcessor.from_base64 Ref.imaging
    (@ImageCodec.create_data_url RefCodec.encoder MoreExamples.hello "image/png")
  = Ok MoreExamples.hello.
Proof.
  split; [vm_compute; reflexivity |].
  apply (@data_url_round_trip Ref.imaging RefCodec.encoder MoreExamples.hello
           "image/png"); vm_compute; reflexivity.
Defined.

(** X8.  A value of image_base64 of at least 100 characters, without
    comma, that the decoder refuses is answered with status 400 and the
    text of the [ValueError] of [from_base64]; the decoder has been called
    once. *)
Theorem undecodable_base64_is_answered_400 {lib : ImagingLib}
  (image_base64 : string) (user_id : option string)
  (location : option (gmap string float)) (message : string) :
  100 <= len image_base64 ->
  free_of "," image_base64 = true ->
  b64decode image_base64 = inl message ->
  Waste.scan_waste_base64_checks image_base64 user_id location
  = ([image_base64],
     Waste.HTTPException 400
       (Waste.StrOf (ValueError ("Invalid base64 string: " +:+ message)))).
Proof.
  intros Hlen Hfree Hdec.
  unfold Waste.scan_waste_base64_checks. cbv zeta. cbn [Waste.image_base64].
  now rewrite (CodecFacts.from_base64_without_comma _ Hfree), Hdec.
Qed.

(** The theorem at 101 letters. *)
Lemma undecodable_base64_is_answered_400_witness :
  @Waste.scan_waste_base64_checks Ref.imaging MoreExamples.long_garbage None None
  = ([MoreExamples.long_garbage],
     Waste.HTTPException 400
       (Waste.StrOf (ValueError "Invalid base64 string: Incorrect padding"))).
Proof.
  apply (@undecodable_base64_is_answered_400 Ref.imaging
           MoreExamples.long_garbage None None "Incorrect padding");
    vm_compute; (reflexivity || discriminate).
Defined.

(** X9.  [update_user_stats] for a user who has a document whose counters
    are numbers of the expected kinds, after a scan with integer points and
    a float for the CO2 saved: the document has one scan more, the points
    and the CO2 of the scan added, and the two time stamps read from the
    clock; every other entry of the document (the stored level among them)
    stays, and so do the documents of the other users and the scans. *)
Theorem scan_is_credited_to_its_user {clk : Clock} (user_id : string)
  (scan_data user_data : gmap string pyval) (w : world) (s : store)
  (scans points earned : Z) (co2 saved : float) :
  db w = Some s ->
  users s !! user_id = Some user_data ->
  default (PInt 0) (user_data !! "total_scans") = PInt scans ->
  default (PInt 0) (user_data !! "total_points") = PInt points ->
  default (PFloat 0.0) (user_data !! "co2_saved_kg") = PFloat co2 ->
  default (PInt 0) (scan_data !! "points_earned") = PInt earned ->
  scan_co2 scan_data = Ok (PFloat saved) ->
  let w' := update_user_stats user_id scan_data w in
  (exists doc,
     users_of w' !! user_id = Some doc /\
     doc !! "total_scans" = Some (PInt (scans + 1)) /\
     doc !! "total_points" = Some (PInt (points + earned)) /\
     doc !! "co2_saved_kg" = Some (PFloat (co2 + saved)) /\
     doc !! "last_scan_timestamp"
     = Some (PStr (isoformat (utcnow (reads w)))) /\
     doc !! "updated_at" = Some (PStr (isoformat (utcnow (S (reads w))))) /\
     forall k, ~ In k updated_keys -> doc !! k = user_data !! k) /\
  (forall other, other <> user_id ->
                 users_of w' !! other = users_of w !! other) /\
  scans_of w' = scans_of w /\
  reads w' = S (S (reads w)).
Proof.
  intros Hdb Huser H1 H2 H3 H4 H5 w'.
  pose proof (RecordFacts.updated_fields_numbers user_data scan_data (reads w)
                scans points earned co2 saved H1 H2 H3 H4 H5) as Hfields.
  pose proof (RecordFacts.update_existing_user user_id scan_data user_data _
                w s Hdb Huser Hfields) as Hw'.
  fold w' in Hw'.
  split; [| split; [| split]].
  - eexists. split.
    { rewrite Hw'. unfold users_of. simpl. apply lookup_insert_eq. }
    repeat (split; [apply lookup_union_Some_l; RecordFacts.lookup_literal |]).
    intros k Hk. apply lookup_union_r.
    unfold updated_keys in Hk. simpl in Hk.
    cbn [list_to_map foldr uncurry curry fst snd].
    rewrite !lookup_insert_ne by (intros <-; apply Hk; tauto).
    apply lookup_empty.
  - intros other Hne. apply RecordFacts.update_user_stats_others. exact Hne.
  - apply RecordFacts.update_user_stats_scans.
  - rewrite Hw'. reflexivity.
Qed.

(** The theorem at a user with 1990 points and a scan worth 80. *)
Lemma scan_is_credited_to_its_user_witness :
  exists doc,
    users_of (@update_user_stats RefCodec.same_second "ana"
                MoreExamples.bottle_scan MoreExamples.shop) !! "ana"
    = Some doc /\
    doc !! "total_scans" = Some (PInt 4) /\
    doc !! "total_points" = Some (PInt 2070) /\
    doc !! "co2_saved_kg" = Some (PFloat 2.0) /\
    doc !! "level" = Some (PInt 4).
Proof.
  destruct (@scan_is_credited_to_its_user RefCodec.same_second "ana"
              MoreExamples.bottle_scan MoreExamples.ana MoreExamples.shop
              _ 3 1990 80 1.5 0.5 eq_refl eq_refl eq_refl eq_refl eq_refl
              eq_refl eq_refl)
    as ((doc & Hdoc & Hscans & Hpoints & Hco2 & _ & _ & Hother) & _).
  exists doc. split; [exact Hdoc |].
  split; [exact Hscans | split; [exact Hpoints | split; [exact Hco2 |]]].
  rewrite Hother; [reflexivity |].
  unfold updated_keys. simpl. intros [H | [H | [H | [H | [H | []]]]]];
    discriminate H.
Defined.

(** X10.  Whatever the user, the scan and the world, [update_user_stats]
    writes at most the document of that user: it leaves the world as it
    is, or it has read the clock twice and stored a document for the user;
    the documents of the other users and the scans are as before, and
    without a client nothing happens. *)
Theorem update_touches_one_document {clk : Clock} (user_id : string)
  (scan_data : gmap string pyval) (w : world) :
  let w' := update_user_stats user_id scan_data w in
  (w' = w \/
   (reads w' = S (S (reads w)) /\ is_Some (users_of w' !! user_id))) /\
  scans_of w' = scans_of w /\
  (forall other, other <> user_id ->
                 users_of w' !! other = users_of w !! other) /\
  (db w' = None <-> db w = None).
Proof.
  intros w'. split; [| split; [| split]].
  - destruct (RecordFacts.update_user_stats_effect user_id scan_data w)
      as [H | (s & doc & Hdb & H)]; [now left | right].
    unfold w'. rewrite H. split; [reflexivity |].
    unfold users_of. simpl. rewrite lookup_insert_eq. now eexists.
  - apply RecordFacts.update_user_stats_scans.
  - intros other. apply RecordFacts.update_user_stats_others.
  - destruct (RecordFacts.update_user_stats_effect user_id scan_data w)
      as [H | (s & doc & Hdb & H)]; unfold w'; rewrite H; [reflexivity |].
    rewrite Hdb. simpl. split; discriminate.
Qed.

(** X11.  [DELETE /scan/{scan_id}] deletes exactly when the scan exists
    and its user_id entry is the string given as user_id: then the scan
    document is gone, nothing else has changed, and a second request for
    the same scan is answered with 404.  Every other request is answered
    with 503 (no client), 404 (no such scan) or 403 (another user) and
    leaves the world as it is. *)
Theorem only_the_owner_deletes_a_scan (scan_id user_id : string) (w : world) :
  let r := delete_scan scan_id user_id w in
  (exists s doc,
     db w = Some s /\ waste_scans s !! scan_id = Some doc /\
     doc !! "user_id" = Some (PStr user_id) /\
     r.1 = Waste.Return (list_to_map
                           [("success", PBool true);
                            ("message", PStr "Scan deleted successfully");
                            ("scan_id", PStr scan_id)]) /\
     scans_of r.2 = delete scan_id (waste_scans s) /\
     users_of r.2 = users s /\
     (delete_scan scan_id user_id r.2).1
     = Waste.HTTPException 404 (Waste.Text "Scan not found")) \/
  (r.2 = w /\
   ((db w = None /\
     r.1 = Waste.HTTPException 503
             (Waste.Text "Database service unavailable")) \/
    (scans_of w !! scan_id = None /\ is_Some (db w) /\
     r.1 = Waste.HTTPException 404 (Waste.Text "Scan not found")) \/
    (exists doc, scans_of w !! scan_id = Some doc /\
       doc !! "user_id" <> Some (PStr user_id) /\
       r.1 = Waste.HTTPException 403
               (Waste.Text "Not authorized to delete this scan")))).
Proof.
  intros r. unfold r, delete_scan, scans_of.
  destruct (db w) as [s |] eqn:Hdb; [| right; split; [reflexivity | now left]].
  destruct (waste_scans s !! scan_id) as [doc |] eqn:Hscan;
    [| right; split; [reflexivity | right; left; repeat split; now eexists]].
  unfold ne_str.
  destruct (eq_str (default PNone (doc !! "user_id")) user_id) eqn:Heq; simpl negb;
    cbv iota.
  - left. exists s, doc.
    assert (doc !! "user_id" = Some (PStr user_id)) as Howner.
    { destruct (doc !! "user_id") as [[]|]; simpl in Heq; try discriminate Heq.
      apply String.eqb_eq in Heq. now subst. }
    split; [reflexivity |]. split; [exact Hscan |]. split; [exact Howner |].
    split; [reflexivity |]. split; [reflexivity |]. split; [reflexivity |].
    simpl. now rewrite lookup_delete_eq.
  - right. split; [reflexivity |]. right. right. exists doc.
    split; [reflexivity |]. split; [| reflexivity].
    intros H. rewrite H in Heq. simpl in Heq.
    now rewrite String.eqb_refl in Heq.
Qed.

(** X12.  With a client, [save_scan_to_database] stores the scan under the
    id it returns, "scan_", the second of the first clock reading, "_" and
    the user (or "anonymous" for no user or the empty one); the document
    names that user and carries the points of the result and the time of
    the second reading.  The other scans stay, the documents of the other
    users stay, and a scan without user touches no user document. *)
Theorem saved_scan_is_stored_under_its_id {clk : Clock}
  (scan_data : gmap string pyval) (user_id : option string)
  (w : world) (s : store) :
  db w = Some s ->
  let r := save_scan_to_database scan_data user_id w in
  r.1 = "scan_" +:+ strftime (utcnow (reads w)) +:+ "_"
        +:+ user_or_anonymous user_id /\
  (exists doc,
     scans_of r.2 !! r.1 = Some doc /\
     doc = scan_document r.1 user_id scan_data
             (isoformat (utcnow (S (reads w)))) /\
     doc !! "scan_id" = Some (PStr r.1) /\
     doc !! "user_id" = Some (PStr (user_or_anonymous user_id)) /\
     doc !! "points_earned"
     = Some (default (PInt 0) (scan_data !! "points_earned")) /\
     doc !! "timestamp" = Some (PStr (isoformat (utcnow (S (reads w)))))) /\
  (forall other, other <> r.1 -> scans_of r.2 !! other = scans_of w !! other) /\
  (forall other, user_id <> Some other ->
                 users_of r.2 !! other = users_of w !! other) /\
  (user_id = None \/ user_id = Some "" -> users_of r.2 = users_of w).
Proof.
  intros Hdb r.
  destruct (RecordFacts.save_scan_effect scan_data user_id w s Hdb)
    as (Hid & s' & Hdb' & Hscans & Hothers & Hanon).
  fold r in Hid, Hdb'. unfold scans_of, users_of. rewrite Hdb, Hdb', Hscans.
  rewrite <- Hid.
  split; [reflexivity |]. split; [| split; [| split]].
  - eexists. split; [apply lookup_insert_eq |]. split; [reflexivity |].
    apply RecordFacts.scan_document_fields.
  - intros other Hne. now rewrite lookup_insert_ne.
  - exact Hothers.
  - exact Hanon.
Qed.

(** The theorem at a scan without user in a world with one user. *)
Lemma saved_scan_is_stored_under_its_id_witness :
  let r := @save_scan_to_database RefCodec.same_second
             MoreExamples.bottle_scan None MoreExamples.shop in
  r.1 = "scan_20240101_120000_anonymous" /\
  users_of r.2 = users_of MoreExamples.shop /\
  exists doc, scans_of r.2 !! "scan_20240101_120000_anonymous" = Some doc /\
              doc !! "user_id" = Some (PStr "anonymous").
Proof.
  destruct (@saved_scan_is_stored_under_its_id RefCodec.same_second
              MoreExamples.bottle_scan None MoreExamples.shop _ eq_refl)
    as (Hid & (doc & Hdoc & _ & _ & Huser & _) & _ & _ & Hanon).
  split; [exact Hid |]. split; [apply Hanon; now left |].
  exists doc. split; [exact Hdoc | exact Huser].
Defined.

(** X13.  Two scans saved for the same user while the clock shows the same
    second get the same id, and the second document replaces the first:
    after both, that id holds the second scan and no other id has been
    written. *)
Theorem same_second_scans_collide {clk : Clock}
  (first second : gmap string pyval) (user_id : option string)
  (w : world) (s : store) :
  db w = Some s ->
  let r1 := save_scan_to_database first user_id w in
  let r2 := save_scan_to_database second user_id r1.2 in
  strftime (utcnow (reads r1.2)) = strftime (utcnow (reads w)) ->
  r2.1 = r1.1 /\
  scans_of r2.2 !! r1.1
  = Some (scan_document r1.1 user_id second
            (isoformat (utcnow (S (reads r1.2))))) /\
  (forall other, other <> r1.1 -> scans_of r2.2 !! other = scans_of w !! other) /\
  scans_of r2.2 = <[r1.1 := scan_document r1.1 user_id second
                              (isoformat (utcnow (S (reads r1.2))))]>
                    (scans_of w).
Proof.
  intros Hdb r1 r2 Hsame.
  destruct (RecordFacts.save_scan_effect first user_id w s Hdb)
    as (Hid1 & s1 & Hdb1 & Hscans1 & _).
  fold r1 in Hid1, Hdb1.
  destruct (RecordFacts.save_scan_effect second user_id r1.2 s1 Hdb1)
    as (Hid2 & s2 & Hdb2 & Hscans2 & _).
  fold r2 in Hid2, Hdb2. rewrite Hsame, <- Hid1 in Hid2, Hscans2.
  assert (scans_of r2.2
          = <[r1.1 := scan_document r1.1 user_id second
                        (isoformat (utcnow (S (reads r1.2))))]> (scans_of w))
    as Hscans.
  { unfold scans_of. rewrite Hdb2, Hdb, Hscans2, Hscans1, <- Hid1.
    apply insert_insert_eq. }
  split; [exact Hid2 |]. rewrite Hscans.
  split; [apply lookup_insert_eq |]. split; [| reflexivity].
  intros other Hne. now rewrite lookup_insert_ne.
Qed.

(** The theorem at two scans of a new user within one second: one scan
    document, two scans counted. *)
Lemma same_second_scans_collide_witness :
  let r1 := @save_scan_to_database RefCodec.same_second
              MoreExamples.bottle_scan (Some "bo") MoreExamples.shop in
  let r2 := @save_scan_to_database RefCodec.same_second
              MoreExamples.bottle_scan (Some "bo") r1.2 in
  r2.1 = r1.1 /\
  size (scans_of r2.2) = 1%nat /\
  (exists doc, users_of r2.2 !! "bo" = Some doc /\
               doc !! "total_scans" = Some (PInt 2)).
Proof.
  destruct (@same_second_scans_collide RefCodec.same_second
              MoreExamples.bottle_scan MoreExamples.bottle_scan (Some "bo")
              MoreExamples.shop _ eq_refl eq_refl) as (Hid & _).
  split; [exact Hid |].
  split; [vm_compute; reflexivity |].
  eexists. split; vm_compute; reflexivity.
Defined.

(** X14.  A scan that has just been saved can be deleted by the user it
    was saved for, and by nobody else: the request of that user (of
    "anonymous" for a scan without user) succeeds and removes the
    document; the request of any other user is answered with 403 and
    changes nothing. *)
Theorem saved_scan_is_deleted_by_its_user_only {clk : Clock}
  (scan_data : gmap string pyval) (user_id : option string)
  (w : world) (s : store) (other : string) :
  db w = Some s ->
  other <> user_or_anonymous user_id ->
  let r := save_scan_to_database scan_data user_id w in
  let mine := delete_scan r.1 (user_or_anonymous user_id) r.2 in
  let theirs := delete_scan r.1 other r.2 in
  mine.1 = Waste.Return (list_to_map
                           [("success", PBool true);
                            ("message", PStr "Scan deleted successfully");
                            ("scan_id", PStr r.1)]) /\
  scans_of mine.2 = delete r.1 (scans_of w) /\
  users_of mine.2 = users_of r.2 /\
  theirs = (Waste.HTTPException 403
              (Waste.Text "Not authorized to delete this scan"), r.2).
Proof.
  intros Hdb Hother r mine theirs.
  destruct (RecordFacts.save_scan_effect scan_data user_id w s Hdb)
    as (Hid & s' & Hdb' & Hscans & _).
  fold r in Hid, Hdb'. rewrite <- Hid in Hscans.
  destruct (RecordFacts.scan_document_fields r.1 user_id scan_data
              (isoformat (utcnow (S (reads w))))) as (_ & Huser & _).
  cbv zeta in Huser.
  unfold mine, theirs, delete_scan, ne_str, scans_of, users_of.
  rewrite Hdb', Hdb, Hscans, lookup_insert_eq, Huser. simpl default.
  unfold eq_str. rewrite String.eqb_refl. simpl negb. cbv iota.
  destruct (String.eqb_spec (user_or_anonymous user_id) other) as [E | _];
    [now elim Hother |].
  simpl. repeat split. apply delete_insert_eq.
Qed.

(** The theorem at a scan without user: "anonymous" deletes it, "ana"
    does not. *)
Lemma saved_scan_is_deleted_by_its_user_only_witness :
  let r := @save_scan_to_database RefCodec.same_second
             MoreExamples.bottle_scan None MoreExamples.shop in
  scans_of (delete_scan r.1 "anonymous" r.2).2 = ∅ /\
  delete_scan r.1 "ana" r.2
  = (Waste.HTTPException 403
       (Waste.Text "Not authorized to delete this scan"), r.2).
Proof.
  destruct (@saved_scan_is_deleted_by_its_user_only RefCodec.same_second
              MoreExamples.bottle_scan None MoreExamples.shop _ "ana" eq_refl)
    as (_ & Hscans & _ & Htheirs).
  - discriminate.
  - split; [| exact Htheirs].
    etransitivity; [exact Hscans | vm_compute; reflexivity].
Defined.

(** X15.  For every stored integer total, negative ones too, the level the
    statistics route computes is the highest level reached, and level 1
    when none is; it lies between 1 and 7 and does not go down when the
    total goes up.  next_level_points is null exactly from 10000 points
    on; otherwise it is a positive integer, the least number of points
    that lifts the user to the next level. *)
Theorem level_of_every_integer_total (stats : gmap string pyval) (tp : Z) :
  default (PInt 0) (stats !! "total_points") = PInt tp ->
  exists level,
    Waste.calculate_level stats
    = Ok (<["next_level_points" := gap_to_next_level level tp]>
            (<["level" := PInt level]> stats)) /\
    level = Z.max 1 (highest_level_reached tp) /\
    1 <= level <= 7 /\
    (forall tp', tp <= tp' -> level <= Z.max 1 (highest_level_reached tp')) /\
    (gap_to_next_level level tp = PNone <-> 10000 <= tp) /\
    (forall gap,
       gap_to_next_level level tp = PInt gap ->
       0 < gap /\
       Z.max 1 (highest_level_reached (tp + gap)) = level + 1 /\
       Z.max 1 (highest_level_reached (tp + gap - 1)) = level).
Proof.
  intros Hstats. exists (Z.max 1 (highest_level_reached tp)).
  split; [exact (TotalFacts.calculate_level_every_int stats tp Hstats) |].
  split; [reflexivity |].
  split; [| split; [| split]].
  - rewrite TotalFacts.level_by_range.
    repeat match goal with
    | |- context [?a <=? tp] => destruct (Z.leb_spec a tp)
    end; lia.
  - intros tp' Hle. rewrite !TotalFacts.level_by_range.
    repeat match goal with
    | |- context [?a <=? ?x] => destruct (Z.leb_spec a x)
    end; lia.
  - rewrite TotalFacts.gap_by_range.
    repeat match goal with
    | |- context [?a <=? tp] => destruct (Z.leb_spec a tp)
    end; split; intros H'; first [lia | discriminate H' | reflexivity].
  - intros gap. rewrite TotalFacts.gap_by_range.
    rewrite !TotalFacts.level_by_range.
    repeat match goal with
    | |- context [?a <=? tp] => destruct (Z.leb_spec a tp)
    end; intros Hgap; try discriminate Hgap; injection Hgap as <-;
      (split; [lia |]);
      repeat match goal with
      | |- context [?a <=? ?x] => destruct (Z.leb_spec a x)
      end; lia.
Qed.

(** The theorem at a total of minus five. *)
Lemma level_of_every_integer_total_witness :
  Waste.calculate_level {[ "total_points" := PInt (-5) ]}
  = Ok (list_to_map [("total_points", PInt (-5)); ("level", PInt 1);
                     ("next_level_points", PInt 205)]).
Proof.
  assert (default (PInt 0)
            (({[ "total_points" := PInt (-5) ]} : gmap string pyval)
               !! "total_points") = PInt (-5)) as Htotal
    by (vm_compute; reflexivity).
  destruct (level_of_every_integer_total _ (-5) Htotal)
    as (level & Hrun & -> & _).
  rewrite Hrun. vm_compute. reflexivity.
Defined.

(** X16.  From the reply to the statistics, for a user who has a document
    with integer counters and a float for the CO2: after the result of
    [identify_waste] has been saved for the user, the statistics route
    shows one scan more and the points of the result (between 50 and 110)
    added to the total, with the level and next_level_points of the new
    total, whatever level the document stores.  This needs the CO2 of the
    reconciled result to be a float. *)
Theorem scan_shows_in_the_statistics {rt : PyRuntime} {clk : Clock}
  (str_e : pyexn -> string) (text : string)
  (elapsed timestamp elapsed_failed : float)
  (user_id : string) (user_data : gmap string pyval) (w : world) (s : store)
  (scans points : Z) (co2 saved : float) :
  db w = Some s ->
  users s !! user_id = Some user_data ->
  truthy (PStr user_id) = true ->
  default (PInt 0) (user_data !! "total_scans") = PInt scans ->
  default (PInt 0) (user_data !! "total_points") = PInt points ->
  default (PFloat 0.0) (user_data !! "co2_saved_kg") = PFloat co2 ->
  scan_co2 (_parse_gemini_response text) = Ok (PFloat saved) ->
  let r := identify_waste str_e (inr text) elapsed timestamp elapsed_failed in
  let w' := (save_scan_to_database r (Some user_id) w).2 in
  exists p stats,
    r !! "points_earned" = Some (PInt p) /\
    50 <= p <= 110 /\
    user_stats user_id w'
    = Waste.Return (list_to_map [("success", PBool true);
                                 ("user_id", PStr user_id);
                                 ("stats", PDict stats)]) /\
    stats !! "total_scans" = Some (PInt (scans + 1)) /\
    stats !! "total_points" = Some (PInt (points + p)) /\
    stats !! "co2_saved_kg" = Some (PFloat (co2 + saved)) /\
    stats !! "level"
    = Some (PInt (Z.max 1 (highest_level_reached (points + p)))) /\
    stats !! "next_level_points"
    = Some (gap_to_next_level (Z.max 1 (highest_level_reached (points + p)))
              (points + p)).
Proof.
  intros Hdb Huser Htruthy H1 H2 H3 Hco2 r w'.
  destruct (FlowFacts.identify_waste_reply str_e text elapsed timestamp
              elapsed_failed) as (p & _ & Hbounds & Hr).
  fold r in Hr.
  assert (r !! "points_earned" = Some (PInt p)) as Hp
    by (rewrite Hr; apply lookup_insert_eq).
  assert (scan_co2 r = Ok (PFloat saved)) as Hco2'.
  { rewrite <- Hco2. apply RecordFacts.scan_co2_depends.
    rewrite Hr, lookup_insert_ne by discriminate.
    now apply FlowFacts.with_metadata_other. }
  assert (default (PInt 0) (r !! "points_earned") = PInt p) as H4
    by now rewrite Hp.
  unfold w'.
  rewrite (RecordFacts.save_scan_with_client r (Some user_id) w s Hdb).
  cbn [snd]. rewrite Htruthy.
  set (stored := {| db := Some _; reads := _ |}).
  pose proof (RecordFacts.updated_fields_numbers user_data r (reads stored)
                scans points p co2 saved H1 H2 H3 H4 Hco2') as Hfields.
  rewrite (RecordFacts.update_existing_user user_id r user_data _ stored _
             eq_refl Huser Hfields).
  unfold user_stats, Waste.get_user_stats. cbn [db fmap option_fmap option_map users].
  rewrite lookup_insert_eq.
  match goal with
  | |- context [Waste.calculate_level ?d] =>
      assert (default (PInt 0) (d !! "total_points") = PInt (points + p))
        as Htotal
        by (erewrite lookup_union_Some_l;
            [reflexivity | RecordFacts.lookup_literal]);
      rewrite (TotalFacts.calculate_level_every_int d (points + p) Htotal)
  end.
  exists p. eexists. split; [exact Hp |]. split; [exact Hbounds |].
  split; [reflexivity |].
  repeat (split;
          [rewrite !lookup_insert_ne by discriminate;
           apply lookup_union_Some_l; RecordFacts.lookup_literal |]).
  split; [rewrite lookup_insert_ne by discriminate; apply lookup_insert_eq |].
  apply lookup_insert_eq.
Qed.

(** The theorem at a reply in prose: the fallback lifts a user with 1990
    points to level 5. *)
Lemma scan_shows_in_the_statistics_witness :
  let r := @identify_waste Ref.runtime (fun _ => "") (inr Examples.prose)
             0.25 1700000000 0.5 in
  let w' := (@save_scan_to_database RefCodec.same_second r (Some "ana")
               MoreExamples.shop).2 in
  exists stats,
    user_stats "ana" w'
    = Waste.Return (list_to_map [("success", PBool true);
                                 ("user_id", PStr "ana");
                                 ("stats", PDict stats)]) /\
    stats !! "total_points" = Some (PInt 2040) /\
    stats !! "level" = Some (PInt 5) /\
    stats !! "next_level_points" = Some (PInt 2960).
Proof.
  destruct (@scan_shows_in_the_statistics Ref.runtime RefCodec.same_second
              (fun _ => "") Examples.prose 0.25 1700000000 0.5
              "ana" MoreExamples.ana MoreExamples.shop _ 3 1990 1.5 0.0
              eq_refl eq_refl eq_refl eq_refl eq_refl eq_refl)
    as (p & stats & Hp & _ & Hstats & _ & Htotal & _ & Hlevel & Hgap).
  { vm_compute. reflexivity. }
  assert (p = 50) as ->.
  { vm_compute in Hp. now injection Hp as <-. }
  exists stats. split; [exact Hstats |].
  split; [exact Htotal | split; [exact Hlevel | exact Hgap]].
Defined.

(** X17.  The first scan of a user without document, from the reply to the
    statistics: saving the result of [identify_waste] stores the scan and
    creates the document, and the statistics route then shows one scan, the
    points of the result, level 1 and the points missing to 200.  This
    needs the impact entry of the reconciled result to be absent or an
    object. *)
Theorem first_scan_opens_the_statistics {rt : PyRuntime} {clk : Clock}
  (str_e : pyexn -> string) (text : string)
  (elapsed timestamp elapsed_failed : float)
  (user_id : string) (w : world) (s : store) (saved : pyval) :
  db w = Some s ->
  users s !! user_id = None ->
  truthy (PStr user_id) = true ->
  scan_co2 (_parse_gemini_response text) = Ok saved ->
  let r := identify_waste str_e (inr text) elapsed timestamp elapsed_failed in
  let saving := save_scan_to_database r (Some user_id) w in
  exists p stats,
    r !! "points_earned" = Some (PInt p) /\
    50 <= p <= 110 /\
    saving.1 = "scan_" +:+ strftime (utcnow (reads w)) +:+ "_" +:+ user_id /\
    is_Some (scans_of saving.2 !! saving.1) /\
    user_stats user_id saving.2
    = Waste.Return (list_to_map [("success", PBool true);
                                 ("user_id", PStr user_id);
                                 ("stats", PDict stats)]) /\
    stats !! "user_id" = Some (PStr user_id) /\
    stats !! "total_scans" = Some (PInt 1) /\
    stats !! "total_points" = Some (PInt p) /\
    stats !! "co2_saved_kg" = Some saved /\
    stats !! "level" = Some (PInt 1) /\
    stats !! "next_level_points" = Some (PInt (200 - p)).
Proof.
  intros Hdb Huser Htruthy Hco2 r saving.
  destruct (FlowFacts.identify_waste_reply str_e text elapsed timestamp
              elapsed_failed) as (p & _ & Hbounds & Hr).
  fold r in Hr.
  assert (r !! "points_earned" = Some (PInt p)) as Hp
    by (rewrite Hr; apply lookup_insert_eq).
  assert (scan_co2 r = Ok saved) as Hco2'.
  { rewrite <- Hco2. apply RecordFacts.scan_co2_depends.
    rewrite Hr, lookup_insert_ne by discriminate.
    now apply FlowFacts.with_metadata_other. }
  unfold saving.
  rewrite (RecordFacts.save_scan_with_client r (Some user_id) w s Hdb).
  cbn [fst snd]. rewrite Htruthy.
  assert (user_or_anonymous (Some user_id) = user_id) as ->
    by (unfold user_or_anonymous; now rewrite Htruthy).
  set (scan_id := "scan_" +:+ strftime (utcnow (reads w)) +:+ "_" +:+ user_id).
  set (stored := {| db := Some _; reads := _ |}).
  assert (new_user_fields user_id r (reads stored)
          = Ok (list_to_map
                  [("user_id", PStr user_id);
                   ("total_scans", PInt 1);
                   ("total_points", PInt p);
                   ("co2_saved_kg", saved);
                   ("level", PInt 1);
                   ("created_at", PStr (isoformat (utcnow (reads stored))));
                   ("last_scan_timestamp",
                    PStr (isoformat (utcnow (S (reads stored)))))]))
    as Hfields
    by (unfold new_user_fields; now rewrite Hco2', Hp).
  rewrite (RecordFacts.update_new_user user_id r _ stored _ eq_refl Huser
             Hfields).
  unfold user_stats, Waste.get_user_stats, scans_of.
  cbn [db fmap option_fmap option_map users waste_scans].
  rewrite !lookup_insert_eq.
  match goal with
  | |- context [Waste.calculate_level ?d] =>
      assert (default (PInt 0) (d !! "total_points") = PInt p) as Htotal
        by (replace (d !! "total_points") with (Some (PInt p));
            [reflexivity | symmetry; RecordFacts.lookup_literal]);
      rewrite (TotalFacts.calculate_level_every_int d p Htotal)
  end.
  assert (Z.max 1 (highest_level_reached p) = 1) as ->.
  { rewrite TotalFacts.level_by_range.
    repeat match goal with
    | |- context [?a <=? p] => destruct (Z.leb_spec a p)
    end; lia. }
  change (gap_to_next_level 1 p) with (PInt (200 - p)).
  exists p. eexists. split; [exact Hp |]. split; [exact Hbounds |].
  split; [reflexivity |]. split; [now eexists |].
  split; [reflexivity |].
  repeat split; rewrite ?lookup_insert_ne by discriminate;
    RecordFacts.lookup_literal.
Qed.

(** The theorem at a reply in prose and a new user. *)
Lemma first_scan_opens_the_statistics_witness :
  let r := @identify_waste Ref.runtime (fun _ => "") (inr Examples.prose)
             0.25 1700000000 0.5 in
  let saving := @save_scan_to_database RefCodec.same_second r (Some "bo")
                  MoreExamples.shop in
  saving.1 = "scan_20240101_120000_bo" /\
  exists stats,
    user_stats "bo" saving.2
    = Waste.Return (list_to_map [("success", PBool true);
                                 ("user_id", PStr "bo");
                                 ("stats", PDict stats)]) /\
    stats !! "total_points" = Some (PInt 50) /\
    stats !! "level" = Some (PInt 1) /\
    stats !! "next_level_points" = Some (PInt 150).
Proof.
  destruct (@first_scan_opens_the_statistics Ref.runtime RefCodec.same_second
              (fun _ => "") Examples.prose 0.25 1700000000 0.5
              "bo" MoreExamples.shop _ (PFloat 0.0) eq_refl eq_refl eq_refl)
    as (p & stats & Hp & _ & Hid & _ & Hstats & _ & _ & Htotal & _ & Hlevel
        & Hgap).
  { vm_compute. reflexivity. }
  assert (p = 50) as ->.
  { vm_compute in Hp. now injection Hp as <-. }
  split; [exact Hid |].
  exists stats. split; [exact Hstats |].
  split; [exact Htotal | split; [exact Hlevel | exact Hgap]].
Defined.

(** X18.  A result whose impact entry is not an object (the reconciler
    lets one through for a category without guide entry) is scored and
    its scan is stored with the points, but the statistics of the user are
    not touched: the points of such a scan are never credited. *)
Theorem scan_with_odd_impact_is_not_credited {rt : PyRuntime} {clk : Clock}
  (str_e : pyexn -> string) (text : string)
  (elapsed timestamp elapsed_failed : float)
  (user_id : string) (w : world) (s : store) (impact : pyval) :
  db w = Some s ->
  truthy (PStr user_id) = true ->
  _parse_gemini_response text !! "environmental_impact" = Some impact ->
  (forall d, impact <> PDict d) ->
  let r := identify_waste str_e (inr text) elapsed timestamp elapsed_failed in
  let saving := save_scan_to_database r (Some user_id) w in
  exists p doc,
    r !! "points_earned" = Some (PInt p) /\
    50 <= p <= 110 /\
    scans_of saving.2 !! saving.1 = Some doc /\
    doc !! "user_id" = Some (PStr user_id) /\
    doc !! "points_earned" = Some (PInt p) /\
    users_of saving.2 = users_of w.
Proof.
  intros Hdb Htruthy Himpact Hodd r saving.
  destruct (FlowFacts.identify_waste_reply str_e text elapsed timestamp
              elapsed_failed) as (p & _ & Hbounds & Hr).
  fold r in Hr.
  assert (r !! "points_earned" = Some (PInt p)) as Hp
    by (rewrite Hr; apply lookup_insert_eq).
  assert (scan_co2 r = Raise AttributeError) as Hco2.
  { rewrite (RecordFacts.scan_co2_depends (_parse_gemini_response text) r)
      by (rewrite Hr, lookup_insert_ne by discriminate;
          now apply FlowFacts.with_metadata_other).
    unfold scan_co2, py_get. rewrite Himpact. simpl default.
    destruct impact; try reflexivity. now elim (Hodd d). }
  unfold saving.
  rewrite (RecordFacts.save_scan_with_client r (Some user_id) w s Hdb).
  cbn [fst snd]. rewrite Htruthy.
  rewrite (RecordFacts.update_without_impact _ _ _ _ Hco2).
  unfold scans_of, users_of. rewrite Hdb. cbn [db waste_scans users].
  rewrite lookup_insert_eq.
  exists p. eexists. split; [exact Hp |]. split; [exact Hbounds |].
  split; [reflexivity |].
  destruct (RecordFacts.scan_document_fields
              ("scan_" +:+ strftime (utcnow (reads w)) +:+ "_"
               +:+ user_or_anonymous (Some user_id))
              (Some user_id) r (isoformat (utcnow (S (reads w)))))
    as (_ & Huser & Hpoints & _).
  cbv zeta in Huser, Hpoints.
  split; [rewrite Huser; unfold user_or_anonymous; now rewrite Htruthy |].
  split; [now rewrite Hpoints, Hp | reflexivity].
Qed.

(** The theorem at a reply with a word for the impact. *)
Lemma scan_with_odd_impact_is_not_credited_witness :
  let r := @identify_waste Ref.runtime (fun _ => "")
             (inr MoreExamples.vague_impact) 0.25 1700000000 0.5 in
  let saving := @save_scan_to_database RefCodec.same_second r (Some "ana")
                  MoreExamples.shop in
  r !! "points_earned" = Some (PInt 50) /\
  users_of saving.2 = users_of MoreExamples.shop.
Proof.
  destruct (@scan_with_odd_impact_is_not_credited Ref.runtime
              RefCodec.same_second (fun _ => "") MoreExamples.vague_impact
              0.25 1700000000 0.5 "ana" MoreExamples.shop _ (PStr "low")
              eq_refl eq_refl)
    as (p & doc & Hp & _ & _ & _ & _ & Husers).
  - vm_compute. reflexivity.
  - intros d H. discriminate H.
  - split; [| exact Husers].
    vm_compute. reflexivity.
Defined.

(** X19.  [GET /education/{category}] answers 404 for a category that is
    not configured, and also for "Unknown", which is configured but has no
    entry in the guide, whatever the model says.  For the seven other
    categories the content is the guide entry overlaid with the object of
    the model (none when the model fails or its reply is no object) and
    then with the category asked for, so the category is never the model's
    and every field of the guide is present; but an object of the model
    with a true "error" entry turns the answer into 404. *)
Theorem education_route_cases {rt : PyRuntime} {model : EducationModel}
  (category : string) :
  match Records.get_educational_content category with
  | Waste.Return content =>
      In category (WASTE_CATEGORIES settings) /\ category <> "Unknown" /\
      truthy (default PNone (ai_content category !! "error")) = false /\
      content !! "category" = Some (PStr category) /\
      exists guide,
        WASTE_DISPOSAL_GUIDES !! category = Some guide /\
        content = <["category" := PStr category]>
                    (ai_content category ∪ guide_dict guide) /\
        forall k, is_Some (guide_dict guide !! k) -> is_Some (content !! k)
  | Waste.HTTPException status_code d =>
      status_code = 404 /\
      ((~ In category (WASTE_CATEGORIES settings) /\
        d = Waste.Text ("Category '" +:+ category
                        +:+ "' not found. Use /categories to see valid categories."))
       \/
       (In category (WASTE_CATEGORIES settings) /\
        d = Waste.Text "Educational content not found" /\
        (category = "Unknown" \/
         truthy (default PNone (ai_content category !! "error")) = true)))
  end.
Proof.
  unfold Records.get_educational_content.
  destruct (existsb (String.eqb category) (WASTE_CATEGORIES settings)) eqn:Hin;
    simpl negb; cbv iota.
  2:{ split; [reflexivity |]. left. split; [| reflexivity].
      intros H. apply not_true_iff_false in Hin. apply Hin.
      apply existsb_exists. exists category. split; [exact H |].
      apply String.eqb_refl. }
  assert (In category (WASTE_CATEGORIES settings)) as Hcat.
  { apply existsb_exists in Hin as (x & Hx & Heq).
    apply String.eqb_eq in Heq. now subst x. }
  destruct (WASTE_DISPOSAL_GUIDES !! category) as [guide |] eqn:Hguide.
  - assert (category <> "Unknown") as Hknown
      by (apply (guide_covers_all_but_unknown category Hcat);
          exists guide; exact Hguide).
    rewrite (EducationFacts.content_error category guide Hguide).
    destruct (truthy (default PNone (ai_content category !! "error"))) eqn:Herr.
    + split; [reflexivity |]. right. split; [exact Hcat |].
      split; [reflexivity | now right].
    + rewrite (EducationFacts.content_of_guide category guide Hguide).
      split; [exact Hcat |]. split; [exact Hknown |]. split; [reflexivity |].
      split; [apply lookup_insert_eq |].
      exists guide. split; [reflexivity |]. split; [reflexivity |].
      intros k Hk. apply lookup_insert_is_Some'. right.
      apply lookup_union_is_Some. now right.
  - assert (category = "Unknown") as ->.
    { destruct (decide (category = "Unknown")) as [E | E]; [exact E |].
      apply (guide_covers_all_but_unknown category Hcat) in E.
      rewrite Hguide in E. now destruct E. }
    unfold GeminiFlow.get_educational_content. rewrite Hguide.
    simpl. split; [reflexivity |]. right.
    split; [exact Hcat |]. split; [reflexivity | now left].
Qed.

(** X20.  In a reply with a fence tagged json, whatever stands before the
    opening marker and after the closing one is ignored: when the text
    before and the text inside have no backtick, the reconciler reads the
    reply as if it were the stripped inside alone, whatever follows the
    closing marker (more fences too). *)
Theorem text_around_the_fence_is_ignored {rt : PyRuntime}
  (pre inner post : string) :
  free_of "`" pre = true ->
  free_of "`" inner = true ->
  let reply := pre +:+ "```json" +:+ inner +:+ "```" +:+ post in
  extract_json_text reply = strip inner /\
  _parse_gemini_response reply = _parse_gemini_response (strip inner).
Proof.
  intros Hpre Hinner reply.
  assert (extract_json_text reply = strip inner) as Hcut
    by now apply TextFacts.extract_tagged_fence.
  split; [exact Hcut |].
  unfold _parse_gemini_response. rewrite Hcut.
  now rewrite (TextFacts.extract_free (strip inner))
    by now apply TextFacts.free_of_strip.
Qed.

(** The theorem at an object in a fence between two sentences, the second
    with a fence of its own. *)
Lemma text_around_the_fence_is_ignored_witness :
  @_parse_gemini_response Ref.runtime MoreExamples.chatty_fence
  = @_parse_gemini_response Ref.runtime (object_text Examples.bottle_body) /\
  @_parse_gemini_response Ref.runtime MoreExamples.chatty_fence !! "item_name"
  = Some (PStr "Bottle").
Proof.
  destruct (@text_around_the_fence_is_ignored Ref.runtime "Here you are: "
              (Examples.nl +:+ object_text Examples.bottle_body +:+ Examples.nl)
              " Anything else? ```json {} ```")
    as [_ H]; [reflexivity | vm_compute; reflexivity |].
  split; [| vm_compute; reflexivity].
  etransitivity; [etransitivity; [| exact H] |];
    (vm_compute; reflexivity).
Defined.



(** X22.  The text [get_educational_content] hands to the JSON parser is
    the reply with the fence markers deleted, not the inside of the fence:
    for a reply with a fence tagged json whose parts have no backtick, it
    is the stripped text before, inside and after the fence put together,
    so that prose around the fence stays in (and the reply does not
    parse).  A reply without backtick is only stripped. *)
Theorem education_reply_keeps_the_prose (pre inner post : string) :
  free_of "`" pre = true ->
  free_of "`" inner = true ->
  free_of "`" post = true ->
  String.prefix "json" post = false ->
  strip_fences (pre +:+ "```json" +:+ inner +:+ "```" +:+ post)
  = strip (pre +:+ inner +:+ post) /\
  strip_fences inner = strip inner.
Proof.
  intros Hpre Hinner Hpost Hjson. unfold strip_fences, replace.
  change (String.eqb "```json" "") with false.
  change (String.eqb "```" "") with false. cbv iota.
  split.
  - rewrite (ReplaceFacts.replace_from_skip_free "`" "``json" "" pre _ Hpre).
    rewrite (ReplaceFacts.replace_from_match "`" "``json" "").
    rewrite app_nil.
    rewrite (ReplaceFacts.replace_from_skip_free "`" "``json" "" inner _ Hinner).
    rewrite (ReplaceFacts.closing_marker_is_untagged "" post Hpost Hjson).
    rewrite (ReplaceFacts.replace_from_skip_free "`" "``" "" pre _ Hpre).
    rewrite (ReplaceFacts.replace_from_skip_free "`" "``" "" inner _ Hinner).
    rewrite (ReplaceFacts.replace_from_match "`" "``" "").
    rewrite app_nil.
    now rewrite (ReplaceFacts.replace_from_free "`" "``" "" post Hpost).
  - rewrite (ReplaceFacts.replace_from_free "`" "``json" "" inner Hinner).
    now rewrite (ReplaceFacts.replace_from_free "`" "``" "" inner Hinner).
Qed.

(** The theorem at a fenced object after a greeting, and the content a
    model that answers with a bare fenced object gives for "E-Waste": its
    bin replaces the guide's, its category does not replace the one asked
    for. *)
Lemma education_reply_keeps_the_prose_witness :
  strip_fences ("Sure: ```json {} ```") = "Sure:  {}" /\
  @GeminiFlow.get_educational_content Ref.runtime RefCodec.chatty_model
    "E-Waste" !! "bin_color" = Some (PStr "PINK") /\
  @GeminiFlow.get_educational_content Ref.runtime RefCodec.chatty_model
    "E-Waste" !! "category" = Some (PStr "E-Waste") /\
  @GeminiFlow.get_educational_content Ref.runtime RefCodec.silent_model
    "E-Waste" !! "bin_color" = Some (PStr "SPECIAL").
Proof.
  destruct (education_reply_keeps_the_prose "Sure: " " {} " ""
              eq_refl eq_refl eq_refl eq_refl) as [H _].
  split; [etransitivity; [exact H | vm_compute; reflexivity] |].
  repeat split; vm_compute; reflexivity.
Defined.

(** X23.  [_optimize_image] leaves the size of an image with no side above
    1024 pixels, and computes the new sides of a larger one as
    [int(dim * (1024 / longer))]: for every longer side from 1025 to 4096
    pixels (the most the validator lets through) the new longer side is
    1024 or, where the product falls just below 1024, 1023. *)
Theorem longer_side_is_resized_to_the_optimum (width height : Z) :
  (Z.max width height <= 1024 ->
   ImageResize.resize_target ImageProcessor.get_image_processor (width, height)
   = Ok (width, height)) /\
  (1024 < Z.max width height <= 4096 ->
   exists s,
     ImageResize.resized_longer_side ImageProcessor.get_image_processor
       (Z.max width height) = Ok s /\
     (s = 1023 \/ s = 1024) /\
     forall w h,
       ImageResize.resize_target ImageProcessor.get_image_processor
         (width, height) = Ok (w, h) ->
       (height <= width -> w = s) /\ (width <= height -> h = s)).
Proof.
  split.
  - intros H. unfold ImageResize.resize_target. cbn [fst snd].
    change (ImageProcessor.optimal_dimension ImageProcessor.get_image_processor)
      with 1024.
    now rewrite (proj2 (Z.ltb_ge _ _) H).
  - intros [Hlo Hhi].
    pose proof (ResizeFacts.all_from_spec _ _ _ ResizeFacts.longer_sides_checked
                  (Z.max width height) ltac:(lia)) as Hok.
    unfold ImageResize.longer_side_ok in Hok.
    destruct (ImageResize.resized_longer_side _ _) as [s | e] eqn:Hs;
      [| discriminate Hok].
    exists s. split; [reflexivity |]. split; [lia |].
    intros w h. unfold ImageResize.resize_target. cbn [fst snd].
    change (ImageProcessor.optimal_dimension ImageProcessor.get_image_processor)
      with 1024.
    rewrite (proj2 (Z.ltb_lt _ _) Hlo).
    unfold ImageResize.resized_longer_side in Hs.
    change (ImageProcessor.optimal_dimension ImageProcessor.get_image_processor)
      with 1024 in Hs.
    destruct (Fmt.true_div 1024 (Z.max width height)) as [ratio | e];
      [| discriminate Hs].
    rewrite bind_Ok in Hs. rewrite bind_Ok.
    destruct (ImageResize.scale_dim ratio width) as [w' | e] eqn:Hw;
      [| discriminate].
    rewrite bind_Ok.
    destruct (ImageResize.scale_dim ratio height) as [h' | e] eqn:Hh;
      [| discriminate].
    rewrite bind_Ok. intros H. injection H as <- <-.
    split; intros Hle.
    + rewrite Z.max_l in Hs by exact Hle. congruence.
    + rewrite Z.max_r in Hs by exact Hle. congruence.
Qed.

(** The theorem at 1122 by 800 pixels: the longer side becomes 1023. *)
Lemma longer_side_is_resized_to_the_optimum_witness :
  ImageResize.resize_target ImageProcessor.get_image_processor (800, 600)
  = Ok (800, 600) /\
  ImageResize.resize_target ImageProcessor.get_image_processor (1122, 800)
  = Ok (1023, 730).
Proof.
  split.
  - apply (proj1 (longer_side_is_resized_to_the_optimum 800 600)). lia.
  - destruct (proj2 (longer_side_is_resized_to_the_optimum 1122 800))
      as (s & _ & _ & _); [lia |].
    vm_compute. reflexivity.
Defined.

(** X24.  [batch_process_images] never raises and returns one entry a
    file, in the order of the files and whatever max_workers is.  With the
    default settings, the entry of a file the validator refuses is the
    error entry with the name of the file and the message of the
    validator, and the processing proper is not reached; the entry of a
    file the validator accepts is what the processing gives, or the error
    entry with the text of its exception. *)
Theorem batch_keeps_one_entry_a_file {lib : ImagingLib} {pil : Pillow}
  (str_e : pyexn -> string) (image_files : list (list Byte.byte * string))
  (max_workers : Z) :
  let results := ImageBatch.batch_process_images str_e image_files max_workers in
  length results = length image_files /\
  forall (i : nat) (file_data : list Byte.byte) (filename : string),
    image_files !! i = Some (file_data, filename) ->
    exists verdict,
      ImageProcessor.validate_uploaded_file file_data filename = Ok verdict /\
      match verdict with
      | (true, _) =>
          results !! i
          = Some (match process_valid file_data filename with
                  | inr result => inr result
                  | inl message =>
                      inl (ImageBatch.error_entry filename message)
                  end)
      | (false, message) =>
          exists text, message = Some text /\
            results !! i = Some (inl (ImageBatch.error_entry filename text))
      end.
Proof.
  intros results. unfold results, ImageBatch.batch_process_images.
  rewrite BatchFacts.batch_loop_map, List.app_nil_l.
  split; [apply List.length_map |].
  intros i file_data filename Hi.
  rewrite list_lookup_fmap, Hi. cbn [fmap option_fmap option_map fst snd].
  destruct (ImageFacts.validate_uploaded_file_returns file_data filename)
    as [verdict Hv].
  exists verdict. split; [exact Hv |].
  unfold ImageBatch.process_image.
  unfold ImageProcessor.validate_uploaded_file in Hv. rewrite Hv.
  destruct (ImageFacts.validate_image_cases _ _ _ _ Hv)
    as [[text ->] | (-> & _)].
  - exists text. split; reflexivity.
  - reflexivity.
Qed.
